(** * Clickstream benchmark data generator

    A shallow embedding of [src/data_generation/generator.py]: the
    [DataSize] enumeration, the [ClickstreamDataGenerator] class and the
    orchestrating function [generate_benchmark_data], followed by the
    properties of the specification that are checked against them.

    The Python program is effectful: it draws from the module-level
    generator of [random], from the generator shared by all [Faker] proxies,
    from the operating system's entropy pool (through [uuid.uuid4]) and it
    writes files.  All four are fields of an explicit [world] that every
    operation threads through; exceptions are outcomes that keep the world
    reached when they were raised. *)

From Stdlib Require Import ZArith NArith QArith String Ascii List Lia.
From stdpp Require Import base option list gmap strings fin_maps.

Local Open Scope string_scope.
Local Open Scope Z_scope.

(** ** Python values and exceptions *)

Inductive message :=
  | InvalidSizeMsg (allowed : list string)
      (* f"Invalid size. Must be one of {[s.value for s in DataSize]}" *)
  | UnsupportedFormatsMsg (invalid supported : gset string)
      (* f"Unsupported formats: {invalid_formats}. Supported: {supported_formats}" *)
  | EmptyRangeMsg (start stop : Z).
      (* random.randrange: "empty range in randrange(start, stop)" *)

Inductive exn :=
  | ValueError (msg : message)
  | OverflowError
  | IndexError
  | FileNotFoundError.

Inductive outcome (A : Type) :=
  | Ret (a : A)
  | Raise (e : exn).
Arguments Ret {A} a.
Arguments Raise {A} e.

(** ** [datetime]: naive date-times and durations

    A naive [datetime] is a point of the proleptic Gregorian time line with
    a resolution of one microsecond.  It is represented by the number of
    microseconds since 0001-01-01T00:00:00, that is
    [(toordinal() - 1) * 86400 * 10^6] plus the time of day; a [timedelta]
    is a signed number of microseconds.  Comparison of datetimes is the
    comparison of these numbers. *)

Module datetime.

Definition datetime := Z.
Definition timedelta := Z.

Definition US_PER_SECOND : Z := 1000000.
Definition US_PER_DAY : Z := 86400 * US_PER_SECOND.

(* _MAXORDINAL = date(9999, 12, 31).toordinal() *)
Definition MAXORDINAL : Z := 3652059.

(** [datetime.min <= d <= datetime.max] *)
Definition in_range (d : Z) : Prop := 0 <= d < MAXORDINAL * US_PER_DAY.
Definition in_rangeb (d : Z) : bool :=
  (0 <=? d) && (d <? MAXORDINAL * US_PER_DAY).

Definition is_leap (year : Z) : bool :=
  (year mod 4 =? 0) && (negb (year mod 100 =? 0) || (year mod 400 =? 0)).

Definition days_before_year (year : Z) : Z :=
  let y := year - 1 in
  y * 365 + y / 4 - y / 100 + y / 400.

(* _DAYS_IN_MONTH, index 0 is a placeholder *)
Definition DAYS_IN_MONTH : list Z :=
  [-1; 31; 28; 31; 30; 31; 30; 31; 31; 30; 31; 30; 31].

(* _DAYS_BEFORE_MONTH, index 0 is a placeholder *)
Definition DAYS_BEFORE_MONTH : list Z :=
  [-1; 0; 31; 59; 90; 120; 151; 181; 212; 243; 273; 304; 334].

Definition table (t : list Z) (i : Z) : Z := nth (Z.to_nat i) t 0.

Definition days_before_month (year month : Z) : Z :=
  table DAYS_BEFORE_MONTH month
  + (if (2 <? month) && is_leap year then 1 else 0).

Definition ymd2ord (year month day : Z) : Z :=
  days_before_year year + days_before_month year month + day.

Definition DI400Y : Z := 146097.
Definition DI100Y : Z := 36524.
Definition DI4Y : Z := 1461.

(* _ord2ymd *)
Definition ord2ymd (n : Z) : Z * Z * Z :=
  let n := n - 1 in
  let n400 := n / DI400Y in
  let n := n mod DI400Y in
  let year := n400 * 400 + 1 in
  let n100 := n / DI100Y in
  let n := n mod DI100Y in
  let n4 := n / DI4Y in
  let n := n mod DI4Y in
  let n1 := n / 365 in
  let n := n mod 365 in
  let year := year + n100 * 100 + n4 * 4 + n1 in
  if (n1 =? 4) || (n100 =? 4) then (year - 1, 12, 31)
  else
    let leapyear := (n1 =? 3) && (negb (n4 =? 24) || (n100 =? 3)) in
    let month := Z.shiftr (n + 50) 5 in
    let preceding :=
      table DAYS_BEFORE_MONTH month
      + (if (2 <? month) && leapyear then 1 else 0) in
    if n <? preceding then
      let month := month - 1 in
      let preceding :=
        preceding
        - (table DAYS_IN_MONTH month
           + (if (month =? 2) && leapyear then 1 else 0)) in
      (year, month, n - preceding + 1)
    else (year, month, n - preceding + 1).

(** [datetime(year, month, day)]; the program only builds the two
    constants 2024-01-01 and 2024-02-01, for which the constructor's
    range checks pass. *)
Definition of_ymd (year month day : Z) : datetime :=
  (ymd2ord year month day - 1) * US_PER_DAY.

(** [timedelta(days=d)]: the day count of a timedelta is limited to
    nine decimal digits. *)
Definition MAX_DELTA_DAYS : Z := 999999999.

Definition timedelta_days (d : Z) : outcome timedelta :=
  if (- MAX_DELTA_DAYS <=? d) && (d <=? MAX_DELTA_DAYS)
  then Ret (d * US_PER_DAY) else Raise OverflowError.

(** [timedelta(seconds=s)] for an integer [s]: normalised to days,
    seconds and microseconds, with the same limit on the days. *)
Definition timedelta_seconds (s : Z) : outcome timedelta :=
  let d := s / 86400 in
  if (- MAX_DELTA_DAYS <=? d) && (d <=? MAX_DELTA_DAYS)
  then Ret (s * US_PER_SECOND) else Raise OverflowError.

(** [d + delta]: "result out of range" outside year 1..9999. *)
Definition add (d : datetime) (delta : timedelta) : outcome datetime :=
  if in_rangeb (d + delta) then Ret (d + delta) else Raise OverflowError.

(** [a - b] of two datetimes: always representable. *)
Definition sub (a b : datetime) : timedelta := a - b.

(** [int(delta.total_seconds())].  [total_seconds] is the float
    [microseconds / 10**6]; on a whole number of seconds below 2^53 (every
    difference of two datetimes that are whole days apart) the division is
    exact and [int] returns the quotient, truncated toward zero. *)
Definition int_total_seconds (delta : timedelta) : Z :=
  Z.quot delta US_PER_SECOND.

(** [d.replace(hour=0, minute=0, second=0, microsecond=0)] *)
Definition midnight (d : datetime) : datetime := d - d mod US_PER_DAY.

Definition digit (n : Z) : ascii := ascii_of_nat (48 + Z.to_nat (n mod 10)).

Definition pad2 (n : Z) : string :=
  String (digit (n / 10)) (String (digit n) EmptyString).

Definition pad4 (n : Z) : string :=
  String (digit (n / 1000)) (String (digit (n / 100)) (pad2 n)).

(** [d.strftime("%Y-%m-%d")], for the four-digit years the program
    formats (2024 and later). *)
Definition strftime_Ymd (d : datetime) : string :=
  let '(y, m, dd) := ord2ymd (d / US_PER_DAY + 1) in
  pad4 y ++ "-" ++ pad2 m ++ "-" ++ pad2 dd.

End datetime.

(** ** Library interfaces

    The pseudo-random generator behind [random] and [Faker] (two instances
    of [random.Random], a Mersenne Twister), Faker's IPv4 provider and the
    size of the files the polars writers produce are not code of this
    program.  They are taken through the interfaces below. *)

(** [random.Random]: [rng_seed] is [Random.seed] on an integer,
    [randbelow] is [Random._randbelow], which for [n > 0] returns a value of
    [range(n)]. *)
Class PRNG := {
  rng_state : Type;
  rng_seed : Z -> rng_state;
  randbelow : Z -> rng_state -> Z * rng_state;
  randbelow_range : forall n g, 0 < n -> 0 <= fst (randbelow n g) < n
}.

(** [Faker().ipv4()]: a string computed from draws of Faker's generator. *)
Class FakerProvider (R : PRNG) := {
  ipv4 : rng_state -> string * rng_state
}.

(** ** The event record and the tables written to disk *)

Inductive pyval :=
  | PyStr (s : string)
  | PyDatetime (d : datetime.datetime)
  | PyNone.

(** An event is a [dict[str, Any]]; insertion order is kept because it
    fixes the column order of the data frame. *)
Definition event := list (string * pyval).

Fixpoint dict_get (d : event) (k : string) : option pyval :=
  match d with
  | [] => None
  | (k', v) :: d' => if String.eqb k' k then Some v else dict_get d' k
  end.

(** [pl.DataFrame(events)] for a list of dicts with the same keys: the
    columns are the keys in insertion order, one row per dict. *)
Record DataFrame := {
  columns : list string;
  rows : list (list pyval)
}.

Definition DataFrame_of (events : list event) : DataFrame :=
  {| columns := match events with [] => [] | e :: _ => map fst e end;
     rows := map (map snd) events |}.

(** What a written file holds.  The serialisation itself is polars'; a CSV
    file is a header line followed by one line per row, a Parquet file the
    schema and the rows. *)
Inductive file_data :=
  | CsvFile (header : list string) (data_rows : list (list pyval))
  | ParquetFile (schema : list string) (data_rows : list (list pyval)).

Definition file_rows (f : file_data) : list (list pyval) :=
  match f with CsvFile _ r => r | ParquetFile _ r => r end.

Definition file_columns (f : file_data) : list string :=
  match f with CsvFile h _ => h | ParquetFile h _ => h end.

(** [path.stat().st_size]: the number of bytes of the serialised file. *)
Class Encoding := {
  st_size : file_data -> Z
}.

(** ** [pathlib.Path] (POSIX flavour) *)

Record Path := {
  anchor : string;        (* "", "/" or "//" *)
  parts : list string     (* the components after the anchor *)
}.

Global Instance Path_eq_dec : EqDecision Path.
Proof. solve_decision. Defined.

Global Instance Path_countable : Countable Path :=
  inj_countable' (fun p => (anchor p, parts p))
                 (fun ap => {| anchor := ap.1; parts := ap.2 |})
                 (fun p => match p with Build_Path _ _ => eq_refl end).

Module pathlib.

Definition slash : ascii := "/"%char.

(** [s.split("/")] *)
Fixpoint split_slash (cur : string) (s : string) : list string :=
  match s with
  | EmptyString => [String.rev cur]
  | String c s' =>
      if Ascii.eqb c slash then String.rev cur :: split_slash EmptyString s'
      else split_slash (String c cur) s'
  end.

(** [posixpath.splitroot]: one leading slash, or three and more, give the
    root "/"; exactly two give "//". *)
Definition splitroot (p : string) : string * string :=
  match p with
  | String c1 p1 =>
      if Ascii.eqb c1 slash then
        match p1 with
        | String c2 p2 =>
            if Ascii.eqb c2 slash then
              match p2 with
              | String c3 _ =>
                  if Ascii.eqb c3 slash then ("/", p1) else ("//", p2)
              | EmptyString => ("//", p2)
              end
            else ("/", p1)
        | EmptyString => ("/", p1)
        end
      else ("", p)
  | EmptyString => ("", p)
  end.

(** [Path(s)]: empty components and "." are dropped. *)
Definition of_string (s : string) : Path :=
  let '(root, rel) := splitroot s in
  {| anchor := root;
     parts := filter (fun x => x <> "" /\ x <> ".") (split_slash "" rel) |}.

(** [p / name], for a [name] that is a single component (no slash, not
    empty, not "."): every name the program joins is of that kind. *)
Definition div (p : Path) (name : string) : Path :=
  {| anchor := anchor p; parts := parts p ++ [name] |}.

Fixpoint join (l : list string) : string :=
  match l with
  | [] => ""
  | [x] => x
  | x :: l' => x ++ "/" ++ join l'
  end.

(** [str(p)] *)
Definition str (p : Path) : string :=
  match anchor p, parts p with
  | "", [] => "."
  | a, ps => a ++ join ps
  end.

(** [p.parents], nearest first, and [p] itself in front. *)
Fixpoint prefixes (l : list string) : list (list string) :=
  match l with
  | [] => [[]]
  | x :: l' => [] :: map (cons x) (prefixes l')
  end.

Definition self_and_parents (p : Path) : list Path :=
  map (fun ps => {| anchor := anchor p; parts := ps |}) (prefixes (parts p)).

End pathlib.

(** ** The file system

    A store of directories and regular files.  Storage failures
    (permissions, a full disk, a regular file where a directory is needed)
    are the environment's and are not modelled: operations on the store
    succeed. *)
Record filesystem := {
  dirs : gset Path;
  files : gmap Path file_data
}.

(** [p.mkdir(parents=True, exist_ok=True)] *)
Definition mkdir_parents (p : Path) (fs : filesystem) : filesystem :=
  {| dirs := list_to_set (pathlib.self_and_parents p) ∪ dirs fs;
     files := files fs |}.

Definition write_file (p : Path) (d : file_data) (fs : filesystem) : filesystem :=
  {| dirs := dirs fs; files := <[p := d]> (files fs) |}.

(** ** UUIDs *)

Module uuid.

(** [int.from_bytes(bs, "big")] *)
Definition int_from_bytes (bs : list Byte.byte) : Z :=
  fold_left (fun acc b => acc * 256 + Z.of_N (Byte.to_N b)) bs 0.

(** [UUID(bytes=..., version=4)]: the variant and version bits are
    forced. *)
Definition set_version4 (n : Z) : Z :=
  let n := Z.land n (Z.lnot (Z.shiftl 0xc000 48)) in
  let n := Z.lor n (Z.shiftl 0x8000 48) in
  let n := Z.land n (Z.lnot (Z.shiftl 0xf000 64)) in
  Z.lor n (Z.shiftl 4 76).

Definition hex_digit (n : Z) : ascii :=
  if n <? 10 then ascii_of_nat (48 + Z.to_nat n)
  else ascii_of_nat (87 + Z.to_nat n).

(** ['%032x' % n] *)
Definition hex32 (n : Z) : list ascii :=
  map (fun i => hex_digit (Z.land (Z.shiftr n (4 * (31 - Z.of_nat i))) 15))
      (seq 0 32).

(** [str(UUID)]: 8-4-4-4-12 *)
Definition str (n : Z) : string :=
  let h := hex32 n in
  let dash := ["-"%char] in
  string_of_list_ascii
    (take 8 h ++ dash ++ take 4 (drop 8 h) ++ dash ++ take 4 (drop 12 h)
     ++ dash ++ take 4 (drop 16 h) ++ dash ++ drop 20 h)%list.

Definition of_bytes (bs : list Byte.byte) : string :=
  str (set_version4 (int_from_bytes bs)).

End uuid.

(** ** The generator *)

Inductive DataSize := SMALL | MEDIUM | LARGE.

Definition DataSize_value (s : DataSize) : string :=
  match s with SMALL => "small" | MEDIUM => "medium" | LARGE => "large" end.

(* iteration order of the enumeration *)
Definition DataSize_members : list DataSize := [SMALL; MEDIUM; LARGE].

(** [DataSize(value)]: lookup of a member by value, [None] standing for the
    [ValueError] of the enumeration. *)
Definition DataSize_of_value (v : string) : option DataSize :=
  find (fun s => String.eqb (DataSize_value s) v) DataSize_members.

Definition SIZE_RECORD_COUNTS (s : DataSize) : Z :=
  match s with
  | SMALL => 100000
  | MEDIUM => 10000000
  | LARGE => 100000000
  end.

Definition PAGES : list string :=
  ["/"; "/home"; "/products"; "/about"; "/contact"; "/login"; "/search";
   "/cart"; "/checkout"].

Definition COUNTRIES : list string :=
  ["US"; "CA"; "GB"; "DE"; "FR"; "IT"; "ES"; "AU"; "JP"].

Definition DEVICES : list string := ["desktop"; "mobile"; "tablet"].

(** The fields of an instance: [self.size] and [self.record_count]
    ([self.faker] is a proxy onto Faker's shared generator, which lives in
    the world). *)
Record ClickstreamDataGenerator := {
  size : DataSize;
  record_count : Z
}.

(** [range(n)] *)
Definition range (n : Z) : list Z := map Z.of_nat (seq 0 (Z.to_nat n)).

Section Program.

Context {R : PRNG} {F : FakerProvider R} {E : Encoding}.

(** Everything the program reads and changes besides its arguments. *)
Record world := {
  random_state : rng_state;        (* the generator behind [random.*] *)
  faker_state : rng_state;         (* the generator shared by Faker *)
  os_entropy : N -> Byte.byte;     (* what [os.urandom] will deliver *)
  os_pos : N;                      (* how many bytes it has delivered *)
  fs : filesystem
}.

Definition set_random (g : rng_state) (w : world) : world :=
  {| random_state := g; faker_state := faker_state w;
     os_entropy := os_entropy w; os_pos := os_pos w; fs := fs w |}.

Definition set_faker (g : rng_state) (w : world) : world :=
  {| random_state := random_state w; faker_state := g;
     os_entropy := os_entropy w; os_pos := os_pos w; fs := fs w |}.

Definition set_os_pos (p : N) (w : world) : world :=
  {| random_state := random_state w; faker_state := faker_state w;
     os_entropy := os_entropy w; os_pos := p; fs := fs w |}.

Definition set_fs (f : filesystem) (w : world) : world :=
  {| random_state := random_state w; faker_state := faker_state w;
     os_entropy := os_entropy w; os_pos := os_pos w; fs := f |}.

(** Computations: a result or an exception, and the world reached. *)
Definition M (A : Type) : Type := world -> outcome A * world.

Definition ret {A} (a : A) : M A := fun w => (Ret a, w).

Definition raise {A} (e : exn) : M A := fun w => (Raise e, w).

Definition bind {A B} (m : M A) (k : A -> M B) : M B :=
  fun w =>
    match m w with
    | (Ret a, w') => k a w'
    | (Raise e, w') => (Raise e, w')
    end.

Definition lift {A} (o : outcome A) : M A := fun w => (o, w).

Notation "'let*' x ':=' m 'in' k" := (bind m (fun x => k))
  (at level 10, x name, m at level 100, k at level 200).

(** [for x in l: acc = body(acc, x)] *)
Fixpoint for_each {A B} (body : B -> A -> M B) (l : list A) (acc : B) : M B :=
  match l with
  | [] => ret acc
  | x :: l' => let* acc' := body acc x in for_each body l' acc'
  end.

(** *** [random] *)

(** [random.randint(a, b)] is [randrange(a, b + 1)] *)
Definition randint (a b : Z) : M Z :=
  fun w =>
    let width := b + 1 - a in
    if 0 <? width then
      let '(r, g) := randbelow width (random_state w) in
      (Ret (a + r), set_random g w)
    else (Raise (ValueError (EmptyRangeMsg a (b + 1))), w).

(** [random.choice(seq)] *)
Definition choice (seq : list string) : M string :=
  fun w =>
    match seq with
    | [] => (Raise IndexError, w)
    | _ =>
        let '(i, g) := randbelow (Z.of_nat (length seq)) (random_state w) in
        match seq !! Z.to_nat i with
        | Some x => (Ret x, set_random g w)
        | None => (Raise IndexError, set_random g w)
        end
    end.

(** [os.urandom(n)] *)
Definition urandom (n : nat) : M (list Byte.byte) :=
  fun w =>
    (Ret (map (fun i => os_entropy w (os_pos w + N.of_nat i)%N) (seq 0 n)),
     set_os_pos (os_pos w + N.of_nat n)%N w).

(** [str(uuid.uuid4())] *)
Definition uuid4_str : M string :=
  let* bs := urandom 16 in ret (uuid.of_bytes bs).

(** [self.faker.ipv4()] *)
Definition faker_ipv4 : M string :=
  fun w => let '(s, g) := ipv4 (faker_state w) in (Ret s, set_faker g w).

(** *** [ClickstreamDataGenerator] *)

(** [ClickstreamDataGenerator.__init__] *)
Definition __init__ (size : DataSize) (seed : option Z) : M ClickstreamDataGenerator :=
  fun w =>
    (Ret {| size := size; record_count := SIZE_RECORD_COUNTS size |},
     match seed with
     | Some s => set_random (rng_seed s) (set_faker (rng_seed s) w)
     | None => w
     end).

Definition _generate_event (timestamp : datetime.datetime) : M event :=
  let* event_id := uuid4_str in
  let* user_id := uuid4_str in
  let* session_id := uuid4_str in
  let* page_url := choice PAGES in
  let* country := choice COUNTRIES in
  let* device := choice DEVICES in
  let* ip_address := faker_ipv4 in
  ret [("event_id", PyStr event_id);
       ("user_id", PyStr user_id);
       ("session_id", PyStr session_id);
       ("timestamp", PyDatetime timestamp);
       ("page_url", PyStr page_url);
       ("country", PyStr country);
       ("device", PyStr device);
       ("ip_address", PyStr ip_address)].

Definition generate_bulk_data (self : ClickstreamDataGenerator)
    (start_date : datetime.datetime) (days : Z) : M (list event) :=
  let* delta := lift (datetime.timedelta_days days) in
  let* end_date := lift (datetime.add start_date delta) in
  for_each
    (fun events _ =>
       let* random_seconds :=
         randint 0 (datetime.int_total_seconds (datetime.sub end_date start_date)) in
       let* d := lift (datetime.timedelta_seconds random_seconds) in
       let* timestamp := lift (datetime.add start_date d) in
       let* e := _generate_event timestamp in
       ret (events ++ [e])%list)
    (range (record_count self)) [].

Definition generate_incremental_data (self : ClickstreamDataGenerator)
    (date : datetime.datetime) (records_per_day : Z) : M (list event) :=
  let start_of_day := datetime.midnight date in
  for_each
    (fun events _ =>
       let* random_seconds := randint 0 86400 in
       let* d := lift (datetime.timedelta_seconds random_seconds) in
       let* timestamp := lift (datetime.add start_of_day d) in
       let* e := _generate_event timestamp in
       ret (events ++ [e])%list)
    (range records_per_day) [].

(** The shape shared by the bodies of the two loops above: an offset
    of at most [hi] seconds from [base], then one event at that time. *)
Definition timed_step (base : datetime.datetime) (hi : Z)
    (events : list event) (_ : Z) : M (list event) :=
  let* random_seconds := randint 0 hi in
  let* d := lift (datetime.timedelta_seconds random_seconds) in
  let* timestamp := lift (datetime.add base d) in
  let* e := _generate_event timestamp in
  ret (events ++ [e])%list.

(** *** Files *)

Definition mkdir (p : Path) : M unit :=
  fun w => (Ret tt, set_fs (mkdir_parents p (fs w)) w).

(** [df.write_csv(p)]: a header with the column names, then the rows *)
Definition write_csv (df : DataFrame) (p : Path) : M unit :=
  fun w => (Ret tt, set_fs (write_file p (CsvFile (columns df) (rows df)) (fs w)) w).

Definition write_parquet (df : DataFrame) (p : Path) : M unit :=
  fun w => (Ret tt, set_fs (write_file p (ParquetFile (columns df) (rows df)) (fs w)) w).

(** [p.stat().st_size / (1024 * 1024)].  The quotient of a byte count
    by a power of two is exact in binary floating point, so the float is
    this rational number. *)
Definition stat_size_mb (p : Path) : M Q :=
  fun w =>
    match files (fs w) !! p with
    | Some d => (Ret (Qmake (st_size d) 1048576), w)
    | None => (Raise FileNotFoundError, w)
    end.

(** *** The manifest *)

(* {"path": ..., "records": ..., "size_mb": ...} *)
Record bulk_entry := {
  bulk_path : string;
  bulk_records : Z;
  bulk_size_mb : Q
}.

(* {"date": ..., "path": ..., "records": ..., "size_mb": ...} *)
Record incremental_entry := {
  incr_date : string;
  incr_path : string;
  incr_records : Z;
  incr_size_mb : Q
}.

(* {"bulk": ..., "incremental": [...]} *)
Record format_results := {
  fr_bulk : bulk_entry;
  fr_incremental : list incremental_entry
}.

(* {"size": ..., "bulk_record_count": ..., "incremental_days": ..., "files": {...}} *)
Record results := {
  res_size : string;
  res_bulk_record_count : Z;
  res_incremental_days : Z;
  res_files : gmap string format_results
}.

(** *** [generate_benchmark_data] *)

Definition supported_formats : gset string := {["csv"; "parquet"]}.

Definition default_formats : list string := ["csv"; "parquet"].

Definition bulk_start_date : datetime.datetime := datetime.of_ymd 2024 1 1.

Definition incremental_start_date : datetime.datetime := datetime.of_ymd 2024 2 1.

(* f"bulk_data_{size}.{format_type}" *)
Definition bulk_filename (size format_type : string) : string :=
  "bulk_data_" ++ size ++ "." ++ format_type.

(* f"incremental_{date_str}_{size}.{format_type}" *)
Definition incremental_filename (date_str size format_type : string) : string :=
  "incremental_" ++ date_str ++ "_" ++ size ++ "." ++ format_type.

(** The body of [for day in range(incremental_days)]; [entries] is the
    list [format_results["incremental"]] it appends to. *)
Definition write_incremental_day (generator : ClickstreamDataGenerator)
    (incremental_dir : Path) (size format_type : string)
    (entries : list incremental_entry) (day : Z) : M (list incremental_entry) :=
  let* delta := lift (datetime.timedelta_days day) in
  let* current_date := lift (datetime.add incremental_start_date delta) in
  let date_str := datetime.strftime_Ymd current_date in
  let* daily_events := generate_incremental_data generator current_date 1000 in
  let incremental_file_path :=
    pathlib.div incremental_dir (incremental_filename date_str size format_type) in
  let df_incremental := DataFrame_of daily_events in
  let* _ :=
    if String.eqb format_type "csv"
    then write_csv df_incremental incremental_file_path
    else write_parquet df_incremental incremental_file_path in
  let* size_mb := stat_size_mb incremental_file_path in
  ret (entries ++ [{| incr_date := date_str;
                      incr_path := pathlib.str incremental_file_path;
                      incr_records := Z.of_nat (length daily_events);
                      incr_size_mb := size_mb |}])%list.

(** The body of [for format_type in formats]; [files] is the dictionary
    [results["files"]] it assigns into. *)
Definition write_format (generator : ClickstreamDataGenerator)
    (bulk_dir incremental_dir : Path) (size : string)
    (incremental_days : Z) (bulk_events : list event)
    (files : gmap string format_results) (format_type : string)
    : M (gmap string format_results) :=
  let bulk_file_path := pathlib.div bulk_dir (bulk_filename size format_type) in
  let df_bulk := DataFrame_of bulk_events in
  let* _ :=
    if String.eqb format_type "csv"
    then write_csv df_bulk bulk_file_path
    else write_parquet df_bulk bulk_file_path in
  let* size_mb := stat_size_mb bulk_file_path in
  let bulk := {| bulk_path := pathlib.str bulk_file_path;
                 bulk_records := Z.of_nat (length bulk_events);
                 bulk_size_mb := size_mb |} in
  let* incremental :=
    for_each
      (write_incremental_day generator incremental_dir size format_type)
      (range incremental_days) [] in
  ret (<[format_type := {| fr_bulk := bulk; fr_incremental := incremental |}]> files).

Definition generate_benchmark_data (size : string) (output_dir : string)
    (formats : option (list string)) (seed : option Z) (incremental_days : Z)
    : M results :=
  let formats := match formats with None => default_formats | Some l => l end in
  match DataSize_of_value size with
  | None => raise (ValueError (InvalidSizeMsg (map DataSize_value DataSize_members)))
  | Some data_size =>
      let invalid_formats : gset string := list_to_set formats ∖ supported_formats in
      if decide (invalid_formats = ∅) then
        let output_path := pathlib.of_string output_dir in
        let bulk_dir := pathlib.div output_path "bulk" in
        let incremental_dir := pathlib.div output_path "incremental" in
        let* _ := mkdir bulk_dir in
        let* _ := mkdir incremental_dir in
        let* generator := __init__ data_size seed in
        let* bulk_events := generate_bulk_data generator bulk_start_date 30 in
        let* files :=
          for_each
            (write_format generator bulk_dir incremental_dir size
                          incremental_days bulk_events)
            formats ∅ in
        ret {| res_size := size;
               res_bulk_record_count := Z.of_nat (length bulk_events);
               res_incremental_days := incremental_days;
               res_files := files |}
      else
        raise (ValueError (UnsupportedFormatsMsg invalid_formats supported_formats))
  end.

End Program.

Arguments world : clear implicits.
Arguments M : clear implicits.

(** ** Concrete instances of the interfaces

    Small generators and encodings on which the program can be run; they
    are used to exhibit concrete runs. *)

(** A linear congruential generator. *)
Definition lcg_next (g : Z) : Z := (1103515245 * g + 12345) mod 2147483648.

Definition lcg : PRNG.
Proof.
  refine {| rng_state := Z;
            rng_seed := fun s => s mod 2147483648;
            randbelow := fun n g => (lcg_next g mod n, lcg_next g) |}.
  intros n g Hn. simpl. apply Z.mod_pos_bound. exact Hn.
Defined.

(** A generator that always returns the largest value allowed. *)
Definition top_rng : PRNG.
Proof.
  refine {| rng_state := unit;
            rng_seed := fun _ => tt;
            randbelow := fun n g => (n - 1, g) |}.
  intros n g Hn. simpl. lia.
Defined.

Fixpoint decimal_digits (fuel : nat) (n : Z) (acc : string) : string :=
  match fuel with
  | O => acc
  | S fuel' =>
      let acc' := String (datetime.digit n) acc in
      if n <? 10 then acc' else decimal_digits fuel' (n / 10) acc'
  end.

Definition decimal (n : Z) : string := decimal_digits 20 n "".

(** Four octets drawn one after the other. *)
Definition octets_ipv4 (R : PRNG) : FakerProvider R :=
  {| ipv4 := fun g =>
       let '(a, g) := randbelow 256 g in
       let '(b, g) := randbelow 256 g in
       let '(c, g) := randbelow 256 g in
       let '(d, g) := randbelow 256 g in
       (decimal a ++ "." ++ decimal b ++ "." ++ decimal c ++ "." ++ decimal d, g)
  |}.

(** An encoding of 64 bytes per row after a 128-byte header. *)
Definition fixed_width : Encoding :=
  {| st_size := fun f => 128 + 64 * Z.of_nat (length (file_rows f)) |}.

Definition empty_fs : filesystem := {| dirs := ∅; files := ∅ |}.

(** An entropy source that delivers the byte [i mod 256] at position [i]. *)
Definition counting_entropy (i : N) : Byte.byte :=
  match Byte.of_N (i mod 256) with Some b => b | None => Byte.x00 end.

(** An entropy source that delivers the same byte forever. *)
Definition constant_entropy (b : Byte.byte) (i : N) : Byte.byte := b.

Definition lcg_world (entropy : N -> Byte.byte) : world lcg :=
  @Build_world lcg 1 2 entropy 0%N empty_fs.

Definition top_world : world top_rng :=
  @Build_world top_rng tt tt counting_entropy 0%N empty_fs.

Definition small_generator : ClickstreamDataGenerator :=
  {| size := SMALL; record_count := SIZE_RECORD_COUNTS SMALL |}.

(** The two events of a short incremental run for 2024-02-01 on the
    linear congruential generator. *)
Definition sample_incremental_events : list event :=
  Eval vm_compute in
    match fst (generate_incremental_data (R := lcg) (F := octets_ipv4 lcg)
                 small_generator (datetime.of_ymd 2024 2 1) 2
                 (lcg_world counting_entropy)) with
    | Ret events => events
    | Raise _ => []
    end.

(** ** What a generated event looks like *)

Definition event_columns : list string :=
  ["event_id"; "user_id"; "session_id"; "timestamp"; "page_url"; "country";
   "device"; "ip_address"].

(** The sixteen bytes [os.urandom] delivers from position [pos], as a
    version-4 UUID string. *)
Definition uuid_at (entropy : N -> Byte.byte) (pos : N) : string :=
  uuid.of_bytes (map (fun i => entropy (pos + N.of_nat i)%N) (seq 0 16)).

(** An event whose identifiers were read from the entropy source at
    [pos], whose timestamp lies in [lo, hi] and whose categorical fields
    come from the three tables. *)
Definition event_at (entropy : N -> Byte.byte) (pos : N)
    (lo hi : datetime.datetime) (e : event) : Prop :=
  exists t page country device ip,
    e = [("event_id", PyStr (uuid_at entropy pos));
         ("user_id", PyStr (uuid_at entropy (pos + 16)));
         ("session_id", PyStr (uuid_at entropy (pos + 32)));
         ("timestamp", PyDatetime t);
         ("page_url", PyStr page);
         ("country", PyStr country);
         ("device", PyStr device);
         ("ip_address", PyStr ip)]
    /\ lo <= t <= hi
    /\ page ∈ PAGES /\ country ∈ COUNTRIES /\ device ∈ DEVICES.

(** The [i]-th event of a batch drawn from position [pos] on. *)
Definition batch_at (entropy : N -> Byte.byte) (pos : N)
    (lo hi : datetime.datetime) (events : list event) : Prop :=
  forall i e, events !! i = Some e ->
    event_at entropy (pos + 48 * N.of_nat i) lo hi e.

(** The timestamp of an event, when it has one. *)
Definition timestamp_of (e : event) : option datetime.datetime :=
  match dict_get e "timestamp" with
  | Some (PyDatetime t) => Some t
  | _ => None
  end.

(** The string held by a field, when it holds one. *)
Definition str_field (e : event) (k : string) : option string :=
  match dict_get e k with
  | Some (PyStr s) => Some s
  | _ => None
  end.

(** ** Names used to state the properties of a run *)

(** What [write_csv] or [write_parquet], whichever the format selects,
    stores for a data frame. *)
Definition encode (format_type : string) (df : DataFrame) : file_data :=
  if String.eqb format_type "csv"
  then CsvFile (columns df) (rows df)
  else ParquetFile (columns df) (rows df).

(* <output_dir>/bulk *)
Definition bulk_dir_of (output_path : Path) : Path :=
  pathlib.div output_path "bulk".

(* <output_dir>/incremental *)
Definition incremental_dir_of (output_path : Path) : Path :=
  pathlib.div output_path "incremental".

(* <output_dir>/bulk/bulk_data_<size>.<format> *)
Definition bulk_file_path (output_path : Path) (size format_type : string) : Path :=
  pathlib.div (bulk_dir_of output_path) (bulk_filename size format_type).

(** The date of the incremental file number [day]. *)
Definition incremental_date (day : Z) : datetime.datetime :=
  incremental_start_date + day * datetime.US_PER_DAY.

(* <output_dir>/incremental/incremental_<YYYY-MM-DD>_<size>.<format> *)
Definition incremental_file_path (output_path : Path) (size format_type : string)
    (day : Z) : Path :=
  pathlib.div (incremental_dir_of output_path)
    (incremental_filename (datetime.strftime_Ymd (incremental_date day))
                          size format_type).

(** The largest [incremental_days] for which the midnight after every
    incremental day is a representable datetime: day 2,913,141 is
    9999-12-30. *)
Definition MAX_INCREMENTAL_DAYS : Z := 2913142.

(** [size_mb] of a file holding [d]. *)
Definition size_mb_of {E : Encoding} (d : file_data) : Q := Qmake (st_size d) 1048576.

(** The manifest entry of the incremental file number [day] that holds
    the batch [daily]. *)
Definition incremental_entry_of {E : Encoding} (output_path : Path)
    (size format_type : string) (day : Z) (daily : list event) : incremental_entry :=
  {| incr_date := datetime.strftime_Ymd (incremental_date day);
     incr_path := pathlib.str (incremental_file_path output_path size format_type day);
     incr_records := Z.of_nat (length daily);
     incr_size_mb := size_mb_of (encode format_type (DataFrame_of daily)) |}.

(** The manifest entry of the bulk file that holds [bulk_events]. *)
Definition bulk_entry_of {E : Encoding} (output_path : Path)
    (size format_type : string) (bulk_events : list event) : bulk_entry :=
  {| bulk_path := pathlib.str (bulk_file_path output_path size format_type);
     bulk_records := Z.of_nat (length bulk_events);
     bulk_size_mb := size_mb_of (encode format_type (DataFrame_of bulk_events)) |}.

(** *** The trace of a run

    A run draws one bulk batch and then, for every occurrence of a format
    in [formats], one batch per incremental day.  The definitions below
    rebuild the file system and the manifest from these batches. *)

(** The incremental batches of one format: one per day of [days], each of
    1000 events, drawn one after the other from position [pos] on. *)
Fixpoint batches_at (entropy : N -> Byte.byte) (pos : N) (days : list Z)
    (batches : list (list event)) : Prop :=
  match days, batches with
  | [], [] => True
  | day :: days', daily :: batches' =>
      length daily = 1000%nat
      /\ batch_at entropy pos
           (datetime.midnight (incremental_date day))
           (datetime.midnight (incremental_date day) + 86400 * datetime.US_PER_SECOND)
           daily
      /\ batches_at entropy (pos + 48000) days' batches'
  | _, _ => False
  end.

(** The files of one format after its day loop. *)
Definition write_batches (out : Path) (size f : string) (days : list Z)
    (batches : list (list event)) (m : gmap Path file_data) : gmap Path file_data :=
  foldl (fun m db => <[incremental_file_path out size f db.1
                         := encode f (DataFrame_of db.2)]> m)
        m (zip days batches).

(** The batches of all the occurrences of formats, in the order of
    [formats]. *)
Fixpoint passes_at (entropy : N -> Byte.byte) (pos : N) (incremental_days : Z)
    (formats : list string) (passes : list (list (list event))) : Prop :=
  match formats, passes with
  | [], [] => True
  | _ :: formats', batches :: passes' =>
      batches_at entropy pos (range incremental_days) batches
      /\ passes_at entropy (pos + 48000 * Z.to_N incremental_days)
           incremental_days formats' passes'
  | _, _ => False
  end.

Definition format_results_of {E : Encoding} (out : Path) (size f : string)
    (incremental_days : Z) (bulk_events : list event)
    (batches : list (list event)) : format_results :=
  {| fr_bulk := bulk_entry_of out size f bulk_events;
     fr_incremental :=
       zip_with (incremental_entry_of out size f) (range incremental_days) batches |}.

(** The stored files after the passes. *)
Definition files_after (out : Path) (size : string) (incremental_days : Z)
    (bulk_events : list event) (formats : list string)
    (passes : list (list (list event))) (m : gmap Path file_data)
    : gmap Path file_data :=
  foldl (fun m fb =>
           write_batches out size fb.1 (range incremental_days) fb.2
             (<[bulk_file_path out size fb.1
                  := encode fb.1 (DataFrame_of bulk_events)]> m))
        m (zip formats passes).

(** The [files] dictionary of the manifest after the passes. *)
Definition manifest_files {E : Encoding} (out : Path) (size : string)
    (incremental_days : Z) (bulk_events : list event) (formats : list string)
    (passes : list (list (list event))) (files : gmap string format_results)
    : gmap string format_results :=
  foldl (fun files fb =>
           <[fb.1 := format_results_of out size fb.1 incremental_days
                       bulk_events fb.2]> files)
        files (zip formats passes).

(** The formats a call works on: [formats], or both when it is [None]. *)
Definition formats_or_default (formats : option (list string)) : list string :=
  match formats with None => default_formats | Some l => l end.

(** The world in which generation starts: the two output directories
    exist and, when a seed is given, both generators are seeded. *)
Definition prepared {R : PRNG} (out : Path) (seed : option Z) (w : world R) : world R :=
  let w' :=
    set_fs (mkdir_parents (incremental_dir_of out)
              (mkdir_parents (bulk_dir_of out) (fs w))) w in
  match seed with
  | Some s => set_random (rng_seed s) (set_faker (rng_seed s) w')
  | None => w'
  end.

Definition generator_of (tier : DataSize) : ClickstreamDataGenerator :=
  {| size := tier; record_count := SIZE_RECORD_COUNTS tier |}.

(** The same world with another source of entropy behind [os.urandom]. *)
Definition with_entropy {R : PRNG} (entropy : N -> Byte.byte) (w : world R) : world R :=
  {| random_state := random_state w; faker_state := faker_state w;
     os_entropy := entropy; os_pos := os_pos w; fs := fs w |}.

(** ** Names used to state further properties *)

(** The fields of an event that are not read from [os.urandom]. *)
Definition seeded_fields : list string :=
  ["timestamp"; "page_url"; "country"; "device"; "ip_address"].

(** Two events that agree on these fields. *)
Definition same_seeded_fields (e1 e2 : event) : Prop :=
  forall k, k ∈ seeded_fields -> dict_get e1 k = dict_get e2 k.

(** Two worlds whose generators, the one of [random] and the one of
    Faker, are in the same state. *)
Definition same_generators {R : PRNG} (w1 w2 : world R) : Prop :=
  random_state w1 = random_state w2 /\ faker_state w1 = faker_state w2.

(** Two outcomes of the same kind: two results related by [RA], or the
    same exception. *)
Definition alike {A : Type} (RA : A -> A -> Prop) (o1 o2 : outcome A) : Prop :=
  match o1, o2 with
  | Ret a, Ret b => RA a b
  | Raise x, Raise y => x = y
  | _, _ => False
  end.

(** Two computations that, started with generators in the same state,
    end alike and leave the generators in the same state. *)
Definition related {R : PRNG} {A : Type} (RA : A -> A -> Prop)
    (m1 m2 : M R A) : Prop :=
  forall w1 w2 : world R,
    same_generators w1 w2 ->
    alike RA (fst (m1 w1)) (fst (m2 w2))
    /\ same_generators (snd (m1 w1)) (snd (m2 w2)).

(** The paths a run writes: for every requested format its bulk file and
    one incremental file per day. *)
Fixpoint written_paths (out : Path) (size : string) (incremental_days : Z)
    (formats : list string) : gset Path :=
  match formats with
  | [] => ∅
  | f :: formats' =>
      {[ bulk_file_path out size f ]}
      ∪ list_to_set (map (incremental_file_path out size f) (range incremental_days))
      ∪ written_paths out size incremental_days formats'
  end.

(** A lower-case hexadecimal digit. *)
Definition is_lower_hex (c : ascii) : bool :=
  existsb (Ascii.eqb c) (list_ascii_of_string "0123456789abcdef").

(** The textual form of a version-4 UUID: 36 characters, dashes after
    the groups of 8, 4, 4 and 4 digits, the version digit 4 and a variant
    digit among 8, 9, a and b. *)
Definition uuid4_format (s : string) : Prop :=
  String.length s = 36%nat
  /\ (forall i, i ∈ [8; 13; 18; 23]%nat -> String.get i s = Some "-"%char)
  /\ String.get 14 s = Some "4"%char
  /\ (exists c, String.get 19 s = Some c
                /\ c ∈ ["8"%char; "9"%char; "a"%char; "b"%char])
  /\ (forall i c, String.get i s = Some c -> i ∉ [8; 13; 18; 23]%nat ->
                  is_lower_hex c = true).

(** An event stamped a whole number of seconds after [base]. *)
Definition on_second_after (base : datetime.datetime) (e : event) : Prop :=
  exists t s, timestamp_of e = Some t /\ 0 <= s
              /\ t = base + s * datetime.US_PER_SECOND.

(** Evaluation of the table lookups and comparisons of the calendar
    whose arguments are numerals. *)
Ltac eval_closed :=
  repeat match goal with
  | |- context [datetime.table ?t ?k] =>
      let v := eval vm_compute in (datetime.table t k) in
      lazymatch v with
      | Zpos _ => idtac | Z0 => idtac | Zneg _ => idtac
      end;
      change (datetime.table t k) with v
  | |- context [?x <? ?y] =>
      let v := eval vm_compute in (x <? y) in
      lazymatch v with true => idtac | false => idtac end;
      change (x <? y) with v
  | |- context [?x =? ?y] =>
      let v := eval vm_compute in (x =? y) in
      lazymatch v with true => idtac | false => idtac end;
      change (x =? y) with v
  end.

(** * Properties *)

(** ** The calendar on the dates the program uses *)

Example ord_2024_01_01 : datetime.ymd2ord 2024 1 1 = 738886.
Proof. reflexivity. Qed.

Example strftime_2024_02_01 :
  datetime.strftime_Ymd (datetime.of_ymd 2024 2 1) = "2024-02-01".
Proof. reflexivity. Qed.

Example strftime_leap_day :
  datetime.strftime_Ymd (datetime.of_ymd 2024 2 1 + 28 * datetime.US_PER_DAY)
  = "2024-02-29".
Proof. reflexivity. Qed.

Example ord_max : datetime.ymd2ord 9999 12 31 = datetime.MAXORDINAL.
Proof. reflexivity. Qed.

Section Properties.

Context {R : PRNG} {F : FakerProvider R} {E : Encoding}.

Implicit Types (w : world R) (e : event) (events : list event).

(** ** The monad *)

Lemma bind_Ret {A B} (m : M R A) (k : A -> M R B) w a w1 :
  m w = (Ret a, w1) -> bind m k w = k a w1.
Proof. intros H. unfold bind. rewrite H. reflexivity. Qed.

Lemma bind_Raise {A B} (m : M R A) (k : A -> M R B) w x w1 :
  m w = (Raise x, w1) -> bind m k w = (Raise x, w1).
Proof. intros H. unfold bind. rewrite H. reflexivity. Qed.

Lemma bind_inv {A B} (m : M R A) (k : A -> M R B) w b w2 :
  bind m k w = (Ret b, w2) ->
  exists a w1, m w = (Ret a, w1) /\ k a w1 = (Ret b, w2).
Proof.
  unfold bind. destruct (m w) as [[a|x] w1]; intros H.
  - exists a, w1. split; [reflexivity | exact H].
  - discriminate H.
Qed.

Lemma lift_inv {A} (o : outcome A) w a w1 :
  lift o w = (Ret a, w1) -> o = Ret a /\ w1 = w.
Proof. unfold lift. intros H. inversion H. split; reflexivity. Qed.

(** ** Draws *)

Lemma choice_spec (l : list string) w :
  l <> [] ->
  exists x g, choice l w = (Ret x, set_random g w) /\ x ∈ l.
Proof.
  intros Hl. unfold choice.
  destruct l as [|y l']; [congruence|].
  set (l := y :: l') in *.
  pose proof (randbelow_range (Z.of_nat (length l)) (random_state w)) as Hr.
  destruct (randbelow (Z.of_nat (length l)) (random_state w)) as [i g].
  cbn [fst] in Hr.
  assert (Hlt : (Z.to_nat i < length l)%nat).
  { assert (0 < Z.of_nat (length l)) by (subst l; cbn [length]; lia).
    specialize (Hr ltac:(lia)). lia. }
  destruct (lookup_lt_is_Some_2 l (Z.to_nat i) Hlt) as [x Hx].
  rewrite Hx. exists x, g. split; [reflexivity|].
  apply list_elem_of_lookup. eauto.
Qed.

Lemma randint_spec (a b : Z) w :
  a <= b ->
  exists r g, randint a b w = (Ret r, set_random g w) /\ a <= r <= b.
Proof.
  intros Hab. unfold randint.
  destruct (Z.ltb_spec 0 (b + 1 - a)) as [Hw|Hw]; [|lia].
  pose proof (randbelow_range (b + 1 - a) (random_state w) Hw) as Hr.
  destruct (randbelow (b + 1 - a) (random_state w)) as [r g].
  simpl in Hr. exists (a + r), g. split; [reflexivity | lia].
Qed.

Lemma randint_inv (a b : Z) w r w1 :
  randint a b w = (Ret r, w1) ->
  a <= r <= b /\ exists g, w1 = set_random g w.
Proof.
  unfold randint.
  destruct (Z.ltb_spec 0 (b + 1 - a)) as [Hw|Hw]; [|discriminate].
  pose proof (randbelow_range (b + 1 - a) (random_state w) Hw) as Hr.
  destruct (randbelow (b + 1 - a) (random_state w)) as [r0 g].
  simpl in Hr. intros H. inversion H; subst.
  split; [lia | eauto].
Qed.

Lemma uuid4_str_spec w :
  uuid4_str w
  = (Ret (uuid_at (os_entropy w) (os_pos w)), set_os_pos (os_pos w + 16) w).
Proof. reflexivity. Qed.

Lemma faker_ipv4_spec w :
  exists ip g, faker_ipv4 w = (Ret ip, set_faker g w).
Proof.
  unfold faker_ipv4. destruct (ipv4 (faker_state w)) as [ip g].
  exists ip, g. reflexivity.
Qed.

(** [_generate_event] always succeeds; it reads 48 bytes of entropy and
    leaves the file system alone. *)
Lemma generate_event_spec (t : datetime.datetime) w :
  exists e w1,
    _generate_event t w = (Ret e, w1)
    /\ event_at (os_entropy w) (os_pos w) t t e
    /\ os_entropy w1 = os_entropy w
    /\ os_pos w1 = (os_pos w + 48)%N
    /\ fs w1 = fs w.
Proof.
  unfold _generate_event.
  rewrite (bind_Ret _ _ _ _ _ (uuid4_str_spec _)).
  rewrite (bind_Ret _ _ _ _ _ (uuid4_str_spec _)).
  rewrite (bind_Ret _ _ _ _ _ (uuid4_str_spec _)).
  match goal with |- context [bind (choice PAGES) _ ?w0] =>
    destruct (choice_spec PAGES w0) as (page & g1 & Hp & Hpin); [discriminate|];
    rewrite (bind_Ret _ _ _ _ _ Hp) end.
  match goal with |- context [bind (choice COUNTRIES) _ ?w0] =>
    destruct (choice_spec COUNTRIES w0) as (country & g2 & Hc & Hcin); [discriminate|];
    rewrite (bind_Ret _ _ _ _ _ Hc) end.
  match goal with |- context [bind (choice DEVICES) _ ?w0] =>
    destruct (choice_spec DEVICES w0) as (device & g3 & Hd & Hdin); [discriminate|];
    rewrite (bind_Ret _ _ _ _ _ Hd) end.
  match goal with |- context [bind faker_ipv4 _ ?w0] =>
    destruct (faker_ipv4_spec w0) as (ip & g4 & Hi);
    rewrite (bind_Ret _ _ _ _ _ Hi) end.
  unfold ret. eexists _, _. split; [reflexivity|].
  split.
  - exists t, page, country, device, ip.
    split; [|split; [lia | auto]].
    cbn [os_entropy os_pos set_os_pos].
    replace (os_pos w + 16 + 16)%N with (os_pos w + 32)%N by lia.
    reflexivity.
  - cbn. repeat split; lia.
Qed.

(** ** The two generation loops *)

Lemma timedelta_seconds_inv (s : Z) (d : datetime.timedelta) :
  datetime.timedelta_seconds s = Ret d -> d = s * datetime.US_PER_SECOND.
Proof.
  unfold datetime.timedelta_seconds.
  destruct (_ && _); intros H; inversion H; reflexivity.
Qed.

Lemma timedelta_seconds_ok (s : Z) :
  0 <= s <= 86400 * datetime.MAX_DELTA_DAYS ->
  datetime.timedelta_seconds s = Ret (s * datetime.US_PER_SECOND).
Proof.
  intros Hs. unfold datetime.timedelta_seconds.
  assert (0 <= s / 86400 <= datetime.MAX_DELTA_DAYS).
  { split; [apply Z.div_pos; lia|].
    apply Z.div_le_upper_bound; lia. }
  assert (H1 : (- datetime.MAX_DELTA_DAYS <=? s / 86400) = true)
    by (apply Z.leb_le; unfold datetime.MAX_DELTA_DAYS in *; lia).
  assert (H2 : (s / 86400 <=? datetime.MAX_DELTA_DAYS) = true)
    by (apply Z.leb_le; lia).
  cbv zeta. rewrite H1, H2. reflexivity.
Qed.

Lemma timedelta_days_inv (n : Z) (d : datetime.timedelta) :
  datetime.timedelta_days n = Ret d -> d = n * datetime.US_PER_DAY.
Proof.
  unfold datetime.timedelta_days.
  destruct (_ && _); intros H; inversion H; reflexivity.
Qed.

Lemma timedelta_days_ok (n : Z) :
  - datetime.MAX_DELTA_DAYS <= n <= datetime.MAX_DELTA_DAYS ->
  datetime.timedelta_days n = Ret (n * datetime.US_PER_DAY).
Proof.
  intros Hn. unfold datetime.timedelta_days.
  assert (H1 : (- datetime.MAX_DELTA_DAYS <=? n) = true)
    by (apply Z.leb_le; lia).
  assert (H2 : (n <=? datetime.MAX_DELTA_DAYS) = true)
    by (apply Z.leb_le; lia).
  rewrite H1, H2. reflexivity.
Qed.

Lemma in_rangeb_spec (d : Z) :
  datetime.in_rangeb d = true <-> datetime.in_range d.
Proof.
  unfold datetime.in_rangeb, datetime.in_range.
  rewrite andb_true_iff, Z.leb_le, Z.ltb_lt. reflexivity.
Qed.

Lemma add_inv (d delta r : Z) :
  datetime.add d delta = Ret r -> r = d + delta /\ datetime.in_range r.
Proof.
  unfold datetime.add.
  destruct (datetime.in_rangeb (d + delta)) eqn:Hr; intros H; inversion H.
  subst. split; [reflexivity | apply in_rangeb_spec; exact Hr].
Qed.

Lemma add_ok (d delta : Z) :
  datetime.in_range (d + delta) -> datetime.add d delta = Ret (d + delta).
Proof.
  intros H. unfold datetime.add.
  apply in_rangeb_spec in H. rewrite H. reflexivity.
Qed.

Lemma batch_at_cons entropy pos lo hi e events :
  event_at entropy pos lo hi e ->
  batch_at entropy (pos + 48) lo hi events ->
  batch_at entropy pos lo hi (e :: events).
Proof.
  intros He Hev [|i] e' Hi.
  - inversion Hi; subst. replace (pos + 48 * N.of_nat 0)%N with pos by lia.
    exact He.
  - replace (pos + 48 * N.of_nat (S i))%N with (pos + 48 + 48 * N.of_nat i)%N
      by lia.
    apply Hev. exact Hi.
Qed.

Lemma event_at_weaken entropy pos t lo hi e :
  lo <= t <= hi -> event_at entropy pos t t e -> event_at entropy pos lo hi e.
Proof.
  intros Ht (t' & p & c & d & ip & -> & Hb & Hrest).
  exists t', p, c, d, ip. split; [reflexivity|]. split; [lia | exact Hrest].
Qed.

(** Whenever a loop of [timed_step]s returns, it has appended one event
    per iteration, each with a timestamp within [hi] seconds after
    [base]. *)
Lemma timed_loop_inv base hi (l : list Z) acc w out w1 :
  for_each (timed_step base hi) l acc w = (Ret out, w1) ->
  exists events,
    out = (acc ++ events)%list
    /\ length events = length l
    /\ batch_at (os_entropy w) (os_pos w) base
                (base + hi * datetime.US_PER_SECOND) events
    /\ os_entropy w1 = os_entropy w
    /\ os_pos w1 = (os_pos w + 48 * N.of_nat (length l))%N
    /\ fs w1 = fs w.
Proof.
  revert acc w. induction l as [|x l IH]; intros acc w Hrun.
  - cbn in Hrun. inversion Hrun; subst. exists [].
    rewrite app_nil_r. repeat split; try reflexivity.
    + intros i e Hi. discriminate Hi.
    + cbn. lia.
  - cbn [for_each] in Hrun.
    apply bind_inv in Hrun as (acc' & w' & Hstep & Hrest).
    unfold timed_step in Hstep.
    apply bind_inv in Hstep as (rs & wa & Hrs & Hstep).
    apply randint_inv in Hrs as (Hrange & g & ->).
    apply bind_inv in Hstep as (d & wb & Hd & Hstep).
    apply lift_inv in Hd as (Hd & ->).
    apply timedelta_seconds_inv in Hd. subst d.
    apply bind_inv in Hstep as (t & wc & Ht & Hstep).
    apply lift_inv in Ht as (Ht & ->).
    apply add_inv in Ht as (-> & _).
    apply bind_inv in Hstep as (e & wd & He & Hstep).
    destruct (generate_event_spec (base + rs * datetime.US_PER_SECOND)
                (set_random g w)) as (e0 & w0 & He0 & Hat & Hent & Hpos & Hfs).
    rewrite He0 in He. inversion He; subst e0 w0. clear He.
    unfold ret in Hstep. inversion Hstep; subst acc' w'. clear Hstep.
    destruct (IH _ _ Hrest) as (events & -> & Hlen & Hbatch & Hent' & Hpos' & Hfs').
    exists (e :: events). rewrite <- app_assoc. split; [reflexivity|].
    split; [cbn; lia|]. split.
    + apply batch_at_cons.
      * apply (event_at_weaken _ _ (base + rs * datetime.US_PER_SECOND)).
        { unfold datetime.US_PER_SECOND. lia. }
        exact Hat.
      * rewrite Hent, Hpos in Hbatch. exact Hbatch.
    + rewrite Hent', Hpos', Hfs', Hent, Hpos, Hfs. cbn.
      repeat split; lia.
Qed.

(** When every offset up to [hi] seconds after [base] is a representable
    datetime, the loop returns. *)
Lemma timed_loop_total base hi (l : list Z) acc w :
  0 <= hi <= 86400 * datetime.MAX_DELTA_DAYS ->
  datetime.in_range base ->
  datetime.in_range (base + hi * datetime.US_PER_SECOND) ->
  exists out w1, for_each (timed_step base hi) l acc w = (Ret out, w1).
Proof.
  intros Hhi Hbase Hend. revert acc w.
  induction l as [|x l IH]; intros acc w.
  - cbn. eexists _, _. reflexivity.
  - cbn [for_each].
    destruct (randint_spec 0 hi w) as (rs & g & Hrs & Hrange); [lia|].
    destruct (generate_event_spec (base + rs * datetime.US_PER_SECOND)
                (set_random g w)) as (e & w0 & He & _).
    assert (Hstep : timed_step base hi acc x w = (Ret (acc ++ [e])%list, w0)).
    { unfold timed_step.
      rewrite (bind_Ret _ _ _ _ _ Hrs).
      rewrite timedelta_seconds_ok by lia.
      unfold lift at 1. unfold bind at 1.
      rewrite add_ok.
      - unfold lift at 1. unfold bind at 1.
        rewrite (bind_Ret _ _ _ _ _ He). reflexivity.
      - unfold datetime.in_range, datetime.US_PER_SECOND in *. lia. }
    rewrite (bind_Ret _ _ _ _ _ Hstep). apply IH.
Qed.

Lemma length_range (n : Z) : length (range n) = Z.to_nat n.
Proof. unfold range. rewrite length_map, length_seq. reflexivity. Qed.

Lemma init_spec (tier : DataSize) (seed : option Z) w self w1 :
  __init__ tier seed w = (Ret self, w1) ->
  self = {| size := tier; record_count := SIZE_RECORD_COUNTS tier |}
  /\ os_entropy w1 = os_entropy w /\ os_pos w1 = os_pos w /\ fs w1 = fs w.
Proof.
  unfold __init__. intros H. inversion H; subst.
  destruct seed; repeat split; reflexivity.
Qed.

Lemma whole_days_seconds (start days : Z) :
  datetime.int_total_seconds (datetime.sub (start + days * datetime.US_PER_DAY) start)
  = days * 86400.
Proof.
  unfold datetime.int_total_seconds, datetime.sub, datetime.US_PER_DAY.
  replace (start + days * (86400 * datetime.US_PER_SECOND) - start)
    with (days * 86400 * datetime.US_PER_SECOND) by lia.
  apply Z.quot_mul. unfold datetime.US_PER_SECOND. lia.
Qed.

(** [generate_bulk_data] is a loop of [timed_step]s over the window. *)
Lemma generate_bulk_data_unfold self start days w :
  datetime.timedelta_days days = Ret (days * datetime.US_PER_DAY) ->
  datetime.add start (days * datetime.US_PER_DAY)
    = Ret (start + days * datetime.US_PER_DAY) ->
  generate_bulk_data self start days w
  = for_each (timed_step start (days * 86400)) (range (record_count self)) [] w.
Proof.
  intros Hd Ha. unfold generate_bulk_data.
  rewrite Hd. unfold lift at 1. unfold bind at 1.
  rewrite Ha. unfold lift at 1. unfold bind at 1.
  rewrite whole_days_seconds. reflexivity.
Qed.

Lemma generate_bulk_data_inv self start days w events w1 :
  generate_bulk_data self start days w = (Ret events, w1) ->
  length events = Z.to_nat (record_count self)
  /\ batch_at (os_entropy w) (os_pos w) start
              (start + days * datetime.US_PER_DAY) events
  /\ os_entropy w1 = os_entropy w
  /\ os_pos w1 = (os_pos w + 48 * N.of_nat (Z.to_nat (record_count self)))%N
  /\ fs w1 = fs w.
Proof.
  intros Hrun.
  assert (Hd : datetime.timedelta_days days = Ret (days * datetime.US_PER_DAY)).
  { unfold generate_bulk_data in Hrun.
    apply bind_inv in Hrun as (d & w' & Hd & _).
    apply lift_inv in Hd as (Hd & _).
    rewrite Hd. f_equal. apply timedelta_days_inv. exact Hd. }
  assert (Ha : datetime.add start (days * datetime.US_PER_DAY)
               = Ret (start + days * datetime.US_PER_DAY)).
  { unfold generate_bulk_data in Hrun. rewrite Hd in Hrun.
    unfold lift at 1 in Hrun. unfold bind at 1 in Hrun.
    apply bind_inv in Hrun as (d & w' & Ha & _).
    apply lift_inv in Ha as (Ha & _).
    rewrite Ha. f_equal. apply add_inv in Ha as (-> & _). reflexivity. }
  rewrite (generate_bulk_data_unfold _ _ _ _ Hd Ha) in Hrun.
  apply timed_loop_inv in Hrun as (evs & -> & Hlen & Hbatch & Hent & Hpos & Hfs).
  rewrite length_range in Hlen, Hpos.
  replace (days * 86400 * datetime.US_PER_SECOND)
    with (days * datetime.US_PER_DAY) in Hbatch
    by (unfold datetime.US_PER_DAY; lia).
  cbn [app]. auto.
Qed.

Lemma generate_bulk_data_total self start days w :
  0 <= days ->
  datetime.in_range start ->
  datetime.in_range (start + days * datetime.US_PER_DAY) ->
  exists events w1, generate_bulk_data self start days w = (Ret events, w1).
Proof.
  intros Hdays Hs He.
  assert (Hmax : days <= datetime.MAX_DELTA_DAYS).
  { unfold datetime.in_range, datetime.US_PER_DAY, datetime.US_PER_SECOND,
      datetime.MAXORDINAL, datetime.MAX_DELTA_DAYS in *. lia. }
  rewrite generate_bulk_data_unfold.
  - apply timed_loop_total; [lia | exact Hs |].
    replace (days * 86400 * datetime.US_PER_SECOND)
      with (days * datetime.US_PER_DAY)
      by (unfold datetime.US_PER_DAY; lia).
    exact He.
  - apply timedelta_days_ok. unfold datetime.MAX_DELTA_DAYS in *. lia.
  - apply add_ok. exact He.
Qed.

Lemma generate_incremental_data_unfold self date n w :
  generate_incremental_data self date n w
  = for_each (timed_step (datetime.midnight date) 86400) (range n) [] w.
Proof. reflexivity. Qed.

Lemma generate_incremental_data_inv self date n w events w1 :
  generate_incremental_data self date n w = (Ret events, w1) ->
  length events = Z.to_nat n
  /\ batch_at (os_entropy w) (os_pos w) (datetime.midnight date)
              (datetime.midnight date + 86400 * datetime.US_PER_SECOND) events
  /\ os_entropy w1 = os_entropy w
  /\ os_pos w1 = (os_pos w + 48 * N.of_nat (Z.to_nat n))%N
  /\ fs w1 = fs w.
Proof.
  rewrite generate_incremental_data_unfold. intros Hrun.
  apply timed_loop_inv in Hrun as (evs & -> & Hlen & Hbatch & Hent & Hpos & Hfs).
  rewrite length_range in Hlen, Hpos. cbn [app]. auto.
Qed.

Lemma midnight_in_range (d : Z) :
  datetime.in_range d -> datetime.in_range (datetime.midnight d).
Proof.
  unfold datetime.in_range, datetime.midnight. intros Hd.
  assert (0 <= d mod datetime.US_PER_DAY < datetime.US_PER_DAY)
    by (apply Z.mod_pos_bound; reflexivity).
  assert (d mod datetime.US_PER_DAY <= d)
    by (apply Z.mod_le; [lia | reflexivity]).
  lia.
Qed.

Lemma generate_incremental_data_total self date n w :
  datetime.in_range date ->
  datetime.in_range (datetime.midnight date + datetime.US_PER_DAY) ->
  exists events w1, generate_incremental_data self date n w = (Ret events, w1).
Proof.
  intros Hd Hn. rewrite generate_incremental_data_unfold.
  apply timed_loop_total.
  - unfold datetime.MAX_DELTA_DAYS. lia.
  - apply midnight_in_range. exact Hd.
  - exact Hn.
Qed.

Lemma batch_at_Forall entropy pos lo hi events (P : event -> Prop) :
  (forall q e, event_at entropy q lo hi e -> P e) ->
  batch_at entropy pos lo hi events -> Forall P events.
Proof.
  intros HP Hb. apply Forall_lookup. intros i e Hi.
  eapply HP. apply Hb. exact Hi.
Qed.

Lemma event_at_timestamp entropy pos lo hi e :
  event_at entropy pos lo hi e ->
  exists t, timestamp_of e = Some t /\ lo <= t <= hi.
Proof.
  intros (t & p & c & d & ip & -> & Hb & _). exists t. split; [reflexivity | exact Hb].
Qed.

(** ** Batch sizes and windows *)

(** C2, for windows that fit the calendar: for every size tier, every [start_date] and every
    [days >= 0] such that [start_date + days] days is still a representable
    datetime, [generate_bulk_data] returns a batch whose length is exactly
    the tier's record count of the fixed mapping (small 100,000; medium
    10,000,000; large 100,000,000), and the batch is not empty. *)
Theorem bulk_batch_length (tier : DataSize) (seed : option Z) w0 self w
    (start_date days : Z) :
  __init__ tier seed w0 = (Ret self, w) ->
  0 <= days ->
  datetime.in_range start_date ->
  datetime.in_range (start_date + days * datetime.US_PER_DAY) ->
  exists events w1,
    generate_bulk_data self start_date days w = (Ret events, w1)
    /\ Z.of_nat (length events) = SIZE_RECORD_COUNTS tier
    /\ SIZE_RECORD_COUNTS tier
       = match tier with
         | SMALL => 100000 | MEDIUM => 10000000 | LARGE => 100000000
         end
    /\ events <> [].
Proof.
  intros Hinit Hdays Hs He.
  apply init_spec in Hinit as (-> & _).
  destruct (generate_bulk_data_total
              {| size := tier; record_count := SIZE_RECORD_COUNTS tier |}
              start_date days w Hdays Hs He) as (events & w1 & Hrun).
  exists events, w1. split; [exact Hrun|].
  apply generate_bulk_data_inv in Hrun as (Hlen & _).
  cbn [record_count] in Hlen.
  assert (Hpos : 0 < SIZE_RECORD_COUNTS tier) by (destruct tier; reflexivity).
  split; [lia|]. split; [destruct tier; reflexivity|].
  intros ->. cbn [length] in Hlen. lia.
Qed.

(** C4: every event of a bulk batch generated over [start_date] with
    [days = 30] has its timestamp in the closed interval from [start_date]
    to [start_date] plus 30 days; every event of an incremental batch for
    a day has its timestamp in the closed interval from that day's midnight
    to 86400 seconds later; and the upper bound is attained: a batch can
    hold a timestamp exactly on the following midnight. *)
Theorem timestamps_in_window :
  (forall self (start_date : Z) w events w1,
      generate_bulk_data self start_date 30 w = (Ret events, w1) ->
      Forall (fun e => exists t, timestamp_of e = Some t
                /\ start_date <= t <= start_date + 30 * datetime.US_PER_DAY)
             events)
  /\ (forall self (date records_per_day : Z) w events w1,
        generate_incremental_data self date records_per_day w = (Ret events, w1) ->
        Forall (fun e => exists t, timestamp_of e = Some t
                  /\ datetime.midnight date <= t
                     <= datetime.midnight date + 86400 * datetime.US_PER_SECOND)
               events)
  /\ (exists e (after : world top_rng),
        generate_incremental_data (R := top_rng) (F := octets_ipv4 top_rng)
          small_generator (datetime.of_ymd 2024 2 1) 1 top_world
        = (Ret [e], after)
        /\ timestamp_of e = Some (datetime.of_ymd 2024 2 2)
        /\ datetime.of_ymd 2024 2 2
           = datetime.midnight (datetime.of_ymd 2024 2 1)
             + 86400 * datetime.US_PER_SECOND).
Proof.
  split; [|split].
  - intros self start_date w events w1 Hrun.
    apply generate_bulk_data_inv in Hrun as (_ & Hbatch & _).
    eapply batch_at_Forall; [|exact Hbatch].
    intros q e. apply event_at_timestamp.
  - intros self date n w events w1 Hrun.
    apply generate_incremental_data_inv in Hrun as (_ & Hbatch & _).
    eapply batch_at_Forall; [|exact Hbatch].
    intros q e. apply event_at_timestamp.
  - eexists _, _. split; [vm_compute; reflexivity|].
    split; reflexivity.
Qed.

(** C5, for days before the last one of the calendar: for every date
    whose following midnight is a
    representable datetime and every [records_per_day],
    [generate_incremental_data] returns a batch of exactly
    [records_per_day] events when [records_per_day >= 0], and an empty
    batch when it is negative. *)
Theorem incremental_batch_length self (date records_per_day : Z) w :
  datetime.in_range date ->
  datetime.in_range (datetime.midnight date + datetime.US_PER_DAY) ->
  exists events w1,
    generate_incremental_data self date records_per_day w = (Ret events, w1)
    /\ Z.of_nat (length events) = Z.max 0 records_per_day.
Proof.
  intros Hd Hn.
  destruct (generate_incremental_data_total self date records_per_day w Hd Hn)
    as (events & w1 & Hrun).
  exists events, w1. split; [exact Hrun|].
  apply generate_incremental_data_inv in Hrun as (Hlen & _). lia.
Qed.

(** C6: every generated event has its [page_url] among the nine pages,
    its [country] among the nine country codes and its [device] among
    desktop, mobile and tablet; it has exactly the eight fields, and none
    of them is [None]. *)
Theorem event_fields_populated (timestamp : datetime.datetime) w :
  exists e w1,
    _generate_event timestamp w = (Ret e, w1)
    /\ map fst e = event_columns
    /\ (forall k, k ∈ event_columns ->
          exists v, dict_get e k = Some v /\ v <> PyNone)
    /\ (exists p, str_field e "page_url" = Some p /\ p ∈ PAGES)
    /\ (exists c, str_field e "country" = Some c /\ c ∈ COUNTRIES)
    /\ (exists d, str_field e "device" = Some d /\ d ∈ DEVICES)
    /\ length PAGES = 9%nat /\ NoDup PAGES
    /\ length COUNTRIES = 9%nat /\ NoDup COUNTRIES
    /\ DEVICES = ["desktop"; "mobile"; "tablet"].
Proof.
  destruct (generate_event_spec timestamp w) as (e & w1 & Hrun & Hat & _).
  exists e, w1. split; [exact Hrun|].
  destruct Hat as (t & p & c & d & ip & -> & _ & Hp & Hc & Hd).
  split; [reflexivity|]. split.
  - intros k Hk. unfold event_columns in Hk.
    repeat (apply elem_of_cons in Hk as [->|Hk];
            [eexists; split; [reflexivity | discriminate]|]).
    apply elem_of_nil in Hk. contradiction.
  - split; [exists p; split; [reflexivity | exact Hp]|].
    split; [exists c; split; [reflexivity | exact Hc]|].
    split; [exists d; split; [reflexivity | exact Hd]|].
    split; [reflexivity|]. split; [refine (bool_decide_unpack _ _); vm_compute; exact I|].
    split; [reflexivity|]. split; [refine (bool_decide_unpack _ _); vm_compute; exact I|].
    reflexivity.
Qed.

(** ** Writing one incremental file *)

Lemma write_table_spec (f : string) (df : DataFrame) (p : Path) w :
  (if String.eqb f "csv" then write_csv df p else write_parquet df p) w
  = (Ret tt, set_fs (write_file p (encode f df) (fs w)) w).
Proof. unfold encode. destruct (String.eqb f "csv"); reflexivity. Qed.

Lemma stat_after_write (p : Path) (d : file_data) w :
  stat_size_mb p (set_fs (write_file p d (fs w)) w)
  = (Ret (size_mb_of d), set_fs (write_file p d (fs w)) w).
Proof.
  unfold stat_size_mb. cbn [fs set_fs write_file files].
  rewrite lookup_insert_eq. reflexivity.
Qed.

Lemma incremental_start_date_value :
  incremental_start_date = 738916 * datetime.US_PER_DAY.
Proof. reflexivity. Qed.

Lemma incremental_date_in_range (day : Z) :
  0 <= day < MAX_INCREMENTAL_DAYS ->
  datetime.in_range (incremental_date day)
  /\ datetime.in_range (datetime.midnight (incremental_date day) + datetime.US_PER_DAY).
Proof.
  intros Hday. unfold incremental_date. rewrite incremental_start_date_value.
  replace (738916 * datetime.US_PER_DAY + day * datetime.US_PER_DAY)
    with ((738916 + day) * datetime.US_PER_DAY) by lia.
  unfold datetime.midnight. rewrite Z.mod_mul by discriminate.
  unfold datetime.in_range, datetime.US_PER_DAY, datetime.US_PER_SECOND,
    datetime.MAXORDINAL, MAX_INCREMENTAL_DAYS in *.
  lia.
Qed.

(** One iteration of the day loop: a fresh batch of 1000 events is
    drawn and written to the file of that day. *)
Lemma write_incremental_day_spec self (out : Path) (size f : string)
    (entries : list incremental_entry) (day : Z) w :
  0 <= day < MAX_INCREMENTAL_DAYS ->
  exists daily w1,
    generate_incremental_data self (incremental_date day) 1000 w = (Ret daily, w1)
    /\ write_incremental_day self (incremental_dir_of out) size f entries day w
       = (Ret (entries ++ [incremental_entry_of out size f day daily])%list,
          set_fs (write_file (incremental_file_path out size f day)
                    (encode f (DataFrame_of daily)) (fs w)) w1).
Proof.
  intros Hday.
  destruct (incremental_date_in_range day Hday) as (Hr1 & Hr2).
  destruct (generate_incremental_data_total self (incremental_date day) 1000 w Hr1 Hr2)
    as (daily & w1 & Hrun).
  exists daily, w1. split; [exact Hrun|].
  pose proof (generate_incremental_data_inv _ _ _ _ _ _ Hrun) as (_ & _ & _ & _ & Hfs).
  unfold write_incremental_day.
  rewrite timedelta_days_ok
    by (unfold datetime.MAX_DELTA_DAYS, MAX_INCREMENTAL_DAYS in *; lia).
  unfold lift at 1. unfold bind at 1.
  rewrite add_ok by exact Hr1.
  unfold lift at 1. unfold bind at 1.
  fold (incremental_date day).
  rewrite (bind_Ret _ _ _ _ _ Hrun).
  rewrite (bind_Ret _ _ _ _ _ (write_table_spec _ _ _ _)).
  rewrite (bind_Ret _ _ _ _ _ (stat_after_write _ _ _)).
  unfold ret. rewrite Hfs. reflexivity.
Qed.

(** ** The day loop and the format loop *)

Lemma range_bounds (n : Z) : Forall (fun d => 0 <= d < n) (range n).
Proof.
  unfold range. apply Forall_forall. intros d Hd.
  apply list_elem_of_In, in_map_iff in Hd as (i & <- & Hi).
  apply in_seq in Hi. lia.
Qed.

Lemma incremental_loop_spec self (out : Path) (size f : string) (l : list Z)
    (entries : list incremental_entry) w :
  Forall (fun d => 0 <= d < MAX_INCREMENTAL_DAYS) l ->
  exists batches w1,
    for_each (write_incremental_day self (incremental_dir_of out) size f) l entries w
    = (Ret (entries ++ zip_with (incremental_entry_of out size f) l batches)%list, w1)
    /\ batches_at (os_entropy w) (os_pos w) l batches
    /\ length batches = length l
    /\ os_entropy w1 = os_entropy w
    /\ os_pos w1 = (os_pos w + 48000 * N.of_nat (length l))%N
    /\ dirs (fs w1) = dirs (fs w)
    /\ files (fs w1) = write_batches out size f l batches (files (fs w)).
Proof.
  revert entries w. induction l as [|day l IH]; intros entries w Hl.
  - exists [], w. cbn. rewrite app_nil_r.
    repeat split; try reflexivity. lia.
  - apply Forall_cons in Hl as (Hday & Hl).
    destruct (write_incremental_day_spec self out size f entries day w Hday)
      as (daily & w1 & Hgen & Hstep).
    apply generate_incremental_data_inv in Hgen as (Hlen & Hbatch & Hent & Hpos & Hfs).
    cbn [for_each]. rewrite (bind_Ret _ _ _ _ _ Hstep).
    match goal with |- context [for_each _ l ?acc ?w0] =>
      destruct (IH acc w0 Hl) as (batches & w2 & Hrun & Hb & Hbl & Hent' & Hpos' & Hd' & Hf')
    end.
    exists (daily :: batches), w2.
    rewrite Hrun, <- app_assoc. split; [reflexivity|].
    cbn [os_entropy os_pos set_fs fs dirs files write_file] in *.
    split; [|split; [cbn; lia|]].
    + cbn [batches_at]. split; [exact Hlen|]. split; [exact Hbatch|].
      rewrite Hent, Hpos in Hb. exact Hb.
    + rewrite Hent', Hpos', Hd', Hf', Hent, Hpos.
      repeat split; try reflexivity. cbn [length]. lia.
Qed.

(** One iteration of the format loop. *)
Lemma write_format_spec self (out : Path) (size : string) (incremental_days : Z)
    (bulk_events : list event) (files0 : gmap string format_results)
    (f : string) w :
  incremental_days <= MAX_INCREMENTAL_DAYS ->
  exists batches w1,
    write_format self (bulk_dir_of out) (incremental_dir_of out) size
      incremental_days bulk_events files0 f w
    = (Ret (<[f := format_results_of out size f incremental_days bulk_events batches]>
              files0), w1)
    /\ batches_at (os_entropy w) (os_pos w) (range incremental_days) batches
    /\ length batches = Z.to_nat incremental_days
    /\ os_entropy w1 = os_entropy w
    /\ os_pos w1 = (os_pos w + 48000 * Z.to_N incremental_days)%N
    /\ dirs (fs w1) = dirs (fs w)
    /\ files (fs w1)
       = write_batches out size f (range incremental_days) batches
           (<[bulk_file_path out size f := encode f (DataFrame_of bulk_events)]>
              (files (fs w))).
Proof.
  intros Hdays. unfold write_format.
  rewrite (bind_Ret _ _ _ _ _ (write_table_spec _ _ _ _)).
  rewrite (bind_Ret _ _ _ _ _ (stat_after_write _ _ _)).
  match goal with |- context [bind (for_each _ _ []) _ ?w0] =>
    destruct (incremental_loop_spec self out size f (range incremental_days) [] w0)
      as (batches & w1 & Hrun & Hb & Hbl & Hent & Hpos & Hd & Hf)
  end.
  { eapply Forall_impl; [apply range_bounds|]. cbn. intros d Hd. lia. }
  exists batches, w1.
  rewrite (bind_Ret _ _ _ _ _ Hrun). unfold ret.
  rewrite length_range in Hbl, Hpos.
  cbn [os_entropy os_pos set_fs fs dirs files write_file app] in *.
  split; [reflexivity|]. repeat split; try assumption. lia.
Qed.

Lemma format_loop_spec self (out : Path) (size : string) (incremental_days : Z)
    (bulk_events : list event) (formats : list string)
    (files0 : gmap string format_results) w :
  incremental_days <= MAX_INCREMENTAL_DAYS ->
  exists passes w1,
    for_each (write_format self (bulk_dir_of out) (incremental_dir_of out) size
                incremental_days bulk_events) formats files0 w
    = (Ret (manifest_files out size incremental_days bulk_events formats passes files0),
       w1)
    /\ passes_at (os_entropy w) (os_pos w) incremental_days formats passes
    /\ length passes = length formats
    /\ os_entropy w1 = os_entropy w
    /\ os_pos w1
       = (os_pos w + 48000 * Z.to_N incremental_days * N.of_nat (length formats))%N
    /\ dirs (fs w1) = dirs (fs w)
    /\ files (fs w1)
       = files_after out size incremental_days bulk_events formats passes
           (files (fs w)).
Proof.
  intros Hdays. revert files0 w.
  induction formats as [|f formats IH]; intros files0 w.
  - exists [], w. cbn. repeat split; try reflexivity. lia.
  - destruct (write_format_spec self out size incremental_days bulk_events
                files0 f w Hdays)
      as (batches & w1 & Hstep & Hb & Hbl & Hent & Hpos & Hd & Hf).
    cbn [for_each]. rewrite (bind_Ret _ _ _ _ _ Hstep).
    match goal with |- context [for_each _ formats ?acc ?w0] =>
      destruct (IH acc w0) as (passes & w2 & Hrun & Hp & Hpl & Hent' & Hpos' & Hd' & Hf')
    end.
    exists (batches :: passes), w2.
    rewrite Hrun. split; [reflexivity|].
    split; [|split; [cbn; lia|]].
    + cbn [passes_at]. split; [exact Hb|].
      rewrite Hent, Hpos in Hp. exact Hp.
    + rewrite Hent', Hpos', Hd', Hf', Hent, Hpos, Hd, Hf.
      repeat split; try reflexivity. cbn [length]. lia.
Qed.

(** ** A whole run *)

Lemma bulk_window_in_range :
  datetime.in_range bulk_start_date
  /\ datetime.in_range (bulk_start_date + 30 * datetime.US_PER_DAY).
Proof.
  assert (Hv : bulk_start_date = 738885 * datetime.US_PER_DAY) by reflexivity.
  rewrite Hv.
  unfold datetime.in_range, datetime.US_PER_DAY, datetime.US_PER_SECOND,
    datetime.MAXORDINAL.
  lia.
Qed.

Lemma prepared_facts (out : Path) (seed : option Z) w :
  os_entropy (prepared out seed w) = os_entropy w
  /\ os_pos (prepared out seed w) = os_pos w
  /\ files (fs (prepared out seed w)) = files (fs w)
  /\ dirs (fs (prepared out seed w))
     = list_to_set (pathlib.self_and_parents (incremental_dir_of out))
       ∪ (list_to_set (pathlib.self_and_parents (bulk_dir_of out)) ∪ dirs (fs w)).
Proof. unfold prepared. destruct seed; repeat split; reflexivity. Qed.

(** A call with a recognised size and supported formats, asking for no
    more incremental days than the calendar has room for, returns; its
    manifest and the files it leaves are those rebuilt from the batches it
    drew. *)
Lemma generate_benchmark_data_spec (size : string) (tier : DataSize)
    (output_dir : string) (formats : option (list string)) (seed : option Z)
    (incremental_days : Z) w :
  DataSize_of_value size = Some tier ->
  list_to_set (formats_or_default formats) ∖ supported_formats = (∅ : gset string) ->
  incremental_days <= MAX_INCREMENTAL_DAYS ->
  let out := pathlib.of_string output_dir in
  let fl := formats_or_default formats in
  exists bulk_events wb passes w1,
    generate_bulk_data (generator_of tier) bulk_start_date 30 (prepared out seed w)
    = (Ret bulk_events, wb)
    /\ generate_benchmark_data size output_dir formats seed incremental_days w
       = (Ret {| res_size := size;
                 res_bulk_record_count := Z.of_nat (length bulk_events);
                 res_incremental_days := incremental_days;
                 res_files := manifest_files out size incremental_days
                                bulk_events fl passes ∅ |}, w1)
    /\ length bulk_events = Z.to_nat (SIZE_RECORD_COUNTS tier)
    /\ batch_at (os_entropy w) (os_pos w) bulk_start_date
                (bulk_start_date + 30 * datetime.US_PER_DAY) bulk_events
    /\ passes_at (os_entropy w) (os_pos w + 48 * Z.to_N (SIZE_RECORD_COUNTS tier))
                 incremental_days fl passes
    /\ length passes = length fl
    /\ os_entropy w1 = os_entropy w
    /\ os_pos w1
       = (os_pos w + 48 * Z.to_N (SIZE_RECORD_COUNTS tier)
          + 48000 * Z.to_N incremental_days * N.of_nat (length fl))%N
    /\ dirs (fs w1) = dirs (fs (prepared out seed w))
    /\ files (fs w1)
       = files_after out size incremental_days bulk_events fl passes (files (fs w)).
Proof.
  intros Hsize Hformats Hdays out fl.
  destruct bulk_window_in_range as (Hr1 & Hr2).
  destruct (generate_bulk_data_total (generator_of tier) bulk_start_date 30
              (prepared out seed w) ltac:(lia) Hr1 Hr2) as (bulk_events & wb & Hbulk).
  pose proof (generate_bulk_data_inv _ _ _ _ _ _ Hbulk)
    as (Hlen & Hbatch & Hent & Hpos & Hfs).
  destruct (prepared_facts out seed w) as (Pent & Ppos & Pfiles & Pdirs).
  destruct (format_loop_spec (generator_of tier) out size incremental_days
              bulk_events fl ∅ wb Hdays)
    as (passes & w1 & Hloop & Hp & Hpl & Hent' & Hpos' & Hd' & Hf').
  exists bulk_events, wb, passes, w1.
  split; [exact Hbulk|]. split.
  - unfold generate_benchmark_data. rewrite Hsize.
    fold (formats_or_default formats). fold fl.
    destruct (decide (list_to_set fl ∖ supported_formats = (∅ : gset string)))
      as [_|Hne]; [|contradiction].
    fold out. fold (bulk_dir_of out). fold (incremental_dir_of out).
    unfold mkdir at 1. unfold bind at 1.
    unfold mkdir at 1. unfold bind at 1.
    unfold __init__ at 1. unfold bind at 1.
    etransitivity; [apply bind_Ret; exact Hbulk|].
    etransitivity; [apply bind_Ret; exact Hloop|].
    reflexivity.
  - cbn [record_count generator_of] in Hlen, Hpos.
    rewrite Pent, Ppos in Hbatch.
    rewrite Hent, Hpos, Pent, Ppos in Hp.
    rewrite Hent', Hpos', Hd', Hf', Hent, Hpos, Hfs, Pent, Ppos, Pfiles.
    replace (N.of_nat (Z.to_nat (SIZE_RECORD_COUNTS tier)))
      with (Z.to_N (SIZE_RECORD_COUNTS tier)) in * by lia.
    repeat split; try assumption; reflexivity.
Qed.

(** ** Paths and the stored files *)

Lemma append_inv_head (s a b : string) :
  String.append s a = String.append s b -> a = b.
Proof.
  induction s as [|c s IH]; cbn; intros H; [exact H|].
  inversion H. auto.
Qed.

Lemma bulk_filename_inj (size f g : string) :
  bulk_filename size f = bulk_filename size g -> f = g.
Proof.
  unfold bulk_filename. intros H.
  do 3 apply append_inv_head in H. exact H.
Qed.

Lemma incremental_filename_inj (date size f g : string) :
  incremental_filename date size f = incremental_filename date size g -> f = g.
Proof.
  unfold incremental_filename. intros H.
  do 5 apply append_inv_head in H. exact H.
Qed.

Lemma div_inj (p : Path) (a b : string) :
  pathlib.div p a = pathlib.div p b -> a = b.
Proof.
  unfold pathlib.div. intros H. inversion H as [Hp].
  apply app_inv_head in Hp. inversion Hp. reflexivity.
Qed.

Lemma div_div_inj (p : Path) (a b x y : string) :
  pathlib.div (pathlib.div p a) x = pathlib.div (pathlib.div p b) y ->
  a = b /\ x = y.
Proof.
  unfold pathlib.div. cbn. intros H. inversion H as [Hp].
  rewrite <- !app_assoc in Hp. apply app_inv_head in Hp.
  inversion Hp. split; reflexivity.
Qed.

Lemma bulk_path_inj (out : Path) (size f g : string) :
  bulk_file_path out size f = bulk_file_path out size g -> f = g.
Proof.
  unfold bulk_file_path. intros H. apply div_inj in H.
  apply bulk_filename_inj in H. exact H.
Qed.

Lemma bulk_path_not_incremental (out : Path) (size f g : string) (day : Z) :
  bulk_file_path out size f <> incremental_file_path out size g day.
Proof.
  unfold bulk_file_path, incremental_file_path, bulk_dir_of, incremental_dir_of.
  intros H. apply div_div_inj in H as (H & _). discriminate H.
Qed.

Lemma write_batches_cons (out : Path) (size f : string) day l daily batches
    (m : gmap Path file_data) :
  write_batches out size f (day :: l) (daily :: batches) m
  = write_batches out size f l batches
      (<[incremental_file_path out size f day := encode f (DataFrame_of daily)]> m).
Proof. reflexivity. Qed.

Lemma write_batches_other (out : Path) (size f : string) (l : list Z)
    (batches : list (list event)) (m : gmap Path file_data) (p : Path) :
  (forall day, p <> incremental_file_path out size f day) ->
  write_batches out size f l batches m !! p = m !! p.
Proof.
  intros Hp. revert batches m.
  induction l as [|day l IH]; intros [|daily batches] m; try reflexivity.
  rewrite write_batches_cons, IH.
  apply lookup_insert_ne. intros Heq. apply (Hp day). symmetry. exact Heq.
Qed.

Lemma write_batches_not_written (out : Path) (size f : string) (l : list Z)
    (batches : list (list event)) (m : gmap Path file_data) (p : Path) :
  p ∉ map (incremental_file_path out size f) l ->
  write_batches out size f l batches m !! p = m !! p.
Proof.
  revert batches m. induction l as [|y l IH]; intros [|b batches] m Hp;
    try reflexivity.
  cbn [map] in Hp. apply not_elem_of_cons in Hp as (Hne & Hp).
  rewrite write_batches_cons, IH by exact Hp.
  apply lookup_insert_ne. congruence.
Qed.

(** After its day loop, the file of every day of a format holds one of
    the batches of that loop. *)
Lemma write_batches_written (out : Path) (size f : string) (l : list Z)
    (batches : list (list event)) (m : gmap Path file_data) (day : Z) :
  length batches = length l ->
  day ∈ l ->
  exists daily,
    daily ∈ batches
    /\ write_batches out size f l batches m !! incremental_file_path out size f day
       = Some (encode f (DataFrame_of daily)).
Proof.
  revert batches m day.
  induction l as [|x l IH]; intros [|b batches] m day Hlen Hday;
    try discriminate Hlen.
  - apply elem_of_nil in Hday. contradiction.
  - rewrite write_batches_cons.
    assert (Hlen' : length batches = length l) by (cbn in Hlen; lia).
    destruct (decide (incremental_file_path out size f day
                      ∈ map (incremental_file_path out size f) l)) as [Hp|Hp].
    + apply list_elem_of_In, in_map_iff in Hp as (y & Hy & Hyl).
      apply list_elem_of_In in Hyl.
      destruct (IH batches
                  (<[incremental_file_path out size f x
                       := encode f (DataFrame_of b)]> m) y Hlen' Hyl)
        as (daily & Hd & Hl).
      exists daily. split; [apply elem_of_cons; right; exact Hd|].
      rewrite <- Hy. exact Hl.
    + apply elem_of_cons in Hday as [->|Hin].
      * exists b. split; [apply elem_of_cons; left; reflexivity|].
        rewrite write_batches_not_written by exact Hp.
        apply lookup_insert_eq.
      * exfalso. apply Hp. apply list_elem_of_In, in_map, list_elem_of_In. exact Hin.
Qed.

Lemma write_batches_dom (out : Path) (size f : string) (l : list Z)
    (batches : list (list event)) (m : gmap Path file_data) :
  length batches = length l ->
  dom (write_batches out size f l batches m)
  = list_to_set (map (incremental_file_path out size f) l) ∪ dom m.
Proof.
  revert batches m. induction l as [|x l IH]; intros [|b batches] m Hlen;
    try discriminate Hlen.
  - cbn. symmetry. apply union_empty_l_L.
  - rewrite write_batches_cons, IH by (cbn in Hlen; lia).
    rewrite dom_insert_L. cbn.
    apply leibniz_equiv. intros q. rewrite !elem_of_union. tauto.
Qed.

Lemma files_after_cons (out : Path) (size : string) (days : Z) bulk f formats
    b passes (m : gmap Path file_data) :
  files_after out size days bulk (f :: formats) (b :: passes) m
  = files_after out size days bulk formats passes
      (write_batches out size f (range days) b
         (<[bulk_file_path out size f := encode f (DataFrame_of bulk)]> m)).
Proof. reflexivity. Qed.

Lemma files_after_bulk_frame (out : Path) (size : string) (days : Z) bulk
    (formats : list string) passes (m : gmap Path file_data) (f : string) :
  f ∉ formats ->
  files_after out size days bulk formats passes m !! bulk_file_path out size f
  = m !! bulk_file_path out size f.
Proof.
  revert passes m. induction formats as [|g formats IH]; intros [|b passes] m Hf;
    try reflexivity.
  apply not_elem_of_cons in Hf as (Hne & Hf).
  rewrite files_after_cons, IH by exact Hf.
  rewrite write_batches_other by (intros day; apply bulk_path_not_incremental).
  apply lookup_insert_ne. intros Heq. apply bulk_path_inj in Heq. congruence.
Qed.

(** After the passes, the bulk file of every requested format holds the
    one bulk batch. *)
Lemma files_after_bulk (out : Path) (size : string) (days : Z) bulk
    (formats : list string) passes (m : gmap Path file_data) (f : string) :
  length passes = length formats ->
  f ∈ formats ->
  files_after out size days bulk formats passes m !! bulk_file_path out size f
  = Some (encode f (DataFrame_of bulk)).
Proof.
  revert passes m. induction formats as [|g formats IH]; intros [|b passes] m Hlen Hf;
    try discriminate Hlen.
  - apply elem_of_nil in Hf. contradiction.
  - rewrite files_after_cons.
    destruct (decide (f ∈ formats)) as [Hin|Hnin].
    + apply IH; [cbn in Hlen; lia | exact Hin].
    + apply elem_of_cons in Hf as [->|Hin]; [|contradiction].
      rewrite files_after_bulk_frame by exact Hnin.
      rewrite write_batches_other by (intros day; apply bulk_path_not_incremental).
      apply lookup_insert_eq.
Qed.

Lemma manifest_files_cons (out : Path) (size : string) (days : Z) bulk f formats
    b passes (files0 : gmap string format_results) :
  manifest_files out size days bulk (f :: formats) (b :: passes) files0
  = manifest_files out size days bulk formats passes
      (<[f := format_results_of out size f days bulk b]> files0).
Proof. reflexivity. Qed.

Lemma manifest_files_dom (out : Path) (size : string) (days : Z) bulk
    (formats : list string) passes (files0 : gmap string format_results) :
  length passes = length formats ->
  dom (manifest_files out size days bulk formats passes files0)
  = list_to_set formats ∪ dom files0.
Proof.
  revert passes files0.
  induction formats as [|g formats IH]; intros [|b passes] files0 Hlen;
    try discriminate Hlen.
  - cbn. symmetry. apply union_empty_l_L.
  - rewrite manifest_files_cons, IH by (cbn in Hlen; lia).
    rewrite dom_insert_L. cbn.
    apply leibniz_equiv. intros q. rewrite !elem_of_union. tauto.
Qed.

Lemma manifest_files_frame (out : Path) (size : string) (days : Z) bulk
    (formats : list string) passes (files0 : gmap string format_results) (f : string) :
  f ∉ formats ->
  manifest_files out size days bulk formats passes files0 !! f = files0 !! f.
Proof.
  revert passes files0.
  induction formats as [|g formats IH]; intros [|b passes] files0 Hf;
    try reflexivity.
  apply not_elem_of_cons in Hf as (Hne & Hf).
  rewrite manifest_files_cons, IH by exact Hf.
  apply lookup_insert_ne. congruence.
Qed.

(** The manifest entry of a requested format is the one of a pass made
    for it. *)
Lemma manifest_files_lookup (out : Path) (size : string) (days : Z) bulk
    (formats : list string) passes (files0 : gmap string format_results) (f : string) :
  length passes = length formats ->
  f ∈ formats ->
  exists batches,
    batches ∈ passes
    /\ manifest_files out size days bulk formats passes files0 !! f
       = Some (format_results_of out size f days bulk batches).
Proof.
  revert passes files0.
  induction formats as [|g formats IH]; intros [|b passes] files0 Hlen Hf;
    try discriminate Hlen.
  - apply elem_of_nil in Hf. contradiction.
  - rewrite manifest_files_cons.
    destruct (decide (f ∈ formats)) as [Hin|Hnin].
    + destruct (IH passes (<[g := format_results_of out size g days bulk b]> files0)
                  ltac:(cbn in Hlen; lia) Hin) as (batches & Hb & Hl).
      exists batches. split; [apply elem_of_cons; right; exact Hb | exact Hl].
    + apply elem_of_cons in Hf as [->|Hin]; [|contradiction].
      exists b. split; [apply elem_of_cons; left; reflexivity|].
      rewrite manifest_files_frame by exact Hnin.
      apply lookup_insert_eq.
Qed.

Lemma batches_at_length entropy pos (l : list Z) (batches : list (list event)) :
  batches_at entropy pos l batches -> length batches = length l.
Proof.
  revert pos batches. induction l as [|d l IH]; intros pos [|b batches] H;
    cbn in H; try contradiction; [reflexivity|].
  destruct H as (_ & _ & H). cbn. f_equal. eapply IH. exact H.
Qed.

Lemma passes_at_lengths entropy pos (days : Z) (formats : list string)
    (passes : list (list (list event))) :
  passes_at entropy pos days formats passes ->
  Forall (fun batches => length batches = Z.to_nat days) passes.
Proof.
  revert pos passes. induction formats as [|f formats IH]; intros pos [|b passes] H;
    cbn in H; try contradiction; [constructor|].
  destruct H as (Hb & H). constructor.
  - apply batches_at_length in Hb. rewrite length_range in Hb. exact Hb.
  - eapply IH. exact H.
Qed.

Lemma range_nonpos (n : Z) : n <= 0 -> range n = [].
Proof.
  intros Hn. unfold range. replace (Z.to_nat n) with 0%nat by lia. reflexivity.
Qed.

(** Validity of the formats, entry by entry. *)
Lemma formats_valid_iff (formats : list string) :
  list_to_set formats ∖ supported_formats = (∅ : gset string)
  <-> Forall (fun f => f = "csv" \/ f = "parquet") formats.
Proof.
  unfold supported_formats. rewrite Forall_forall. split.
  - intros H f Hf.
    destruct (decide (f = "csv")) as [|Hc]; [left; assumption|].
    destruct (decide (f = "parquet")) as [|Hp]; [right; assumption|].
    exfalso.
    assert (Hin : f ∈ (list_to_set formats ∖ {["csv"; "parquet"]} : gset string)).
    { apply elem_of_difference. split.
      - apply elem_of_list_to_set. exact Hf.
      - intros Hs. apply elem_of_union in Hs as [Hs|Hs];
          apply elem_of_singleton in Hs; contradiction. }
    rewrite H in Hin. exact (not_elem_of_empty (C := gset string) f Hin).
  - intros H. apply leibniz_equiv, elem_of_equiv_empty. intros f Hf.
    apply elem_of_difference in Hf as (Hf & Hn).
    apply elem_of_list_to_set in Hf. apply Hn.
    destruct (H f Hf) as [->| ->];
      [apply elem_of_union_l | apply elem_of_union_r]; apply elem_of_singleton;
      reflexivity.
Qed.

Lemma DataSize_of_value_spec (size : string) :
  match DataSize_of_value size with
  | Some tier => DataSize_value tier = size /\ size ∈ ["small"; "medium"; "large"]
  | None => size ∉ ["small"; "medium"; "large"]
  end.
Proof.
  unfold DataSize_of_value, DataSize_members. cbn [find DataSize_value].
  destruct (String.eqb_spec "small" size) as [<-|H1].
  { split; [reflexivity|]. apply elem_of_cons. left. reflexivity. }
  destruct (String.eqb_spec "medium" size) as [<-|H2].
  { split; [reflexivity|]. apply elem_of_cons. right. apply elem_of_cons.
    left. reflexivity. }
  destruct (String.eqb_spec "large" size) as [<-|H3].
  { split; [reflexivity|]. do 2 (apply elem_of_cons; right).
    apply elem_of_cons. left. reflexivity. }
  intros Hin.
  repeat (apply elem_of_cons in Hin as [->|Hin]; [congruence|]).
  apply elem_of_nil in Hin. exact Hin.
Qed.

Lemma DataFrame_of_columns entropy pos lo hi events :
  batch_at entropy pos lo hi events ->
  events <> [] ->
  columns (DataFrame_of events) = event_columns.
Proof.
  intros Hb Hne. destruct events as [|e events]; [congruence|].
  destruct (Hb 0%nat e eq_refl) as (t & p & c & d & ip & -> & _).
  reflexivity.
Qed.

(** ** The orchestrator *)

(** C3: [generate_benchmark_data] validates [size] and the entries of
    [formats] before anything else.  An unrecognised size raises a
    [ValueError] naming small, medium and large; with a recognised size,
    formats outside csv and parquet raise a [ValueError] naming exactly the
    offending formats and the supported set.  In both cases the world is
    the one the call started in: no directory was created, no file written
    and no random draw made. *)
Theorem validation_fails_fast (size output_dir : string)
    (formats : option (list string)) (seed : option Z) (incremental_days : Z) w :
  let fl := formats_or_default formats in
  let invalid : gset string := list_to_set fl ∖ supported_formats in
  (size ∉ ["small"; "medium"; "large"] ->
     generate_benchmark_data size output_dir formats seed incremental_days w
     = (Raise (ValueError (InvalidSizeMsg ["small"; "medium"; "large"])), w))
  /\ (size ∈ ["small"; "medium"; "large"] ->
      (exists f, f ∈ fl /\ f <> "csv" /\ f <> "parquet") ->
      generate_benchmark_data size output_dir formats seed incremental_days w
      = (Raise (ValueError (UnsupportedFormatsMsg invalid supported_formats)), w)
      /\ (forall f, f ∈ invalid <-> f ∈ fl /\ f <> "csv" /\ f <> "parquet")
      /\ (forall f, f ∈ supported_formats <-> f = "csv" \/ f = "parquet")).
Proof.
  intros fl invalid. split.
  - intros Hsize. unfold generate_benchmark_data.
    pose proof (DataSize_of_value_spec size) as Hs.
    destruct (DataSize_of_value size) as [tier|].
    + destruct Hs as (_ & Hin). contradiction.
    + reflexivity.
  - intros Hsize (f & Hf & Hc & Hp).
    assert (Hsup : forall g, g ∈ supported_formats <-> g = "csv" \/ g = "parquet").
    { intros g. unfold supported_formats.
      rewrite elem_of_union, !elem_of_singleton. reflexivity. }
    assert (Hinv : forall g, g ∈ invalid <-> g ∈ fl /\ g <> "csv" /\ g <> "parquet").
    { intros g. unfold invalid.
      rewrite elem_of_difference, elem_of_list_to_set, Hsup. tauto. }
    split; [|split; assumption].
    unfold generate_benchmark_data.
    pose proof (DataSize_of_value_spec size) as Hs.
    destruct (DataSize_of_value size) as [tier|]; [|contradiction].
    fold (formats_or_default formats). fold fl. fold invalid.
    destruct (decide (invalid = ∅)) as [Hempty|Hne]; [|reflexivity].
    exfalso. assert (Hin : f ∈ invalid) by (apply Hinv; auto).
    rewrite Hempty in Hin. exact (not_elem_of_empty (C := gset string) f Hin).
Qed.

Lemma files_after_no_days (out : Path) (size : string) (days : Z) bulk
    (formats : list string) passes (m : gmap Path file_data) :
  days <= 0 ->
  length passes = length formats ->
  files_after out size days bulk formats passes m
  = foldl (fun m f => <[bulk_file_path out size f := encode f (DataFrame_of bulk)]> m)
          m formats.
Proof.
  intros Hdays. revert passes m.
  induction formats as [|f formats IH]; intros [|b passes] m Hlen;
    try discriminate Hlen; [reflexivity|].
  rewrite files_after_cons, IH by (cbn in Hlen; lia).
  rewrite range_nonpos by exact Hdays. reflexivity.
Qed.

(** C10: [incremental_days] is not validated.  For a recognised size,
    supported formats and any [incremental_days <= 0] the call returns; the
    files it writes are the bulk files of the requested formats and nothing
    else; the list of incremental files of every format in the manifest is
    empty; and the manifest repeats [incremental_days] as it was given. *)
Theorem non_positive_incremental_days (size : string) (tier : DataSize)
    (output_dir : string) (formats : option (list string)) (seed : option Z)
    (incremental_days : Z) w :
  DataSize_of_value size = Some tier ->
  Forall (fun f => f = "csv" \/ f = "parquet") (formats_or_default formats) ->
  incremental_days <= 0 ->
  let out := pathlib.of_string output_dir in
  let fl := formats_or_default formats in
  exists m w1 bulk_events,
    generate_benchmark_data size output_dir formats seed incremental_days w
    = (Ret m, w1)
    /\ res_incremental_days m = incremental_days
    /\ dom (res_files m) = list_to_set fl
    /\ (forall f fr, res_files m !! f = Some fr ->
          fr_incremental fr = []
          /\ fr_bulk fr = bulk_entry_of out size f bulk_events)
    /\ files (fs w1)
       = foldl (fun m f => <[bulk_file_path out size f
                              := encode f (DataFrame_of bulk_events)]> m)
               (files (fs w)) fl.
Proof.
  intros Hsize Hformats Hdays out fl.
  apply formats_valid_iff in Hformats.
  destruct (generate_benchmark_data_spec size tier output_dir formats seed
              incremental_days w Hsize Hformats
              ltac:(unfold MAX_INCREMENTAL_DAYS; lia))
    as (bulk_events & wb & passes & w1 & _ & Hrun & _ & _ & _ & Hpl & _ & _ & _ & Hfiles).
  fold out in Hrun, Hfiles. fold fl in Hrun, Hfiles, Hpl.
  eexists _, w1, bulk_events. split; [exact Hrun|].
  cbn [res_incremental_days res_files].
  split; [reflexivity|]. split; [|split].
  - rewrite manifest_files_dom by exact Hpl. rewrite dom_empty_L.
  apply union_empty_r_L.
  - intros f fr Hlook.
    assert (Hin : f ∈ fl).
    { destruct (decide (f ∈ fl)) as [|Hn]; [assumption|].
      rewrite manifest_files_frame in Hlook by exact Hn.
      rewrite lookup_empty in Hlook. discriminate Hlook. }
    destruct (manifest_files_lookup out size incremental_days bulk_events fl
                passes ∅ f Hpl Hin) as (batches & _ & Hl).
    rewrite Hl in Hlook. inversion Hlook; subst fr.
    unfold format_results_of. cbn [fr_incremental fr_bulk].
    rewrite range_nonpos by exact Hdays. split; reflexivity.
  - rewrite Hfiles. apply files_after_no_days; assumption.
Qed.

Lemma encode_csv_batch entropy pos lo hi events :
  batch_at entropy pos lo hi events ->
  events <> [] ->
  encode "csv" (DataFrame_of events)
  = CsvFile event_columns (map (map snd) events).
Proof.
  intros Hb Hne. unfold encode. cbn [String.eqb Ascii.eqb].
  change (String.eqb "csv" "csv") with true. cbv iota.
  rewrite (DataFrame_of_columns _ _ _ _ _ Hb Hne). reflexivity.
Qed.

Lemma nonempty_of_length (events : list event) (n : nat) :
  length events = n -> (0 < n)%nat -> events <> [].
Proof. intros Hl Hn ->. cbn in Hl. lia. Qed.

(** C8: a call with size small, formats [csv], any seed and two
    incremental days leaves [bulk/bulk_data_small.csv] with a header and
    100,000 data rows, and [incremental/incremental_2024-02-01_small.csv]
    and [incremental/incremental_2024-02-02_small.csv] with a header and
    1,000 data rows each, under the output directory; the manifest it
    returns has [bulk_record_count = 100000], [incremental_days = 2] and
    one entry of [files], keyed by the format, with the path, the record
    count and the size in MB of each file. *)
Theorem small_csv_two_days (output_dir : string) (seed : option Z) w :
  let out := pathlib.of_string output_dir in
  let bulk_file :=
    pathlib.div (pathlib.div out "bulk") "bulk_data_small.csv" in
  let day1_file :=
    pathlib.div (pathlib.div out "incremental") "incremental_2024-02-01_small.csv" in
  let day2_file :=
    pathlib.div (pathlib.div out "incremental") "incremental_2024-02-02_small.csv" in
  exists m w1 (bulk_events day1 day2 : list event),
    generate_benchmark_data "small" output_dir (Some ["csv"]) seed 2 w = (Ret m, w1)
    /\ Z.of_nat (length bulk_events) = 100000
    /\ Z.of_nat (length day1) = 1000
    /\ Z.of_nat (length day2) = 1000
    /\ files (fs w1) !! bulk_file
       = Some (CsvFile event_columns (map (map snd) bulk_events))
    /\ files (fs w1) !! day1_file
       = Some (CsvFile event_columns (map (map snd) day1))
    /\ files (fs w1) !! day2_file
       = Some (CsvFile event_columns (map (map snd) day2))
    /\ m = {| res_size := "small";
              res_bulk_record_count := 100000;
              res_incremental_days := 2;
              res_files :=
                {[ "csv" :=
                   {| fr_bulk :=
                        {| bulk_path := pathlib.str bulk_file;
                           bulk_records := 100000;
                           bulk_size_mb :=
                             size_mb_of (CsvFile event_columns
                                           (map (map snd) bulk_events)) |};
                      fr_incremental :=
                        [ {| incr_date := "2024-02-01";
                             incr_path := pathlib.str day1_file;
                             incr_records := 1000;
                             incr_size_mb :=
                               size_mb_of (CsvFile event_columns
                                             (map (map snd) day1)) |};
                          {| incr_date := "2024-02-02";
                             incr_path := pathlib.str day2_file;
                             incr_records := 1000;
                             incr_size_mb :=
                               size_mb_of (CsvFile event_columns
                                             (map (map snd) day2)) |} ] |} ]} |}.
Proof.
  intros out bulk_file day1_file day2_file.
  assert (Hformats : list_to_set (formats_or_default (Some ["csv"]))
                     ∖ supported_formats = (∅ : gset string)).
  { apply formats_valid_iff. repeat constructor. }
  destruct (generate_benchmark_data_spec "small" SMALL output_dir (Some ["csv"])
              seed 2 w eq_refl Hformats ltac:(unfold MAX_INCREMENTAL_DAYS; lia))
    as (bulk_events & wb & passes & w1 & _ & Hrun & Hlen & Hbulk & Hp & Hpl
        & _ & _ & _ & Hfiles).
  fold out in Hrun, Hfiles.
  cbn [formats_or_default] in Hrun, Hp, Hpl, Hfiles.
  destruct passes as [|batches [|? ?]]; try discriminate Hpl.
  cbn [passes_at] in Hp. destruct Hp as (Hb & _).
  change (range 2) with [0; 1] in Hb.
  pose proof (batches_at_length _ _ _ _ Hb) as Hbl.
  destruct batches as [|day1 [|day2 [|? ?]]]; try discriminate Hbl.
  cbn [batches_at] in Hb.
  destruct Hb as (Hl1 & Hb1 & Hl2 & Hb2 & _).
  assert (Hne : bulk_events <> []).
  { eapply nonempty_of_length; [exact Hlen|]. cbn. lia. }
  assert (Hne1 : day1 <> []) by (eapply nonempty_of_length; [exact Hl1 | lia]).
  assert (Hne2 : day2 <> []) by (eapply nonempty_of_length; [exact Hl2 | lia]).
  pose proof (encode_csv_batch _ _ _ _ _ Hbulk Hne) as Ebulk.
  pose proof (encode_csv_batch _ _ _ _ _ Hb1 Hne1) as E1.
  pose proof (encode_csv_batch _ _ _ _ _ Hb2 Hne2) as E2.
  assert (P0 : bulk_file_path out "small" "csv" = bulk_file) by reflexivity.
  assert (P1 : incremental_file_path out "small" "csv" 0 = day1_file)
    by reflexivity.
  assert (P2 : incremental_file_path out "small" "csv" 1 = day2_file)
    by reflexivity.
  assert (N12 : day2_file <> day1_file).
  { intros H. apply div_inj in H. discriminate H. }
  assert (N01 : day1_file <> bulk_file).
  { intros H. apply div_div_inj in H as (H & _). discriminate H. }
  assert (N02 : day2_file <> bulk_file).
  { intros H. apply div_div_inj in H as (H & _). discriminate H. }
  unfold files_after in Hfiles. cbn [zip zip_with foldl fst snd] in Hfiles.
  change (range 2) with [0; 1] in Hfiles.
  rewrite !write_batches_cons in Hfiles.
  unfold write_batches in Hfiles. cbn [zip zip_with foldl] in Hfiles.
  rewrite P0, P1, P2, Ebulk, E1, E2 in Hfiles.
  eexists _, w1, bulk_events, day1, day2.
  split; [exact Hrun|].
  split; [rewrite Hlen; reflexivity|].
  split; [rewrite Hl1; reflexivity|].
  split; [rewrite Hl2; reflexivity|].
  rewrite Hfiles.
  split; [rewrite !lookup_insert_ne by congruence; apply lookup_insert_eq|].
  split; [rewrite lookup_insert_ne by congruence; apply lookup_insert_eq|].
  split; [apply lookup_insert_eq|].
  unfold manifest_files. cbn [zip zip_with foldl fst snd].
  rewrite insert_empty.
  unfold format_results_of, bulk_entry_of.
  change (range 2) with [0; 1]. cbn [zip_with].
  unfold incremental_entry_of.
  rewrite P0, P1, P2, Ebulk, E1, E2, Hlen, Hl1, Hl2.
  reflexivity.
Qed.

Lemma length_concat_uniform {A} (ls : list (list A)) (n : nat) :
  Forall (fun l => length l = n) ls ->
  length (concat ls) = (length ls * n)%nat.
Proof.
  induction 1 as [|l ls Hl _ IH]; [reflexivity|].
  cbn. rewrite length_app, IH, Hl. reflexivity.
Qed.

(** C7, first part: in one run exactly one bulk batch is generated,
    whatever the number of formats, and the bulk file of every requested
    format holds the rows of that batch; one fresh incremental batch is
    drawn per format and day, [len(formats) * incremental_days] in all,
    each from its own stretch of the random sources.  Second part: the
    incremental files of two formats for the same day can hold different
    rows (here csv and parquet for 2024-02-01, whenever the entropy source
    delivers different bytes to the two batches). *)
Theorem one_bulk_batch_fresh_incrementals :
  (forall (size : string) (tier : DataSize) (output_dir : string)
          (formats : option (list string)) (seed : option Z)
          (incremental_days : Z) w,
      DataSize_of_value size = Some tier ->
      Forall (fun f => f = "csv" \/ f = "parquet") (formats_or_default formats) ->
      0 <= incremental_days <= MAX_INCREMENTAL_DAYS ->
      let out := pathlib.of_string output_dir in
      let fl := formats_or_default formats in
      exists m w1 wb bulk_events passes,
        generate_benchmark_data size output_dir formats seed incremental_days w
        = (Ret m, w1)
        /\ generate_bulk_data (generator_of tier) bulk_start_date 30
              (prepared out seed w) = (Ret bulk_events, wb)
        /\ res_bulk_record_count m = Z.of_nat (length bulk_events)
        /\ (forall f, f ∈ fl ->
              files (fs w1) !! bulk_file_path out size f
              = Some (encode f (DataFrame_of bulk_events))
              /\ file_rows (encode f (DataFrame_of bulk_events))
                 = map (map snd) bulk_events)
        /\ passes_at (os_entropy w)
              (os_pos w + 48 * Z.to_N (SIZE_RECORD_COUNTS tier))
              incremental_days fl passes
        /\ length passes = length fl
        /\ Forall (fun batches => Z.of_nat (length batches) = incremental_days) passes
        /\ Z.of_nat (length (concat passes))
           = Z.of_nat (length fl) * incremental_days
        /\ os_pos w1
           = (os_pos w + 48 * Z.to_N (SIZE_RECORD_COUNTS tier)
              + 48000 * Z.to_N incremental_days * N.of_nat (length fl))%N)
  /\ (forall (output_dir : string) (seed : option Z) w,
        os_entropy w = counting_entropy ->
        os_pos w = 0%N ->
        let out := pathlib.of_string output_dir in
        exists m w1 (csv_rows parquet_rows : list (list pyval)),
          generate_benchmark_data "small" output_dir (Some ["csv"; "parquet"]) seed 1 w
          = (Ret m, w1)
          /\ files (fs w1) !! incremental_file_path out "small" "csv" 0
             = Some (CsvFile event_columns csv_rows)
          /\ files (fs w1) !! incremental_file_path out "small" "parquet" 0
             = Some (ParquetFile event_columns parquet_rows)
          /\ csv_rows <> parquet_rows).
Proof.
  split.
  - intros size tier output_dir formats seed incremental_days w
      Hsize Hformats Hdays out fl.
    apply formats_valid_iff in Hformats.
    destruct (generate_benchmark_data_spec size tier output_dir formats seed
                incremental_days w Hsize Hformats ltac:(lia))
      as (bulk_events & wb & passes & w1 & Hbulk & Hrun & _ & _ & Hp & Hpl
          & _ & Hpos & _ & Hfiles).
    fold out in Hbulk, Hrun, Hfiles. fold fl in Hrun, Hp, Hpl, Hpos, Hfiles.
    eexists _, w1, wb, bulk_events, passes.
    split; [exact Hrun|]. split; [exact Hbulk|]. split; [reflexivity|].
    pose proof (passes_at_lengths _ _ _ _ _ Hp) as Hlens.
    split; [|split; [exact Hp|split; [exact Hpl|split; [|split; [|exact Hpos]]]]].
    + intros f Hf. split.
      * rewrite Hfiles. apply files_after_bulk; assumption.
      * unfold encode. destruct (String.eqb f "csv"); reflexivity.
    + eapply Forall_impl; [exact Hlens|]. cbn. intros b Hb. lia.
    + rewrite (length_concat_uniform _ _ Hlens), Hpl. lia.
  - intros output_dir seed w Hent Hpos0 out.
    assert (Hformats : list_to_set (formats_or_default (Some ["csv"; "parquet"]))
                       ∖ supported_formats = (∅ : gset string)).
    { apply formats_valid_iff.
      constructor; [left; reflexivity|]. constructor; [right; reflexivity|].
      constructor. }
    destruct (generate_benchmark_data_spec "small" SMALL output_dir
                (Some ["csv"; "parquet"]) seed 1 w eq_refl Hformats
                ltac:(unfold MAX_INCREMENTAL_DAYS; lia))
      as (bulk_events & wb & passes & w1 & _ & Hrun & _ & _ & Hp & Hpl
          & _ & _ & _ & Hfiles).
    fold out in Hrun, Hfiles.
    cbn [formats_or_default] in Hrun, Hp, Hpl, Hfiles.
    destruct passes as [|bc [|bp [|? ?]]]; try discriminate Hpl.
    cbn [passes_at] in Hp. destruct Hp as (Hbc & Hbp & _).
    change (range 1) with [0] in Hbc, Hbp.
    pose proof (batches_at_length _ _ _ _ Hbc) as Hlc.
    pose proof (batches_at_length _ _ _ _ Hbp) as Hlp.
    destruct bc as [|c1 [|? ?]]; try discriminate Hlc.
    destruct bp as [|p1 [|? ?]]; try discriminate Hlp.
    cbn [batches_at] in Hbc, Hbp.
    destruct Hbc as (Hl1 & Hb1 & _). destruct Hbp as (Hl2 & Hb2 & _).
    rewrite Hent, Hpos0 in Hb1, Hb2.
    unfold files_after in Hfiles. cbn [zip zip_with foldl fst snd] in Hfiles.
    change (range 1) with [0] in Hfiles.
    rewrite !write_batches_cons in Hfiles.
    unfold write_batches in Hfiles. cbn [zip zip_with foldl] in Hfiles.
    destruct c1 as [|e1 c1]; [discriminate Hl1|].
    destruct p1 as [|e2 p1]; [discriminate Hl2|].
    pose proof (Hb1 0%nat e1 eq_refl) as (t1 & pg1 & co1 & dv1 & ip1 & He1 & _).
    pose proof (Hb2 0%nat e2 eq_refl) as (t2 & pg2 & co2 & dv2 & ip2 & He2 & _).
    eexists _, w1, (map (map snd) (e1 :: c1)), (map (map snd) (e2 :: p1)).
    split; [exact Hrun|]. rewrite Hfiles.
    split; [|split].
    + rewrite lookup_insert_ne.
      2:{ intros H. apply div_inj, incremental_filename_inj in H. discriminate H. }
      rewrite lookup_insert_ne.
      2:{ intros H. exact (bulk_path_not_incremental _ _ _ _ _ H). }
      rewrite lookup_insert_eq. unfold encode, DataFrame_of. cbn [columns rows].
      rewrite He1. reflexivity.
    + rewrite lookup_insert_eq. unfold encode, DataFrame_of. cbn [columns rows].
      rewrite He2. reflexivity.
    + rewrite He1, He2. cbn [map snd]. intros H.
      apply (f_equal (fun l => match l with
                               | (PyStr u :: _) :: _ => u
                               | _ => ""
                               end)) in H.
      vm_compute in H. discriminate H.
Qed.

Lemma String_inj_tail (c c' : ascii) (s s' : string) :
  String c s = String c' s' -> s = s'.
Proof. intros H. inversion H. reflexivity. Qed.

(** A formatted date always has ten characters. *)
Lemma strftime_Ymd_shape (d : datetime.datetime) :
  exists c1 c2 c3 c4 c5 c6 c7 c8 c9 c10,
    datetime.strftime_Ymd d
    = String c1 (String c2 (String c3 (String c4 (String c5 (String c6
        (String c7 (String c8 (String c9 (String c10 EmptyString))))))))).
Proof.
  unfold datetime.strftime_Ymd.
  destruct (datetime.ord2ymd _) as [[y m] dd].
  unfold datetime.pad4, datetime.pad2. cbn [String.append].
  do 10 eexists. reflexivity.
Qed.

Lemma incremental_path_inj (out : Path) (size f g : string) (day day' : Z) :
  incremental_file_path out size f day = incremental_file_path out size g day' ->
  f = g.
Proof.
  unfold incremental_file_path. intros H. apply div_inj in H.
  destruct (strftime_Ymd_shape (incremental_date day))
    as (a1 & a2 & a3 & a4 & a5 & a6 & a7 & a8 & a9 & a10 & Ea).
  destruct (strftime_Ymd_shape (incremental_date day'))
    as (b1 & b2 & b3 & b4 & b5 & b6 & b7 & b8 & b9 & b10 & Eb).
  rewrite Ea, Eb in H.
  unfold incremental_filename in H. cbn [String.append] in H.
  do 23 apply String_inj_tail in H.
  do 2 apply append_inv_head in H. exact H.
Qed.

Lemma files_after_incremental_frame (out : Path) (size : string) (days : Z) bulk
    (formats : list string) passes (m : gmap Path file_data) (f : string) (day : Z) :
  f ∉ formats ->
  files_after out size days bulk formats passes m
    !! incremental_file_path out size f day
  = m !! incremental_file_path out size f day.
Proof.
  revert passes m. induction formats as [|g formats IH]; intros [|b passes] m Hf;
    try reflexivity.
  apply not_elem_of_cons in Hf as (Hne & Hf).
  rewrite files_after_cons, IH by exact Hf.
  rewrite write_batches_other.
  - apply lookup_insert_ne. intros Heq.
    exact (bulk_path_not_incremental _ _ _ _ _ Heq).
  - intros day' Heq. apply incremental_path_inj in Heq. congruence.
Qed.

(** The manifest entry of a format is the one of its last occurrence. *)
Lemma manifest_files_last (out : Path) (size : string) (days : Z) bulk
    (formats : list string) passes (files0 : gmap string format_results)
    (i : nat) (f : string) (batches : list (list event)) :
  formats !! i = Some f ->
  passes !! i = Some batches ->
  f ∉ drop (S i) formats ->
  manifest_files out size days bulk formats passes files0 !! f
  = Some (format_results_of out size f days bulk batches).
Proof.
  revert passes files0 i.
  induction formats as [|g formats IH]; intros [|b passes] files0 [|i] Hf Hb Hlast;
    try discriminate Hf; try discriminate Hb.
  - cbn in Hf, Hb, Hlast. inversion Hf; inversion Hb; subst.
    rewrite manifest_files_cons, manifest_files_frame by exact Hlast.
    apply lookup_insert_eq.
  - rewrite manifest_files_cons. eapply IH; eassumption.
Qed.

(** The files of a format are those written at its last occurrence. *)
Lemma files_after_last (out : Path) (size : string) (days : Z) bulk
    (formats : list string) passes (m : gmap Path file_data)
    (i : nat) (f : string) (batches : list (list event)) (day : Z) :
  formats !! i = Some f ->
  passes !! i = Some batches ->
  f ∉ drop (S i) formats ->
  length batches = length (range days) ->
  day ∈ range days ->
  exists daily,
    daily ∈ batches
    /\ files_after out size days bulk formats passes m
         !! incremental_file_path out size f day
       = Some (encode f (DataFrame_of daily)).
Proof.
  revert passes m i.
  induction formats as [|g formats IH]; intros [|b passes] m [|i] Hf Hb Hlast Hlen Hday;
    try discriminate Hf; try discriminate Hb.
  - cbn in Hf, Hb, Hlast. inversion Hf; inversion Hb; subst.
    rewrite files_after_cons, files_after_incremental_frame by exact Hlast.
    apply write_batches_written; assumption.
  - rewrite files_after_cons. eapply IH; eassumption.
Qed.

(** C9: when [formats] repeats a format, validation passes (only the set
    of formats is checked).  Every occurrence makes a pass of its own: it
    writes the bulk file and draws and writes fresh incremental batches, to
    paths that depend on the format and the day only, so a later occurrence
    writes over the files of an earlier one.  [files] in the manifest has one
    entry per format name, and it holds the metadata of the last occurrence
    of that format, whose files are the ones left on disk. *)
Theorem duplicate_formats_last_wins (size : string) (tier : DataSize)
    (output_dir : string) (formats : list string) (seed : option Z)
    (incremental_days : Z) w :
  DataSize_of_value size = Some tier ->
  Forall (fun f => f = "csv" \/ f = "parquet") formats ->
  0 <= incremental_days <= MAX_INCREMENTAL_DAYS ->
  let out := pathlib.of_string output_dir in
  let after_bulk := (os_pos w + 48 * Z.to_N (SIZE_RECORD_COUNTS tier))%N in
  exists m w1 (bulk_events : list event) (passes : list (list (list event))),
    list_to_set formats ∖ supported_formats = (∅ : gset string)
    /\ generate_benchmark_data size output_dir (Some formats) seed incremental_days w
       = (Ret m, w1)
    /\ length passes = length formats
    /\ passes_at (os_entropy w) after_bulk incremental_days formats passes
    /\ os_pos w1
       = (after_bulk
          + 48000 * Z.to_N incremental_days * N.of_nat (length formats))%N
    /\ files (fs w1)
       = files_after out size incremental_days bulk_events formats passes
           (files (fs w))
    /\ dom (res_files m) = list_to_set formats
    /\ (forall i f batches,
          formats !! i = Some f ->
          passes !! i = Some batches ->
          f ∉ drop (S i) formats ->
          res_files m !! f
          = Some (format_results_of out size f incremental_days bulk_events batches)
          /\ files (fs w1) !! bulk_file_path out size f
             = Some (encode f (DataFrame_of bulk_events))
          /\ (forall day, day ∈ range incremental_days ->
                exists daily,
                  daily ∈ batches
                  /\ files (fs w1) !! incremental_file_path out size f day
                     = Some (encode f (DataFrame_of daily)))).
Proof.
  intros Hsize Hf Hdays out after_bulk.
  apply formats_valid_iff in Hf.
  destruct (generate_benchmark_data_spec size tier output_dir (Some formats) seed
              incremental_days w Hsize Hf ltac:(lia))
    as (bulk_events & wb & passes & w1 & _ & Hrun & _ & _ & Hp & Hpl
        & _ & Hpos & _ & Hfiles).
  fold out in Hrun, Hfiles.
  cbn [formats_or_default] in Hrun, Hp, Hpl, Hpos, Hfiles, Hf.
  fold after_bulk in Hp, Hpos.
  pose proof (passes_at_lengths _ _ _ _ _ Hp) as Hlens.
  eexists _, w1, bulk_events, passes.
  split; [exact Hf|]. split; [exact Hrun|]. split; [exact Hpl|].
  split; [exact Hp|]. split; [exact Hpos|]. split; [exact Hfiles|].
  cbn [res_files]. split.
  - rewrite manifest_files_dom by exact Hpl. rewrite dom_empty_L.
    apply union_empty_r_L.
  - intros i f batches Hi Hb Hlast.
    split; [eapply manifest_files_last; eassumption|].
    rewrite Hfiles. split.
    + apply files_after_bulk; [exact Hpl|].
      apply list_elem_of_lookup. exists i. exact Hi.
    + intros day Hday.
      eapply files_after_last; try eassumption.
      rewrite length_range.
      eapply Forall_lookup_1 in Hlens; [exact Hlens | exact Hb].
Qed.

(** C1, on the code: a seed does not fix the identifiers.  Two runs with
    the same arguments, seed included, from worlds that differ only in the
    bytes [os.urandom] delivers, both return, and the first row of their
    bulk files differs in [event_id]. *)
Theorem seed_does_not_fix_identifiers (output_dir : string) (seed : Z) w :
  let out := pathlib.of_string output_dir in
  let run_a := with_entropy (constant_entropy Byte.x00) w in
  let run_b := with_entropy (constant_entropy Byte.xff) w in
  exists m_a w_a m_b w_b
         (rest_a rest_b : list pyval) (rows_a rows_b : list (list pyval)),
    generate_benchmark_data "small" output_dir (Some ["csv"]) (Some seed) 0 run_a
    = (Ret m_a, w_a)
    /\ generate_benchmark_data "small" output_dir (Some ["csv"]) (Some seed) 0 run_b
       = (Ret m_b, w_b)
    /\ files (fs w_a) !! bulk_file_path out "small" "csv"
       = Some (CsvFile event_columns
                 ((PyStr "00000000-0000-4000-8000-000000000000" :: rest_a)
                  :: rows_a))
    /\ files (fs w_b) !! bulk_file_path out "small" "csv"
       = Some (CsvFile event_columns
                 ((PyStr "ffffffff-ffff-4fff-bfff-ffffffffffff" :: rest_b)
                  :: rows_b)).
Proof.
  intros out run_a run_b.
  assert (Hformats : list_to_set (formats_or_default (Some ["csv"]))
                     ∖ supported_formats = (∅ : gset string)).
  { apply formats_valid_iff. repeat constructor. }
  assert (Hone : forall entropy first_id,
             (forall pos, uuid_at entropy pos = first_id) ->
             exists m w1 rest rows,
               generate_benchmark_data "small" output_dir (Some ["csv"])
                 (Some seed) 0 (with_entropy entropy w) = (Ret m, w1)
               /\ files (fs w1) !! bulk_file_path out "small" "csv"
                  = Some (CsvFile event_columns ((PyStr first_id :: rest) :: rows))).
  { intros entropy first_id Hid.
    destruct (generate_benchmark_data_spec "small" SMALL output_dir (Some ["csv"])
                (Some seed) 0 (with_entropy entropy w) eq_refl Hformats
                ltac:(unfold MAX_INCREMENTAL_DAYS; lia))
      as (bulk_events & wb & passes & w1 & _ & Hrun & Hlen & Hbulk & _ & Hpl
          & _ & _ & _ & Hfiles).
    fold out in Hrun, Hfiles. cbn [formats_or_default] in Hrun, Hpl, Hfiles.
    assert (Hne : bulk_events <> []).
    { eapply nonempty_of_length; [exact Hlen|]. cbn. lia. }
    assert (Hlook : files (fs w1) !! bulk_file_path out "small" "csv"
                    = Some (encode "csv" (DataFrame_of bulk_events))).
    { rewrite Hfiles. apply files_after_bulk; [exact Hpl|].
      apply elem_of_cons. left. reflexivity. }
    rewrite (encode_csv_batch _ _ _ _ _ Hbulk Hne) in Hlook.
    destruct bulk_events as [|e bulk_events]; [congruence|].
    destruct (Hbulk 0%nat e eq_refl) as (t & pg & co & dv & ip & -> & _).
    rewrite Hid in Hlook.
    eexists _, w1, _, _. split; [exact Hrun | exact Hlook]. }
  destruct (Hone (constant_entropy Byte.x00) "00000000-0000-4000-8000-000000000000")
    as (m_a & w_a & rest_a & rows_a & Ha & Hfa); [reflexivity|].
  destruct (Hone (constant_entropy Byte.xff) "ffffffff-ffff-4fff-bfff-ffffffffffff")
    as (m_b & w_b & rest_b & rows_b & Hb & Hfb); [reflexivity|].
  exists m_a, w_a, m_b, w_b, rest_a, rest_b, rows_a, rows_b.
  repeat split; assumption.
Qed.

End Properties.

(** * Further properties of the generator and of a run *)

Section MoreProperties.

Context {R : PRNG} {F : FakerProvider R} {E : Encoding}.

Implicit Types (w : world R) (e : event) (events : list event).

(** ** Loops, whatever their outcome *)

Lemma for_each_invariant {A B} (P : world R -> Prop) (body : B -> A -> M R B)
    (l : list A) (acc : B) w :
  (forall acc x w, P w -> P (snd (body acc x w))) ->
  P w -> P (snd (for_each body l acc w)).
Proof.
  intros Hbody. revert acc w.
  induction l as [|x l IH]; intros acc w HP; cbn [for_each].
  - exact HP.
  - unfold bind. specialize (Hbody acc x w HP).
    destruct (body acc x w) as [[b|err] w']; cbn [snd] in *.
    + apply IH. exact Hbody.
    + exact Hbody.
Qed.

Lemma for_each_Raise_inv {A B} (body : B -> A -> M R B) (l : list A) (acc : B)
    w (err : exn) w1 :
  for_each body l acc w = (Raise err, w1) ->
  exists acc' x w', x ∈ l /\ body acc' x w' = (Raise err, w1).
Proof.
  revert acc w. induction l as [|x l IH]; intros acc w H; cbn [for_each] in H.
  - discriminate H.
  - unfold bind in H. destruct (body acc x w) as [[b|err'] w'] eqn:Hb.
    + destruct (IH _ _ H) as (acc' & y & w'' & Hy & Hr).
      exists acc', y, w''. split; [apply elem_of_cons; right; exact Hy | exact Hr].
    + inversion H; subst. exists acc, x, w.
      split; [apply elem_of_cons; left; reflexivity | exact Hb].
Qed.

Lemma for_each_Ret_inv {A B} (body : B -> A -> M R B) (l : list A) (acc : B)
    w (b : B) w1 (x : A) :
  for_each body l acc w = (Ret b, w1) ->
  x ∈ l ->
  exists acc' w' b' w'', body acc' x w' = (Ret b', w'').
Proof.
  revert acc w. induction l as [|y l IH]; intros acc w H Hx; cbn [for_each] in H.
  - apply elem_of_nil in Hx. contradiction.
  - apply bind_inv in H as (b' & w' & Hb & Hrest).
    apply elem_of_cons in Hx as [->|Hx].
    + exists acc, w, b', w'. exact Hb.
    + eapply IH; eassumption.
Qed.

Lemma range_pos (n : Z) : 0 < n -> exists l, range n = 0 :: l.
Proof.
  intros Hn. unfold range.
  destruct (Z.to_nat n) as [|k] eqn:Hk; [lia|].
  exists (map Z.of_nat (seq 1 k)). reflexivity.
Qed.

Lemma timedelta_seconds_Raise (s : Z) (err : exn) :
  datetime.timedelta_seconds s = Raise err -> err = OverflowError.
Proof.
  unfold datetime.timedelta_seconds.
  destruct (_ && _); intros H; inversion H; reflexivity.
Qed.

Lemma timedelta_days_Raise (n : Z) (err : exn) :
  datetime.timedelta_days n = Raise err -> err = OverflowError.
Proof.
  unfold datetime.timedelta_days.
  destruct (_ && _); intros H; inversion H; reflexivity.
Qed.

Lemma add_Raise (d delta : Z) (err : exn) :
  datetime.add d delta = Raise err ->
  err = OverflowError /\ ~ datetime.in_range (d + delta).
Proof.
  unfold datetime.add.
  destruct (datetime.in_rangeb (d + delta)) eqn:Hr; intros H; inversion H.
  split; [reflexivity|]. intros Hin. apply in_rangeb_spec in Hin. congruence.
Qed.

(** The three ways one iteration of a generation loop can end. *)
Lemma timed_step_cases (base hi : Z) (acc : list event) (x : Z) w :
  (hi < 0
   /\ timed_step base hi acc x w
      = (Raise (ValueError (EmptyRangeMsg 0 (hi + 1))), w))
  \/ (0 <= hi
      /\ exists g, timed_step base hi acc x w = (Raise OverflowError, set_random g w))
  \/ (0 <= hi
      /\ exists rs e w1,
          0 <= rs <= hi
          /\ timed_step base hi acc x w = (Ret (acc ++ [e])%list, w1)
          /\ event_at (os_entropy w) (os_pos w)
               (base + rs * datetime.US_PER_SECOND)
               (base + rs * datetime.US_PER_SECOND) e
          /\ fs w1 = fs w
          /\ os_entropy w1 = os_entropy w
          /\ os_pos w1 = (os_pos w + 48)%N).
Proof.
  destruct (Z.lt_ge_cases hi 0) as [Hneg|Hpos].
  - left. split; [exact Hneg|].
    unfold timed_step, bind, randint.
    assert (Hc : (0 <? hi + 1 - 0) = false) by (apply Z.ltb_ge; lia).
    rewrite Hc. reflexivity.
  - right.
    destruct (randint_spec 0 hi w Hpos) as (rs & g & Hrs & Hrange).
    destruct (datetime.timedelta_seconds rs) as [d|err] eqn:Hd.
    2:{ left. split; [exact Hpos|]. exists g.
        apply timedelta_seconds_Raise in Hd as Herr. subst err.
        unfold timed_step. rewrite (bind_Ret _ _ _ _ _ Hrs), Hd. reflexivity. }
    destruct (datetime.add base d) as [t|err] eqn:Ha.
    2:{ left. split; [exact Hpos|]. exists g.
        apply add_Raise in Ha as Herr. destruct Herr as (-> & _).
        unfold timed_step. rewrite (bind_Ret _ _ _ _ _ Hrs), Hd.
        unfold lift at 1. unfold bind at 1. rewrite Ha. reflexivity. }
    destruct (generate_event_spec t (set_random g w))
      as (e & w1 & He & Hat & Hent & Hp & Hfs).
    right. split; [exact Hpos|]. exists rs, e, w1.
    split; [exact Hrange|]. split.
    { unfold timed_step. rewrite (bind_Ret _ _ _ _ _ Hrs), Hd.
      unfold lift at 1. unfold bind at 1. rewrite Ha.
      unfold lift at 1. unfold bind at 1.
      rewrite (bind_Ret _ _ _ _ _ He). reflexivity. }
    apply timedelta_seconds_inv in Hd. subst d.
    apply add_inv in Ha as (-> & _).
    split; [exact Hat|]. auto.
Qed.

(** One iteration leaves the files and the entropy source as they are
    and never rewinds the entropy position. *)
Lemma timed_step_frame (base hi : Z) (acc : list event) (x : Z) w :
  fs (snd (timed_step base hi acc x w)) = fs w
  /\ os_entropy (snd (timed_step base hi acc x w)) = os_entropy w
  /\ (os_pos w <= os_pos (snd (timed_step base hi acc x w)))%N.
Proof.
  destruct (timed_step_cases base hi acc x w)
    as [(_ & ->)|[(_ & g & ->)|(_ & rs & e & w1 & _ & -> & _ & Hfs & Hent & Hp)]];
    cbn [snd].
  - repeat split; reflexivity || lia.
  - repeat split; reflexivity || (cbn; lia).
  - rewrite Hfs, Hent, Hp. repeat split; lia.
Qed.

Lemma timed_loop_frame (base hi : Z) (l : list Z) (acc : list event) w :
  fs (snd (for_each (timed_step base hi) l acc w)) = fs w
  /\ os_entropy (snd (for_each (timed_step base hi) l acc w)) = os_entropy w
  /\ (os_pos w <= os_pos (snd (for_each (timed_step base hi) l acc w)))%N.
Proof.
  apply (for_each_invariant
           (fun w' => fs w' = fs w /\ os_entropy w' = os_entropy w
                      /\ (os_pos w <= os_pos w')%N)).
  - intros acc' x w' (Hfs & Hent & Hp).
    destruct (timed_step_frame base hi acc' x w') as (Hfs' & Hent' & Hp').
    rewrite Hfs', Hent'. repeat split; try assumption. lia.
  - repeat split; reflexivity || lia.
Qed.

Lemma timed_loop_Raise (base hi : Z) (l : list Z) (acc : list event) w
    (err : exn) w1 :
  0 <= hi ->
  for_each (timed_step base hi) l acc w = (Raise err, w1) ->
  err = OverflowError.
Proof.
  intros Hhi H. apply for_each_Raise_inv in H as (acc' & x & w' & _ & H).
  destruct (timed_step_cases base hi acc' x w')
    as [(Hneg & _)|[(_ & g & Hr)|(_ & rs & e & w2 & _ & Hr & _)]].
  - lia.
  - rewrite Hr in H. inversion H. reflexivity.
  - rewrite Hr in H. discriminate H.
Qed.

(** X1: the two batch methods never touch the file system: whether they
    return a batch or raise, the directories and files are those they
    started with.  They do not change what [os.urandom] will deliver either,
    and only move forward in it. *)
Theorem generator_leaves_files_alone (self : ClickstreamDataGenerator)
    (start_date days date records_per_day : Z) w :
  let after_bulk := snd (generate_bulk_data self start_date days w) in
  let after_incremental :=
    snd (generate_incremental_data self date records_per_day w) in
  (fs after_bulk = fs w
   /\ os_entropy after_bulk = os_entropy w
   /\ (os_pos w <= os_pos after_bulk)%N)
  /\ (fs after_incremental = fs w
      /\ os_entropy after_incremental = os_entropy w
      /\ (os_pos w <= os_pos after_incremental)%N).
Proof.
  cbv zeta. split.
  - set (P := fun w' : world R =>
                fs w' = fs w /\ os_entropy w' = os_entropy w
                /\ (os_pos w <= os_pos w')%N).
    assert (HP : P w) by (unfold P; repeat split; reflexivity || lia).
    change (P (snd (generate_bulk_data self start_date days w))).
    unfold generate_bulk_data.
    destruct (datetime.timedelta_days days) as [delta|err]; [|exact HP].
    unfold lift at 1. unfold bind at 1.
    destruct (datetime.add start_date delta) as [end_date|err]; [|exact HP].
    unfold lift at 1. unfold bind at 1.
    exact (timed_loop_frame start_date
             (datetime.int_total_seconds (datetime.sub end_date start_date))
             (range (record_count self)) [] w).
  - rewrite generate_incremental_data_unfold. apply timed_loop_frame.
Qed.

(** X2: a negative [days] is rejected at the first draw.  When
    [start_date] and [start_date + days] are both datetimes and [days < 0],
    [generate_bulk_data] raises the [ValueError] of [random.randint] on the
    empty range from 0 to [days * 86400], before any event is generated: the
    world is unchanged. *)
Theorem negative_days_rejected (tier : DataSize) (start_date days : Z) w :
  days < 0 ->
  datetime.in_range start_date ->
  datetime.in_range (start_date + days * datetime.US_PER_DAY) ->
  generate_bulk_data (generator_of tier) start_date days w
  = (Raise (ValueError (EmptyRangeMsg 0 (days * 86400 + 1))), w).
Proof.
  intros Hneg Hs He.
  assert (Hmin : - datetime.MAX_DELTA_DAYS <= days).
  { unfold datetime.in_range, datetime.US_PER_DAY, datetime.US_PER_SECOND,
      datetime.MAXORDINAL, datetime.MAX_DELTA_DAYS in *. lia. }
  rewrite generate_bulk_data_unfold.
  - destruct (range_pos (record_count (generator_of tier))) as (l & Hl).
    { destruct tier; reflexivity. }
    rewrite Hl. cbn [for_each].
    destruct (timed_step_cases start_date (days * 86400) [] 0 w)
      as [(_ & Hr)|[(Hpos & _)|(Hpos & _)]]; try lia.
    apply bind_Raise. exact Hr.
  - apply timedelta_days_ok. unfold datetime.MAX_DELTA_DAYS in *. lia.
  - apply add_ok. exact He.
Qed.

(** ** What a seed fixes *)

Lemma related_bind {A B} (RA : A -> A -> Prop) (RB : B -> B -> Prop)
    (m1 m2 : M R A) (k1 k2 : A -> M R B) :
  related RA m1 m2 ->
  (forall a b, RA a b -> related RB (k1 a) (k2 b)) ->
  related RB (bind m1 k1) (bind m2 k2).
Proof.
  intros Hm Hk w1 w2 Hs. unfold bind.
  destruct (Hm w1 w2 Hs) as (Ha & Hs').
  destruct (m1 w1) as [[a|x] w1'], (m2 w2) as [[b|y] w2'];
    cbn [fst snd alike] in *; try contradiction.
  - apply Hk; assumption.
  - split; assumption.
Qed.

Lemma related_ret {A} (RA : A -> A -> Prop) (a b : A) :
  RA a b -> related RA (ret a) (ret b).
Proof. intros H w1 w2 Hs. split; [exact H | exact Hs]. Qed.

Lemma related_lift {A} (o : outcome A) : related eq (lift (R := R) o) (lift o).
Proof.
  intros w1 w2 Hs. split; [|exact Hs].
  cbn. destruct o; reflexivity.
Qed.

Lemma related_randint (a b : Z) : related eq (randint a b) (randint a b).
Proof.
  intros w1 w2 (Hr & Hf). unfold randint. rewrite <- Hr.
  destruct (0 <? b + 1 - a).
  - destruct (randbelow (b + 1 - a) (random_state w1)) as [r g].
    split; [reflexivity|]. split; [reflexivity | exact Hf].
  - split; [reflexivity|]. split; assumption.
Qed.

Lemma related_choice (l : list string) : related eq (choice l) (choice l).
Proof.
  intros w1 w2 (Hr & Hf). unfold choice. rewrite <- Hr.
  destruct l as [|x l]; [split; [reflexivity | split; assumption]|].
  destruct (randbelow (Z.of_nat (length (x :: l))) (random_state w1)) as [i g].
  destruct ((x :: l) !! Z.to_nat i);
    (split; [reflexivity|]; split; [reflexivity | exact Hf]).
Qed.

Lemma related_uuid4_str : related (fun _ _ : string => True) uuid4_str uuid4_str.
Proof.
  intros w1 w2 Hs. rewrite !uuid4_str_spec. split; [exact I | exact Hs].
Qed.

Lemma related_faker_ipv4 : related eq faker_ipv4 faker_ipv4.
Proof.
  intros w1 w2 (Hr & Hf). unfold faker_ipv4. rewrite <- Hf.
  destruct (ipv4 (faker_state w1)) as [s g].
  split; [reflexivity|]. split; [exact Hr | reflexivity].
Qed.

Lemma related_generate_event (t : datetime.datetime) :
  related same_seeded_fields (_generate_event t) (_generate_event t).
Proof.
  unfold _generate_event.
  eapply related_bind; [apply related_uuid4_str|]. intros a1 a2 _.
  eapply related_bind; [apply related_uuid4_str|]. intros b1 b2 _.
  eapply related_bind; [apply related_uuid4_str|]. intros c1 c2 _.
  eapply related_bind; [apply related_choice|]. intros p ? <-.
  eapply related_bind; [apply related_choice|]. intros c ? <-.
  eapply related_bind; [apply related_choice|]. intros d ? <-.
  eapply related_bind; [apply related_faker_ipv4|]. intros ip ? <-.
  apply related_ret. intros k Hk. unfold seeded_fields in Hk.
  repeat (apply elem_of_cons in Hk as [->|Hk]; [reflexivity|]).
  apply elem_of_nil in Hk. contradiction.
Qed.

Lemma related_timed_step (base hi : Z) (acc1 acc2 : list event) (x : Z) :
  Forall2 same_seeded_fields acc1 acc2 ->
  related (Forall2 same_seeded_fields)
    (timed_step base hi acc1 x) (timed_step base hi acc2 x).
Proof.
  intros Hacc. unfold timed_step.
  eapply related_bind; [apply related_randint|]. intros rs ? <-.
  eapply related_bind; [apply related_lift|]. intros d ? <-.
  eapply related_bind; [apply related_lift|]. intros t ? <-.
  eapply related_bind; [apply related_generate_event|]. intros e1 e2 He.
  apply related_ret. apply Forall2_app; [exact Hacc|].
  constructor; [exact He | constructor].
Qed.

Lemma related_for_each {A B} (RB : B -> B -> Prop) (body : B -> A -> M R B)
    (l : list A) (acc1 acc2 : B) :
  (forall b1 b2 x, RB b1 b2 -> related RB (body b1 x) (body b2 x)) ->
  RB acc1 acc2 ->
  related RB (for_each body l acc1) (for_each body l acc2).
Proof.
  intros Hbody. revert acc1 acc2.
  induction l as [|x l IH]; intros acc1 acc2 Hacc; cbn [for_each].
  - apply related_ret. exact Hacc.
  - eapply related_bind; [apply Hbody; exact Hacc|].
    intros b1 b2 Hb. apply IH. exact Hb.
Qed.

Lemma related_generate_bulk_data self (start_date days : Z) :
  related (Forall2 same_seeded_fields)
    (generate_bulk_data self start_date days)
    (generate_bulk_data self start_date days).
Proof.
  unfold generate_bulk_data.
  eapply related_bind; [apply related_lift|]. intros delta ? <-.
  eapply related_bind; [apply related_lift|]. intros end_date ? <-.
  apply (related_for_each (Forall2 same_seeded_fields)
           (timed_step start_date
              (datetime.int_total_seconds (datetime.sub end_date start_date)))).
  - intros b1 b2 x Hb. apply related_timed_step. exact Hb.
  - constructor.
Qed.

Lemma related_generate_incremental_data self (date records_per_day : Z) :
  related (Forall2 same_seeded_fields)
    (generate_incremental_data self date records_per_day)
    (generate_incremental_data self date records_per_day).
Proof.
  apply (related_for_each (Forall2 same_seeded_fields)
           (timed_step (datetime.midnight date) 86400)).
  - intros b1 b2 x Hb. apply related_timed_step. exact Hb.
  - constructor.
Qed.

(** X3: what a seed does fix.  Two generators constructed with the same
    seed, in any two worlds, end their [generate_bulk_data] alike (both
    return, or both raise the same exception), and so their
    [generate_incremental_data]; the batches they return have the same
    length and agree, event by event, on the timestamp, the page, the
    country, the device and the IP address.  The generators of [random] and
    of Faker are left in the same state in both worlds. *)
Theorem seed_fixes_times_and_categories (tier : DataSize) (seed : Z)
    (start_date days date records_per_day : Z) (w1 w2 : world R) :
  let bulk w :=
    bind (__init__ tier (Some seed))
         (fun self => generate_bulk_data self start_date days) w in
  let incremental w :=
    bind (__init__ tier (Some seed))
         (fun self => generate_incremental_data self date records_per_day) w in
  (alike (Forall2 same_seeded_fields) (fst (bulk w1)) (fst (bulk w2))
   /\ same_generators (snd (bulk w1)) (snd (bulk w2)))
  /\ (alike (Forall2 same_seeded_fields)
         (fst (incremental w1)) (fst (incremental w2))
      /\ same_generators (snd (incremental w1)) (snd (incremental w2))).
Proof.
  cbv zeta.
  assert (Hs : same_generators
                 (set_random (rng_seed seed) (set_faker (rng_seed seed) w1))
                 (set_random (rng_seed seed) (set_faker (rng_seed seed) w2)))
    by (split; reflexivity).
  split.
  - exact (related_generate_bulk_data (generator_of tier) start_date days _ _ Hs).
  - exact (related_generate_incremental_data (generator_of tier) date
             records_per_day _ _ Hs).
Qed.

(** ** The enumeration *)

(** X4: looking a size tier up by its value and taking the value of a
    tier are inverse: [DataSize(value)] finds the tier [t] exactly when [value]
    is the value of [t]. *)
Theorem DataSize_round_trip (value : string) (t : DataSize) :
  DataSize_of_value value = Some t <-> DataSize_value t = value.
Proof.
  split.
  - intros H. pose proof (DataSize_of_value_spec value) as Hs.
    rewrite H in Hs. destruct Hs as (Hv & _). exact Hv.
  - intros <-. destruct t; reflexivity.
Qed.

(** ** A run, whatever its outcome *)

(** After validation a run prepares the world, generates the bulk batch
    and enters the format loop. *)
Lemma generate_benchmark_data_unfold (size : string) (tier : DataSize)
    (output_dir : string) (formats : option (list string)) (seed : option Z)
    (incremental_days : Z) w :
  DataSize_of_value size = Some tier ->
  list_to_set (formats_or_default formats) ∖ supported_formats = (∅ : gset string) ->
  let out := pathlib.of_string output_dir in
  let fl := formats_or_default formats in
  exists bulk_events wb,
    generate_bulk_data (generator_of tier) bulk_start_date 30 (prepared out seed w)
    = (Ret bulk_events, wb)
    /\ length bulk_events = Z.to_nat (SIZE_RECORD_COUNTS tier)
    /\ batch_at (os_entropy w) (os_pos w) bulk_start_date
                (bulk_start_date + 30 * datetime.US_PER_DAY) bulk_events
    /\ os_entropy wb = os_entropy w
    /\ os_pos wb = (os_pos w + 48 * Z.to_N (SIZE_RECORD_COUNTS tier))%N
    /\ fs wb = fs (prepared out seed w)
    /\ generate_benchmark_data size output_dir formats seed incremental_days w
       = bind (for_each (write_format (generator_of tier) (bulk_dir_of out)
                           (incremental_dir_of out) size incremental_days
                           bulk_events) fl ∅)
              (fun files =>
                 ret {| res_size := size;
                        res_bulk_record_count := Z.of_nat (length bulk_events);
                        res_incremental_days := incremental_days;
                        res_files := files |}) wb.
Proof.
  intros Hsize Hformats out fl.
  destruct bulk_window_in_range as (Hr1 & Hr2).
  destruct (generate_bulk_data_total (generator_of tier) bulk_start_date 30
              (prepared out seed w) ltac:(lia) Hr1 Hr2) as (bulk_events & wb & Hbulk).
  pose proof (generate_bulk_data_inv _ _ _ _ _ _ Hbulk)
    as (Hlen & Hbatch & Hent & Hpos & Hfs).
  destruct (prepared_facts out seed w) as (Pent & Ppos & _ & _).
  cbn [record_count generator_of] in Hlen, Hpos.
  rewrite Pent, Ppos in Hbatch. rewrite Pent in Hent. rewrite Ppos in Hpos.
  replace (N.of_nat (Z.to_nat (SIZE_RECORD_COUNTS tier)))
    with (Z.to_N (SIZE_RECORD_COUNTS tier)) in Hpos by lia.
  exists bulk_events, wb.
  repeat (split; [assumption|]).
  unfold generate_benchmark_data. rewrite Hsize.
  fold (formats_or_default formats). fold fl.
  destruct (decide (list_to_set fl ∖ supported_formats = (∅ : gset string)))
    as [_|Hne]; [|contradiction].
  fold out. fold (bulk_dir_of out). fold (incremental_dir_of out).
  unfold mkdir at 1. unfold bind at 1.
  unfold mkdir at 1. unfold bind at 1.
  unfold __init__ at 1. unfold bind at 1.
  etransitivity; [apply bind_Ret; exact Hbulk|].
  reflexivity.
Qed.

(** X5: an empty [formats] list passes validation.  The call returns
    for every [incremental_days]; it has created the two directories and
    drawn the whole bulk batch, which the manifest counts, but it writes no
    file and the manifest's [files] is empty. *)
Theorem empty_formats_write_nothing (size : string) (tier : DataSize)
    (output_dir : string) (seed : option Z) (incremental_days : Z) w :
  DataSize_of_value size = Some tier ->
  exists m w1,
    generate_benchmark_data size output_dir (Some []) seed incremental_days w
    = (Ret m, w1)
    /\ res_files m = ∅
    /\ res_bulk_record_count m = SIZE_RECORD_COUNTS tier
    /\ res_incremental_days m = incremental_days
    /\ files (fs w1) = files (fs w)
    /\ dirs (fs w1) = dirs (fs (prepared (pathlib.of_string output_dir) seed w))
    /\ os_pos w1 = (os_pos w + 48 * Z.to_N (SIZE_RECORD_COUNTS tier))%N.
Proof.
  intros Hsize.
  assert (Hformats : list_to_set (formats_or_default (Some []))
                     ∖ supported_formats = (∅ : gset string)).
  { apply formats_valid_iff. constructor. }
  destruct (generate_benchmark_data_unfold size tier output_dir (Some []) seed
              incremental_days w Hsize Hformats)
    as (bulk_events & wb & _ & Hlen & _ & _ & Hpos & Hfs & Hrun).
  destruct (prepared_facts (pathlib.of_string output_dir) seed w)
    as (_ & _ & Pfiles & _).
  eexists _, wb. split; [exact Hrun|].
  cbn [res_files res_bulk_record_count res_incremental_days].
  split; [reflexivity|].
  split; [rewrite Hlen; apply Z2Nat.id; destruct tier; discriminate|].
  split; [reflexivity|].
  rewrite Hfs. split; [exact Pfiles|]. split; [reflexivity | exact Hpos].
Qed.

(** ** What a run leaves untouched *)

Lemma prefixes_app (l l' : list string) : l ∈ pathlib.prefixes (l ++ l').
Proof.
  induction l as [|x l IH]; cbn.
  - destruct l'; apply elem_of_cons; left; reflexivity.
  - apply elem_of_cons. right.
    apply list_elem_of_In, in_map, list_elem_of_In. exact IH.
Qed.

Lemma self_in_self_and_parents (p : Path) : p ∈ pathlib.self_and_parents p.
Proof.
  unfold pathlib.self_and_parents. destruct p as [a ps]. cbn [anchor parts].
  apply list_elem_of_In.
  apply (in_map (fun ps0 => {| anchor := a; parts := ps0 |})).
  apply list_elem_of_In.
  pose proof (prefixes_app ps []) as H. rewrite app_nil_r in H. exact H.
Qed.






(** ** The manifest and the disk *)

Lemma last_occurrence (f : string) (l : list string) :
  f ∈ l -> exists i, l !! i = Some f /\ f ∉ drop (S i) l.
Proof.
  induction l as [|g l IH]; intros Hf.
  - apply elem_of_nil in Hf. contradiction.
  - destruct (decide (f ∈ l)) as [Hin|Hnin].
    + destruct (IH Hin) as (i & Hi & Hlast). exists (S i). split; assumption.
    + apply elem_of_cons in Hf as [->|Hin]; [|contradiction].
      exists 0%nat. split; [reflexivity | exact Hnin].
Qed.

Lemma range_lookup (n : Z) (i : nat) (d : Z) :
  range n !! i = Some d -> d = Z.of_nat i /\ 0 <= d < n.
Proof.
  intros H. pose proof (range_bounds n) as Hb.
  split; [|exact (Forall_lookup_1 _ _ _ _ Hb H)].
  unfold range in H. rewrite list_lookup_fmap in H.
  destruct (seq 0 (Z.to_nat n) !! i) as [j|] eqn:Hj; [|discriminate H].
  apply lookup_seq in Hj as (-> & _). cbn in H. inversion H. reflexivity.
Qed.

Lemma range_elem (n d : Z) : 0 <= d < n -> d ∈ range n.
Proof.
  intros Hd. unfold range. apply list_elem_of_In, in_map_iff.
  exists (Z.to_nat d). split; [lia|]. apply in_seq. lia.
Qed.

(** Every batch of a day loop has 1000 events, each with the eight
    fields. *)
Lemma batches_at_elem entropy pos (l : list Z) (batches : list (list event))
    (daily : list event) :
  batches_at entropy pos l batches ->
  daily ∈ batches ->
  length daily = 1000%nat
  /\ exists day q, day ∈ l
      /\ batch_at entropy q (datetime.midnight (incremental_date day))
           (datetime.midnight (incremental_date day)
            + 86400 * datetime.US_PER_SECOND) daily.
Proof.
  revert pos batches. induction l as [|d l IH]; intros pos [|b batches] H Hin;
    cbn [batches_at] in H; try contradiction.
  - apply elem_of_nil in Hin. contradiction.
  - destruct H as (Hlen & Hb & Hrest).
    apply elem_of_cons in Hin as [->|Hin].
    + split; [exact Hlen|]. exists d, pos.
      split; [apply elem_of_cons; left; reflexivity | exact Hb].
    + destruct (IH _ _ Hrest Hin) as (Hl & day & q & Hday & Hq).
      split; [exact Hl|]. exists day, q.
      split; [apply elem_of_cons; right; exact Hday | exact Hq].
Qed.

Lemma passes_at_elem entropy pos (days : Z) (formats : list string)
    (passes : list (list (list event))) (batches : list (list event)) :
  passes_at entropy pos days formats passes ->
  batches ∈ passes ->
  exists q, batches_at entropy q (range days) batches.
Proof.
  revert pos passes. induction formats as [|f formats IH]; intros pos [|b passes] H Hin;
    cbn [passes_at] in H; try contradiction.
  - apply elem_of_nil in Hin. contradiction.
  - destruct H as (Hb & Hrest).
    apply elem_of_cons in Hin as [->|Hin]; [exists pos; exact Hb|].
    eapply IH; eassumption.
Qed.

Lemma encode_table (f : string) (events : list event) :
  file_columns (encode f (DataFrame_of events)) = columns (DataFrame_of events)
  /\ file_rows (encode f (DataFrame_of events)) = map (map snd) events.
Proof. unfold encode. destruct (String.eqb f "csv"); split; reflexivity. Qed.

(** X7: the manifest describes what is on disk.  After a run that
    returns, every entry of [files] belongs to a requested format; its bulk
    part names the bulk file of that format, which exists, has the eight
    columns, as many rows as [records] and [bulk_record_count] say (the
    tier's count) and the size recorded; its incremental part has one entry
    per day, in day order from 2024-02-01, each naming the file of that day,
    which exists and has the eight columns and the 1000 rows the entry
    records. *)
Theorem manifest_matches_disk (size : string) (tier : DataSize)
    (output_dir : string) (formats : option (list string)) (seed : option Z)
    (incremental_days : Z) w :
  DataSize_of_value size = Some tier ->
  Forall (fun f => f = "csv" \/ f = "parquet") (formats_or_default formats) ->
  0 <= incremental_days <= MAX_INCREMENTAL_DAYS ->
  let out := pathlib.of_string output_dir in
  let fl := formats_or_default formats in
  exists m w1,
    generate_benchmark_data size output_dir formats seed incremental_days w
    = (Ret m, w1)
    /\ res_bulk_record_count m = SIZE_RECORD_COUNTS tier
    /\ forall f fr, res_files m !! f = Some fr ->
        f ∈ fl
        /\ bulk_path (fr_bulk fr) = pathlib.str (bulk_file_path out size f)
        /\ bulk_records (fr_bulk fr) = res_bulk_record_count m
        /\ (exists d,
              files (fs w1) !! bulk_file_path out size f = Some d
              /\ file_columns d = event_columns
              /\ Z.of_nat (length (file_rows d)) = bulk_records (fr_bulk fr)
              /\ bulk_size_mb (fr_bulk fr) = size_mb_of d)
        /\ Z.of_nat (length (fr_incremental fr)) = incremental_days
        /\ forall i entry, fr_incremental fr !! i = Some entry ->
            incr_date entry
            = datetime.strftime_Ymd (incremental_date (Z.of_nat i))
            /\ incr_path entry
               = pathlib.str (incremental_file_path out size f (Z.of_nat i))
            /\ incr_records entry = 1000
            /\ exists d,
                files (fs w1) !! incremental_file_path out size f (Z.of_nat i)
                = Some d
                /\ file_columns d = event_columns
                /\ Z.of_nat (length (file_rows d)) = incr_records entry.
Proof.
  intros Hsize Hformats Hdays out fl.
  apply formats_valid_iff in Hformats.
  destruct (generate_benchmark_data_spec size tier output_dir formats seed
              incremental_days w Hsize Hformats ltac:(lia))
    as (bulk_events & wb & passes & w1 & _ & Hrun & Hlen & Hbulk & Hp & Hpl
        & _ & _ & _ & Hfiles).
  fold out in Hrun, Hfiles. fold fl in Hrun, Hp, Hpl, Hfiles.
  assert (Hcount : Z.of_nat (length bulk_events) = SIZE_RECORD_COUNTS tier).
  { rewrite Hlen. apply Z2Nat.id. destruct tier; discriminate. }
  assert (Hne : bulk_events <> []).
  { intros ->. cbn in Hcount. destruct tier; discriminate Hcount. }
  pose proof (passes_at_lengths _ _ _ _ _ Hp) as Hlens.
  eexists _, w1. split; [exact Hrun|].
  cbn [res_bulk_record_count res_files]. split; [exact Hcount|].
  intros f fr Hlook.
  assert (Hin : f ∈ fl).
  { destruct (decide (f ∈ fl)) as [|Hn]; [assumption|].
    rewrite manifest_files_frame in Hlook by exact Hn.
    rewrite lookup_empty in Hlook. discriminate Hlook. }
  split; [exact Hin|].
  destruct (last_occurrence f fl Hin) as (i0 & Hi0 & Hlast).
  destruct (lookup_lt_is_Some_2 passes i0) as (batches & Hb).
  { rewrite Hpl. apply lookup_lt_Some in Hi0. exact Hi0. }
  rewrite (manifest_files_last out size incremental_days bulk_events fl passes ∅
             i0 f batches Hi0 Hb Hlast) in Hlook.
  inversion Hlook; subst fr. clear Hlook.
  assert (Hbl : length batches = Z.to_nat incremental_days)
    by exact (Forall_lookup_1 _ _ _ _ Hlens Hb).
  destruct (passes_at_elem _ _ _ _ _ _ Hp (list_elem_of_lookup_2 _ _ _ Hb))
    as (q & Hbat).
  unfold format_results_of. cbn [fr_bulk fr_incremental].
  unfold bulk_entry_of at 1 2. cbn [bulk_path bulk_records].
  split; [reflexivity|]. split; [reflexivity|]. split; [|split].
  - exists (encode f (DataFrame_of bulk_events)).
    destruct (encode_table f bulk_events) as (Hc & Hr).
    split; [rewrite Hfiles; apply files_after_bulk; assumption|].
    split; [rewrite Hc; eapply DataFrame_of_columns; eassumption|].
    split; [rewrite Hr, length_map; reflexivity | reflexivity].
  - rewrite length_zip_with, length_range, Hbl. lia.
  - intros i entry Hentry.
    apply lookup_zip_with_Some in Hentry as (day & daily & -> & Hday & Hdaily).
    apply range_lookup in Hday as (-> & Hrange).
    destruct (batches_at_elem _ _ _ _ _ Hbat (list_elem_of_lookup_2 _ _ _ Hdaily))
      as (Hl & _).
    unfold incremental_entry_of. cbn [incr_date incr_path incr_records].
    split; [reflexivity|]. split; [reflexivity|].
    split; [rewrite Hl; reflexivity|].
    destruct (files_after_last out size incremental_days bulk_events fl passes
                (files (fs w)) i0 f batches (Z.of_nat i) Hi0 Hb Hlast)
      as (daily' & Hd' & Hfile).
    { rewrite length_range. exact Hbl. }
    { apply range_elem. exact Hrange. }
    destruct (batches_at_elem _ _ _ _ _ Hbat Hd')
      as (Hl' & day' & q' & _ & Hbatch').
    exists (encode f (DataFrame_of daily')).
    destruct (encode_table f daily') as (Hc & Hr).
    split; [rewrite Hfiles; exact Hfile|].
    split.
    + rewrite Hc. eapply DataFrame_of_columns; [exact Hbatch'|].
      intros ->. discriminate Hl'.
    + rewrite Hr, length_map. unfold event in *. congruence.
Qed.

(** ** The two windows *)

Lemma midnight_incremental_date (day : Z) :
  datetime.midnight (incremental_date day) = incremental_date day.
Proof.
  unfold incremental_date, datetime.midnight.
  rewrite incremental_start_date_value.
  replace (738916 * datetime.US_PER_DAY + day * datetime.US_PER_DAY)
    with ((738916 + day) * datetime.US_PER_DAY) by lia.
  rewrite Z.mod_mul by discriminate. lia.
Qed.

Lemma batch_at_elem entropy pos lo hi events e :
  batch_at entropy pos lo hi events ->
  e ∈ events ->
  exists t, timestamp_of e = Some t /\ lo <= t <= hi.
Proof.
  intros Hb He. apply list_elem_of_lookup_1 in He as (i & Hi).
  eapply event_at_timestamp. apply (Hb i e Hi).
Qed.

(** X8: the bulk window ends before the incremental window starts.  In
    a run that returns, every event of the bulk batch is stamped no later
    than 2024-01-31T00:00:00 and every event of every incremental batch no
    earlier than 2024-02-01T00:00:00, so each bulk event is strictly older
    than each incremental event. *)
Theorem bulk_precedes_incremental (size : string) (tier : DataSize)
    (output_dir : string) (formats : option (list string)) (seed : option Z)
    (incremental_days : Z) w :
  DataSize_of_value size = Some tier ->
  Forall (fun f => f = "csv" \/ f = "parquet") (formats_or_default formats) ->
  0 <= incremental_days <= MAX_INCREMENTAL_DAYS ->
  let out := pathlib.of_string output_dir in
  let fl := formats_or_default formats in
  exists m w1 (bulk_events : list event) (passes : list (list (list event))),
    generate_benchmark_data size output_dir formats seed incremental_days w
    = (Ret m, w1)
    /\ files (fs w1)
       = files_after out size incremental_days bulk_events fl passes (files (fs w))
    /\ (forall e, e ∈ bulk_events ->
          exists t, timestamp_of e = Some t
                    /\ datetime.of_ymd 2024 1 1 <= t <= datetime.of_ymd 2024 1 31)
    /\ (forall batches daily e,
          batches ∈ passes -> daily ∈ batches -> e ∈ daily ->
          exists t, timestamp_of e = Some t /\ datetime.of_ymd 2024 2 1 <= t)
    /\ datetime.of_ymd 2024 1 31 < datetime.of_ymd 2024 2 1.
Proof.
  intros Hsize Hformats Hdays out fl.
  apply formats_valid_iff in Hformats.
  destruct (generate_benchmark_data_spec size tier output_dir formats seed
              incremental_days w Hsize Hformats ltac:(lia))
    as (bulk_events & wb & passes & w1 & _ & Hrun & _ & Hbulk & Hp & _
        & _ & _ & _ & Hfiles).
  fold out in Hrun, Hfiles. fold fl in Hrun, Hp, Hfiles.
  eexists _, w1, bulk_events, passes.
  split; [exact Hrun|]. split; [exact Hfiles|].
  split; [|split; [|reflexivity]].
  - intros e He.
    destruct (batch_at_elem _ _ _ _ _ _ Hbulk He) as (t & Ht & Hrange).
    exists t. split; [exact Ht|].
    assert (Hend : bulk_start_date + 30 * datetime.US_PER_DAY
                   = datetime.of_ymd 2024 1 31) by reflexivity.
    rewrite Hend in Hrange. exact Hrange.
  - intros batches daily e Hb Hd He.
    destruct (passes_at_elem _ _ _ _ _ _ Hp Hb) as (q & Hbat).
    destruct (batches_at_elem _ _ _ _ _ Hbat Hd) as (_ & day & q' & Hday & Hbatch).
    destruct (batch_at_elem _ _ _ _ _ _ Hbatch He) as (t & Ht & Hrange).
    exists t. split; [exact Ht|].
    rewrite midnight_incremental_date in Hrange.
    apply list_elem_of_lookup_1 in Hday as (i & Hi).
    apply range_lookup in Hi as (_ & Hpos).
    unfold incremental_date in Hrange.
    change incremental_start_date with (datetime.of_ymd 2024 2 1) in Hrange.
    unfold datetime.US_PER_DAY, datetime.US_PER_SECOND in Hrange. lia.
Qed.

(** ** How a run can fail *)

Lemma generate_incremental_data_outcome self (date n : Z) w
    (o : outcome (list event)) w1 :
  generate_incremental_data self date n w = (o, w1) ->
  fs w1 = fs w /\ forall err, o = Raise err -> err = OverflowError.
Proof.
  rewrite generate_incremental_data_unfold. intros H.
  pose proof (timed_loop_frame (datetime.midnight date) 86400 (range n) [] w)
    as (Hfs & _).
  rewrite H in Hfs. cbn [snd] in Hfs. split; [exact Hfs|].
  intros err ->. eapply timed_loop_Raise; [|exact H]. lia.
Qed.

(** One iteration of the day loop, whatever its outcome: it creates no
    directory, it changes no file other than the file of a day of its format,
    and if it raises, it raises [OverflowError]. *)
Lemma write_incremental_day_outcome self (out : Path) (size f : string)
    (entries : list incremental_entry) (day : Z) w
    (o : outcome (list incremental_entry)) w1 :
  write_incremental_day self (incremental_dir_of out) size f entries day w = (o, w1) ->
  dirs (fs w1) = dirs (fs w)
  /\ (forall p, (forall d, p <> incremental_file_path out size f d) ->
        files (fs w1) !! p = files (fs w) !! p)
  /\ (forall err, o = Raise err -> err = OverflowError)
  /\ (forall r, o = Ret r -> datetime.in_range (incremental_date day)).
Proof.
  intros H. unfold write_incremental_day in H.
  destruct (datetime.timedelta_days day) as [delta|e0] eqn:Hd.
  2:{ unfold lift at 1 in H. unfold bind at 1 in H. inversion H; subst.
      apply timedelta_days_Raise in Hd. subst e0.
      repeat split; try reflexivity; congruence. }
  apply timedelta_days_inv in Hd. subst delta.
  unfold lift at 1 in H. unfold bind at 1 in H.
  destruct (datetime.add incremental_start_date (day * datetime.US_PER_DAY))
    as [cur|e0] eqn:Ha.
  2:{ unfold lift at 1 in H. unfold bind at 1 in H. inversion H; subst.
      apply add_Raise in Ha as (-> & _).
      repeat split; try reflexivity; congruence. }
  apply add_inv in Ha as (-> & Hr). fold (incremental_date day) in H, Hr.
  unfold lift at 1 in H. unfold bind at 1 in H.
  destruct (generate_incremental_data self (incremental_date day) 1000 w)
    as [[daily|e0] w'] eqn:Hg.
  2:{ unfold bind at 1 in H. rewrite Hg in H. inversion H; subst.
      apply generate_incremental_data_outcome in Hg as (Hfs & Herr).
      rewrite Hfs. rewrite (Herr e0 eq_refl).
      repeat split; try reflexivity; congruence. }
  rewrite (bind_Ret _ _ _ _ _ Hg) in H.
  rewrite (bind_Ret _ _ _ _ _ (write_table_spec _ _ _ _)) in H.
  rewrite (bind_Ret _ _ _ _ _ (stat_after_write _ _ _)) in H.
  unfold ret in H. inversion H; subst. clear H.
  apply generate_incremental_data_outcome in Hg as (Hfs & _).
  cbn [fs set_fs dirs files write_file]. rewrite Hfs.
  split; [reflexivity|]. split.
  - intros p Hp. apply lookup_insert_ne. intros Heq. apply (Hp day).
    symmetry. exact Heq.
  - split; [intros err Herr; discriminate Herr | intros r _; exact Hr].
Qed.

(** One iteration of the format loop, whatever its outcome: the bulk
    file of the format is written, the other files that are not incremental
    files of the format are unchanged, and a failure is an [OverflowError]. *)
Lemma write_format_outcome self (out : Path) (size : string) (incremental_days : Z)
    (bulk_events : list event) (files0 : gmap string format_results)
    (f : string) w (o : outcome (gmap string format_results)) w1 :
  write_format self (bulk_dir_of out) (incremental_dir_of out) size
    incremental_days bulk_events files0 f w = (o, w1) ->
  dirs (fs w1) = dirs (fs w)
  /\ files (fs w1) !! bulk_file_path out size f
     = Some (encode f (DataFrame_of bulk_events))
  /\ (forall err, o = Raise err -> err = OverflowError)
  /\ (forall r, o = Ret r ->
        forall day, day ∈ range incremental_days ->
                    datetime.in_range (incremental_date day)).
Proof.
  intros H. unfold write_format in H.
  rewrite (bind_Ret _ _ _ _ _ (write_table_spec _ _ _ _)) in H.
  rewrite (bind_Ret _ _ _ _ _ (stat_after_write _ _ _)) in H.
  fold (bulk_file_path out size f) in H.
  set (w0 := set_fs (write_file (bulk_file_path out size f)
                       (encode f (DataFrame_of bulk_events)) (fs w)) w) in H.
  set (body := write_incremental_day self (incremental_dir_of out) size f) in H.
  pose proof (for_each_invariant
                (fun w' => dirs (fs w') = dirs (fs w)
                           /\ files (fs w') !! bulk_file_path out size f
                              = Some (encode f (DataFrame_of bulk_events)))
                body (range incremental_days) [] w0) as Hinv.
  destruct (for_each body (range incremental_days) [] w0)
    as [[entries|e0] w'] eqn:Hloop.
  - rewrite (bind_Ret _ _ _ _ _ Hloop) in H. unfold ret in H.
    inversion H; subst. cbn [snd] in Hinv.
    destruct Hinv as (Hd & Hf).
    + intros acc x w'' (Hd & Hf).
      destruct (body acc x w'') as [o' w3] eqn:Hb. cbn [snd].
      apply write_incremental_day_outcome in Hb as (Hd' & Hf' & _).
      rewrite Hd', Hf' by (intros d; apply bulk_path_not_incremental).
      split; assumption.
    + split; [reflexivity|]. cbn. apply lookup_insert_eq.
    + split; [exact Hd|]. split; [exact Hf|].
      split; [intros err Herr; discriminate Herr|].
      intros r _ day Hday.
      destruct (for_each_Ret_inv body _ _ _ _ _ day Hloop Hday)
        as (acc' & w2 & b' & w3 & Hb).
      apply write_incremental_day_outcome in Hb as (_ & _ & _ & Hr).
      eapply Hr. reflexivity.
  - rewrite (bind_Raise _ _ _ _ _ Hloop) in H. inversion H; subst.
    cbn [snd] in Hinv. destruct Hinv as (Hd & Hf).
    + intros acc x w'' (Hd & Hf).
      destruct (body acc x w'') as [o' w3] eqn:Hb. cbn [snd].
      apply write_incremental_day_outcome in Hb as (Hd' & Hf' & _).
      rewrite Hd', Hf' by (intros d; apply bulk_path_not_incremental).
      split; assumption.
    + split; [reflexivity|]. cbn. apply lookup_insert_eq.
    + split; [exact Hd|]. split; [exact Hf|].
      split; [|intros r Hr; discriminate Hr].
      intros err Herr. inversion Herr; subst.
      apply for_each_Raise_inv in Hloop as (acc' & x & w2 & _ & Hb).
      apply write_incremental_day_outcome in Hb as (_ & _ & Hov & _).
      apply Hov. reflexivity.
Qed.

Lemma incremental_date_out_of_range (day : Z) :
  MAX_INCREMENTAL_DAYS < day -> ~ datetime.in_range (incremental_date day).
Proof.
  unfold incremental_date. rewrite incremental_start_date_value.
  unfold datetime.in_range, datetime.US_PER_DAY, datetime.US_PER_SECOND,
    datetime.MAXORDINAL, MAX_INCREMENTAL_DAYS. lia.
Qed.


(** X10: a failure after validation is not atomic.  With a recognised
    size, supported formats of which [f] is the first, and more than
    2,913,143 incremental days, the call raises [OverflowError]; by then the
    two directories exist and the bulk file of [f] has been written with all
    the rows of the bulk batch. *)
Theorem late_failure_leaves_files (size : string) (tier : DataSize)
    (output_dir f : string) (rest : list string) (seed : option Z)
    (incremental_days : Z) w :
  DataSize_of_value size = Some tier ->
  Forall (fun g => g = "csv" \/ g = "parquet") (f :: rest) ->
  MAX_INCREMENTAL_DAYS + 1 < incremental_days ->
  let out := pathlib.of_string output_dir in
  exists w1 (d : file_data),
    generate_benchmark_data size output_dir (Some (f :: rest)) seed
      incremental_days w
    = (Raise OverflowError, w1)
    /\ files (fs w1) !! bulk_file_path out size f = Some d
    /\ Z.of_nat (length (file_rows d)) = SIZE_RECORD_COUNTS tier
    /\ bulk_dir_of out ∈ dirs (fs w1)
    /\ incremental_dir_of out ∈ dirs (fs w1).
Proof.
  intros Hsize Hformats Hdays out.
  apply formats_valid_iff in Hformats.
  destruct (generate_benchmark_data_unfold size tier output_dir (Some (f :: rest))
              seed incremental_days w Hsize Hformats)
    as (bulk_events & wb & _ & Hlen & _ & _ & _ & Hfs & Hrun).
  fold out in Hrun, Hfs. cbn [formats_or_default] in Hrun.
  cbn [for_each] in Hrun.
  destruct (write_format (generator_of tier) (bulk_dir_of out)
              (incremental_dir_of out) size incremental_days bulk_events ∅ f wb)
    as [o w1] eqn:Hstep.
  pose proof (write_format_outcome _ _ _ _ _ _ _ _ _ _ Hstep)
    as (Hd & Hf & Hov & Hret).
  destruct o as [files1|e0].
  { exfalso.
    apply (incremental_date_out_of_range (MAX_INCREMENTAL_DAYS + 1)); [lia|].
    apply (Hret files1 eq_refl). apply range_elem.
    unfold MAX_INCREMENTAL_DAYS in *. lia. }
  rewrite (Hov e0 eq_refl) in Hstep.
  exists w1, (encode f (DataFrame_of bulk_events)).
  split.
  { rewrite Hrun. apply bind_Raise. apply bind_Raise. exact Hstep. }
  split; [exact Hf|].
  destruct (encode_table f bulk_events) as (_ & Hr).
  split.
  { rewrite Hr, length_map. unfold event in *. rewrite Hlen.
    apply Z2Nat.id. destruct tier; discriminate. }
  rewrite Hd, Hfs.
  destruct (prepared_facts out seed w) as (_ & _ & _ & Pdirs). rewrite Pdirs.
  split.
  - apply elem_of_union_r, elem_of_union_l, elem_of_list_to_set.
    apply self_in_self_and_parents.
  - apply elem_of_union_l, elem_of_list_to_set.
    apply self_in_self_and_parents.
Qed.

(** ** Running again *)

Lemma files_after_dom (out : Path) (size : string) (days : Z) bulk
    (formats : list string) passes (m : gmap Path file_data) :
  length passes = length formats ->
  Forall (fun batches => length batches = Z.to_nat days) passes ->
  dom (files_after out size days bulk formats passes m)
  = written_paths out size days formats ∪ dom m.
Proof.
  revert passes m. induction formats as [|f formats IH]; intros [|b passes] m Hlen Hall;
    try discriminate Hlen.
  - cbn. symmetry. apply union_empty_l_L.
  - apply Forall_cons in Hall as (Hb & Hall).
    rewrite files_after_cons, IH by (assumption || (cbn in Hlen; lia)).
    rewrite write_batches_dom by (rewrite length_range; exact Hb).
    rewrite dom_insert_L. cbn [written_paths].
    apply leibniz_equiv. intros q. rewrite !elem_of_union. tauto.
Qed.

(** X11: running again writes to the same places.  After a run that
    returns, the stored files are those written (the bulk file and the daily
    files of each requested format) together with those that were there; a
    second run with the same size, formats and number of days, whatever its
    seed, into the same directory returns as well, and leaves the same set
    of files and the same set of directories: it replaces, it does not
    add. *)
Theorem rerun_writes_same_paths (size : string) (tier : DataSize)
    (output_dir : string) (formats : option (list string))
    (seed seed' : option Z) (incremental_days : Z) w :
  DataSize_of_value size = Some tier ->
  Forall (fun f => f = "csv" \/ f = "parquet") (formats_or_default formats) ->
  incremental_days <= MAX_INCREMENTAL_DAYS ->
  let out := pathlib.of_string output_dir in
  let fl := formats_or_default formats in
  exists m1 w1 m2 w2,
    generate_benchmark_data size output_dir formats seed incremental_days w
    = (Ret m1, w1)
    /\ generate_benchmark_data size output_dir formats seed' incremental_days w1
       = (Ret m2, w2)
    /\ dom (files (fs w1))
       = written_paths out size incremental_days fl ∪ dom (files (fs w))
    /\ dom (files (fs w2)) = dom (files (fs w1))
    /\ dirs (fs w2) = dirs (fs w1)
    /\ dom (res_files m2) = dom (res_files m1).
Proof.
  intros Hsize Hformats Hdays out fl.
  apply formats_valid_iff in Hformats.
  destruct (generate_benchmark_data_spec size tier output_dir formats seed
              incremental_days w Hsize Hformats Hdays)
    as (b1 & wb1 & p1 & w1 & _ & Hrun1 & _ & _ & Hp1 & Hpl1 & _ & _
        & Hdirs1 & Hfiles1).
  destruct (generate_benchmark_data_spec size tier output_dir formats seed'
              incremental_days w1 Hsize Hformats Hdays)
    as (b2 & wb2 & p2 & w2 & _ & Hrun2 & _ & _ & Hp2 & Hpl2 & _ & _
        & Hdirs2 & Hfiles2).
  fold out in Hrun1, Hrun2, Hdirs1, Hdirs2, Hfiles1, Hfiles2.
  fold fl in Hrun1, Hrun2, Hp1, Hp2, Hpl1, Hpl2, Hfiles1, Hfiles2.
  pose proof (passes_at_lengths _ _ _ _ _ Hp1) as Hl1.
  pose proof (passes_at_lengths _ _ _ _ _ Hp2) as Hl2.
  destruct (prepared_facts out seed w) as (_ & _ & _ & Pd1).
  destruct (prepared_facts out seed' w1) as (_ & _ & _ & Pd2).
  eexists _, w1, _, w2.
  split; [exact Hrun1|]. split; [exact Hrun2|].
  assert (Hdom1 : dom (files (fs w1))
                  = written_paths out size incremental_days fl ∪ dom (files (fs w))).
  { rewrite Hfiles1. apply files_after_dom; assumption. }
  split; [exact Hdom1|]. split; [|split].
  - rewrite Hfiles2, files_after_dom by assumption.
    rewrite Hdom1. apply leibniz_equiv. intros q. rewrite !elem_of_union. tauto.
  - rewrite Hdirs2, Pd2, Hdirs1, Pd1.
    apply leibniz_equiv. intros q. rewrite !elem_of_union. tauto.
  - cbn [res_files]. rewrite !manifest_files_dom by assumption. reflexivity.
Qed.

(** ** The identifiers *)

Lemma nibble_range (a : Z) : 0 <= Z.land a 15 < 16.
Proof.
  change 15 with (Z.ones 4). rewrite Z.land_ones by lia.
  apply Z.mod_pos_bound. reflexivity.
Qed.

Lemma hex_digit_lower (x : Z) :
  0 <= x < 16 -> is_lower_hex (uuid.hex_digit x) = true.
Proof.
  intros Hx.
  assert (Hcases : x = 0 \/ x = 1 \/ x = 2 \/ x = 3 \/ x = 4 \/ x = 5 \/ x = 6
                   \/ x = 7 \/ x = 8 \/ x = 9 \/ x = 10 \/ x = 11 \/ x = 12
                   \/ x = 13 \/ x = 14 \/ x = 15) by lia.
  repeat (destruct Hcases as [->|Hcases]; [reflexivity|]).
  subst x. reflexivity.
Qed.

Lemma hex32_length (n : Z) : length (uuid.hex32 n) = 32%nat.
Proof. unfold uuid.hex32. rewrite length_map, length_seq. reflexivity. Qed.

Lemma hex32_lookup (n : Z) (i : nat) :
  (i < 32)%nat ->
  uuid.hex32 n !! i
  = Some (uuid.hex_digit (Z.land (Z.shiftr n (4 * (31 - Z.of_nat i))) 15)).
Proof.
  intros Hi. unfold uuid.hex32. rewrite list_lookup_fmap.
  rewrite lookup_seq_lt by exact Hi. reflexivity.
Qed.

Lemma hex32_all_hex (n : Z) :
  Forall (fun c => is_lower_hex c = true) (uuid.hex32 n).
Proof.
  unfold uuid.hex32. apply Forall_forall. intros c Hc.
  apply list_elem_of_In, in_map_iff in Hc as (i & <- & _).
  apply hex_digit_lower, nibble_range.
Qed.

Lemma ones_shift_bit (k m j : Z) :
  0 <= k -> 0 <= m -> 0 <= j ->
  Z.testbit (Z.shiftl (Z.ones k) m) j = (m <=? j) && (j <? m + k).
Proof.
  intros Hk Hm Hj. rewrite Z.shiftl_spec by exact Hj.
  destruct (Z.leb_spec m j) as [Hle|Hgt]; cbn [andb].
  - destruct (Z.ltb_spec j (m + k)) as [Hlt|Hge].
    + apply Z.ones_spec_low. lia.
    + apply Z.ones_spec_high. lia.
  - apply Z.testbit_neg_r. lia.
Qed.

(** The bits of [set_version4]: those of the argument, but for the four
    version bits and the two variant bits. *)
Lemma set_version4_bit (n j : Z) :
  0 <= j ->
  Z.testbit (uuid.set_version4 n) j
  = if (76 <=? j) && (j <? 80) then (j =? 78)
    else if (62 <=? j) && (j <? 64) then (j =? 63)
    else Z.testbit n j.
Proof.
  intros Hj. unfold uuid.set_version4.
  change (Z.shiftl 49152 48) with (Z.shiftl (Z.ones 2) 62).
  change (Z.shiftl 32768 48) with (Z.shiftl (Z.ones 1) 63).
  change (Z.shiftl 61440 64) with (Z.shiftl (Z.ones 4) 76).
  change (Z.shiftl 4 76) with (Z.shiftl (Z.ones 1) 78).
  repeat first [rewrite Z.lor_spec | rewrite Z.land_spec
               | rewrite Z.lnot_spec by exact Hj].
  rewrite !ones_shift_bit by lia.
  change (62 + 2) with 64. change (63 + 1) with 64.
  change (76 + 4) with 80. change (78 + 1) with 79.
  destruct (Z.testbit n j);
    destruct (Z.leb_spec 62 j), (Z.ltb_spec j 64), (Z.leb_spec 63 j),
      (Z.leb_spec 76 j), (Z.ltb_spec j 80), (Z.leb_spec 78 j), (Z.ltb_spec j 79),
      (Z.eqb_spec j 78), (Z.eqb_spec j 63);
    cbn; reflexivity || lia.
Qed.

Lemma version_nibble (n : Z) :
  Z.land (Z.shiftr (uuid.set_version4 n) 76) 15 = 4.
Proof.
  apply Z.bits_inj'. intros k Hk.
  rewrite Z.land_spec, Z.shiftr_spec by exact Hk.
  rewrite set_version4_bit by lia.
  change (Z.testbit 4 k) with (Z.testbit (Z.shiftl (Z.ones 1) 2) k).
  change (Z.testbit 15 k) with (Z.testbit (Z.shiftl (Z.ones 4) 0) k).
  rewrite !ones_shift_bit by lia.
  destruct (Z.testbit n (k + 76));
    destruct (Z.leb_spec 76 (k + 76)), (Z.ltb_spec (k + 76) 80),
      (Z.leb_spec 62 (k + 76)), (Z.ltb_spec (k + 76) 64),
      (Z.eqb_spec (k + 76) 78), (Z.eqb_spec (k + 76) 63),
      (Z.leb_spec 0 k), (Z.ltb_spec k (0 + 4)), (Z.leb_spec 2 k),
      (Z.ltb_spec k (2 + 1));
    cbn; reflexivity || lia.
Qed.

Lemma variant_nibble (n : Z) :
  8 <= Z.land (Z.shiftr (uuid.set_version4 n) 60) 15 <= 11.
Proof.
  pose proof (nibble_range (Z.shiftr (uuid.set_version4 n) 60)) as Hr.
  set (x := Z.land (Z.shiftr (uuid.set_version4 n) 60) 15) in *.
  assert (H3 : Z.testbit x 3 = true).
  { unfold x. rewrite Z.land_spec, Z.shiftr_spec by lia.
    rewrite set_version4_bit by lia. reflexivity. }
  assert (H2 : Z.testbit x 2 = false).
  { unfold x. rewrite Z.land_spec, Z.shiftr_spec by lia.
    rewrite set_version4_bit by lia. reflexivity. }
  apply Z.testbit_true in H3; [|lia]. apply Z.testbit_false in H2; [|lia].
  change (2 ^ 3) with 8 in H3. change (2 ^ 2) with 4 in H2.
  clearbody x. Z.div_mod_to_equations. lia.
Qed.

(** The 36 characters assembled from 32 digits. *)
Lemma assembled_format (h : list ascii) :
  length h = 32%nat ->
  Forall (fun c => is_lower_hex c = true) h ->
  h !! 12%nat = Some "4"%char ->
  (exists c, h !! 16%nat = Some c
             /\ c ∈ ["8"%char; "9"%char; "a"%char; "b"%char]) ->
  uuid4_format
    (string_of_list_ascii
       (take 8 h ++ ["-"%char] ++ take 4 (drop 8 h) ++ ["-"%char]
        ++ take 4 (drop 12 h) ++ ["-"%char] ++ take 4 (drop 16 h)
        ++ ["-"%char] ++ drop 20 h)%list).
Proof.
  intros Hlen Hall H12 (c16 & H16 & Hc16).
  do 32 (destruct h as [|? h]; [discriminate Hlen|]).
  destruct h; [|discriminate Hlen].
  cbn in H12, H16. inversion H12; subst. inversion H16; subst.
  cbn [take drop app string_of_list_ascii].
  assert (Hhex : forall c, c ∈ [a; a0; a1; a2; a3; a4; a5; a6; a7; a8; a9; a10;
                                "4"%char; a12; a13; a14; c16; a16; a17; a18; a19;
                                a20; a21; a22; a23; a24; a25; a26; a27; a28; a29;
                                a30] -> is_lower_hex c = true)
    by (apply Forall_forall; exact Hall).
  split; [reflexivity|]. split.
  { intros i Hi.
    repeat (apply elem_of_cons in Hi as [->|Hi]; [reflexivity|]).
    apply elem_of_nil in Hi. contradiction. }
  split; [reflexivity|]. split; [exists c16; split; [reflexivity | exact Hc16]|].
  intros i c Hget Hnot.
  do 36 (destruct i as [|i];
         [first [ solve [exfalso; apply Hnot;
                         repeat first [apply list_elem_of_here
                                      | apply list_elem_of_further]]
                | solve [cbn in Hget; inversion Hget; subst; apply Hhex;
                         repeat first [apply list_elem_of_here
                                      | apply list_elem_of_further]] ]|]).
  cbn in Hget. discriminate Hget.
Qed.

Lemma uuid_of_bytes_format (bs : list Byte.byte) : uuid4_format (uuid.of_bytes bs).
Proof.
  unfold uuid.of_bytes, uuid.str. cbv zeta.
  set (n := uuid.set_version4 (uuid.int_from_bytes bs)).
  apply assembled_format.
  - apply hex32_length.
  - apply hex32_all_hex.
  - rewrite hex32_lookup by lia.
    change (4 * (31 - Z.of_nat 12)) with 76.
    unfold n. rewrite version_nibble. reflexivity.
  - rewrite hex32_lookup by lia.
    change (4 * (31 - Z.of_nat 16)) with 60.
    eexists. split; [reflexivity|].
    pose proof (variant_nibble (uuid.int_from_bytes bs)) as Hv. fold n in Hv.
    assert (Hcases : Z.land (Z.shiftr n 60) 15 = 8 \/ Z.land (Z.shiftr n 60) 15 = 9
                     \/ Z.land (Z.shiftr n 60) 15 = 10
                     \/ Z.land (Z.shiftr n 60) 15 = 11) by lia.
    destruct Hcases as [->|[->|[->| ->]]];
      repeat first [apply list_elem_of_here | apply list_elem_of_further].
Qed.

(** X12: the three identifiers of every generated event are well-formed
    version-4 UUID strings: 36 characters, lower-case hexadecimal digits in
    groups of 8, 4, 4, 4 and 12 separated by dashes, with the version digit
    4 and a variant digit among 8, 9, a and b, whatever bytes [os.urandom]
    delivers. *)
Theorem identifiers_are_uuid4 (timestamp : datetime.datetime) w :
  exists e w1,
    _generate_event timestamp w = (Ret e, w1)
    /\ forall k, k ∈ ["event_id"; "user_id"; "session_id"] ->
        exists s, str_field e k = Some s /\ uuid4_format s.
Proof.
  destruct (generate_event_spec timestamp w) as (e & w1 & Hrun & Hat & _).
  exists e, w1. split; [exact Hrun|].
  destruct Hat as (t & p & c & d & ip & -> & _).
  intros k Hk.
  repeat (apply elem_of_cons in Hk as [->|Hk];
          [eexists; split; [reflexivity | apply uuid_of_bytes_format]|]).
  apply elem_of_nil in Hk. contradiction.
Qed.

(** ** Dates in file names *)

Lemma digit_eq (a b : Z) :
  datetime.digit a = datetime.digit b -> a mod 10 = b mod 10.
Proof.
  unfold datetime.digit. intros H.
  apply (f_equal nat_of_ascii) in H.
  pose proof (Z.mod_pos_bound a 10 ltac:(lia)).
  pose proof (Z.mod_pos_bound b 10 ltac:(lia)).
  rewrite !nat_ascii_embedding in H by lia. lia.
Qed.

Lemma ymd_string_inj (y m d y' m' d' : Z) :
  0 <= y < 10000 -> 0 <= m < 100 -> 0 <= d < 100 ->
  0 <= y' < 10000 -> 0 <= m' < 100 -> 0 <= d' < 100 ->
  datetime.pad4 y ++ "-" ++ datetime.pad2 m ++ "-" ++ datetime.pad2 d
  = datetime.pad4 y' ++ "-" ++ datetime.pad2 m' ++ "-" ++ datetime.pad2 d' ->
  y = y' /\ m = m' /\ d = d'.
Proof.
  intros Hy Hm Hd Hy' Hm' Hd' H.
  unfold datetime.pad4, datetime.pad2 in H. cbn [String.append] in H.
  injection H as H1 H2 H3 H4 H5 H6 H7 H8.
  apply digit_eq in H1, H2, H3, H4, H5, H6, H7, H8.
  repeat split; Z.div_mod_to_equations; lia.
Qed.

Lemma strftime_Ymd_length (t : Z) :
  String.length (datetime.strftime_Ymd t) = 10%nat.
Proof.
  unfold datetime.strftime_Ymd.
  destruct (datetime.ord2ymd (t / datetime.US_PER_DAY + 1)) as [[y m] d].
  reflexivity.
Qed.

Lemma append_inj_length (s1 s2 t1 t2 : string) :
  String.length s1 = String.length s2 ->
  s1 ++ t1 = s2 ++ t2 -> s1 = s2 /\ t1 = t2.
Proof.
  revert s2. induction s1 as [|c s1 IH]; intros [|c' s2] Hl H;
    try discriminate Hl.
  - split; [reflexivity | exact H].
  - cbn in H. injection H as -> H. cbn in Hl.
    destruct (IH s2 ltac:(lia) H) as [-> ->]. split; reflexivity.
Qed.

(** ** The calendar

    [_ord2ymd] inverts [_ymd2ord] on the ordinals of the years 1 to 9999,
    so that different days are formatted differently. *)

Lemma days_before_year_decomposed (a b c d : Z) :
  0 <= b <= 3 -> 0 <= c <= 24 -> 0 <= d <= 3 ->
  datetime.days_before_year (400 * a + 100 * b + 4 * c + d + 1)
  = 146097 * a + 36524 * b + 1461 * c + 365 * d.
Proof.
  intros Hb Hc Hd. unfold datetime.days_before_year. cbv zeta.
  replace (400 * a + 100 * b + 4 * c + d + 1 - 1)
    with (400 * a + 100 * b + 4 * c + d) by lia.
  Z.div_mod_to_equations. lia.
Qed.

Lemma is_leap_decomposed (a b c d : Z) :
  0 <= b <= 3 -> 0 <= c <= 24 -> 0 <= d <= 3 ->
  datetime.is_leap (400 * a + 100 * b + 4 * c + d + 1)
  = (d =? 3) && (negb (c =? 24) || (b =? 3)).
Proof.
  intros Hb Hc Hd. unfold datetime.is_leap.
  destruct (Z.eqb_spec ((400 * a + 100 * b + 4 * c + d + 1) mod 4) 0) as [H4|H4],
    (Z.eqb_spec ((400 * a + 100 * b + 4 * c + d + 1) mod 100) 0) as [H100|H100],
    (Z.eqb_spec ((400 * a + 100 * b + 4 * c + d + 1) mod 400) 0) as [H400|H400],
    (Z.eqb_spec d 3), (Z.eqb_spec c 24), (Z.eqb_spec b 3); cbn;
    try reflexivity; exfalso; Z.div_mod_to_equations; lia.
Qed.

Lemma ord2ymd_spec (n : Z) :
  1 <= n <= datetime.MAXORDINAL ->
  exists y m d,
    datetime.ord2ymd n = (y, m, d)
    /\ 1 <= y <= 9999 /\ 1 <= m <= 12 /\ 1 <= d <= 31
    /\ datetime.ymd2ord y m d = n.
Proof.
  unfold datetime.MAXORDINAL. intros Hn.
  unfold datetime.ord2ymd, datetime.DI400Y, datetime.DI100Y, datetime.DI4Y.
  cbv zeta.
  pose proof (Z.div_mod (n - 1) 146097 ltac:(lia)) as E1.
  pose proof (Z.mod_pos_bound (n - 1) 146097 ltac:(lia)) as B1.
  set (a := (n - 1) / 146097) in *. set (r1 := (n - 1) mod 146097) in *.
  pose proof (Z.div_mod r1 36524 ltac:(lia)) as E2.
  pose proof (Z.mod_pos_bound r1 36524 ltac:(lia)) as B2.
  set (b := r1 / 36524) in *. set (r2 := r1 mod 36524) in *.
  pose proof (Z.div_mod r2 1461 ltac:(lia)) as E3.
  pose proof (Z.mod_pos_bound r2 1461 ltac:(lia)) as B3.
  set (c := r2 / 1461) in *. set (r3 := r2 mod 1461) in *.
  pose proof (Z.div_mod r3 365 ltac:(lia)) as E4.
  pose proof (Z.mod_pos_bound r3 365 ltac:(lia)) as B4.
  set (d := r3 / 365) in *. set (r4 := r3 mod 365) in *.
  clearbody a r1 b r2 c r3 d r4.
  assert (Ha : 0 <= a <= 24) by lia.
  assert (Hb : 0 <= b <= 4) by lia.
  assert (Hc : 0 <= c <= 24) by lia.
  assert (Hd : 0 <= d <= 4) by lia.
  destruct (Z.eqb_spec d 4) as [Hd4|Hd4]; cbn [orb].
  - (* the last day of a leap year *)
    eexists _, _, _. split; [reflexivity|].
    split; [lia|]. split; [lia|]. split; [lia|].
    unfold datetime.ymd2ord, datetime.days_before_month.
    replace (a * 400 + 1 + b * 100 + c * 4 + d - 1)
      with (400 * a + 100 * b + 4 * c + 3 + 1) by lia.
    rewrite days_before_year_decomposed, is_leap_decomposed by lia.
    eval_closed.
    destruct (Z.eqb_spec c 24); [lia|]. cbn [andb orb negb]. lia.
  - destruct (Z.eqb_spec b 4) as [Hb4|Hb4].
    + (* the last day of a 400-year cycle *)
      eexists _, _, _. split; [reflexivity|].
      split; [lia|]. split; [lia|]. split; [lia|].
      unfold datetime.ymd2ord, datetime.days_before_month.
      replace (a * 400 + 1 + b * 100 + c * 4 + d - 1)
        with (400 * a + 100 * 3 + 4 * 24 + 3 + 1) by lia.
      rewrite days_before_year_decomposed, is_leap_decomposed by lia.
      eval_closed. cbn [andb orb negb]. lia.
    + replace (a * 400 + 1 + b * 100 + c * 4 + d)
        with (400 * a + 100 * b + 4 * c + d + 1) by lia.
      rewrite Z.shiftr_div_pow2 by lia. change (2 ^ 5) with 32.
      pose proof (Z.div_mod (r4 + 50) 32 ltac:(lia)) as E5.
      pose proof (Z.mod_pos_bound (r4 + 50) 32 ltac:(lia)) as B5.
      set (mo := (r4 + 50) / 32) in *. set (r5 := (r4 + 50) mod 32) in *.
      clearbody mo r5.
      pose proof (is_leap_decomposed a b c d ltac:(lia) ltac:(lia) ltac:(lia)) as HL.
      pose proof (days_before_year_decomposed a b c d ltac:(lia) ltac:(lia) ltac:(lia)) as HY.
      set (leap := (d =? 3) && (negb (c =? 24) || (b =? 3))) in *.
      set (year := 400 * a + 100 * b + 4 * c + d + 1) in *.
      assert (Hyear : 1 <= year <= 9999) by (unfold year; lia).
      clearbody leap.
      assert (Hmo : mo = 1 \/ mo = 2 \/ mo = 3 \/ mo = 4 \/ mo = 5 \/ mo = 6
                    \/ mo = 7 \/ mo = 8 \/ mo = 9 \/ mo = 10 \/ mo = 11 \/ mo = 12)
        by lia.
      unfold datetime.ymd2ord, datetime.days_before_month.
      destruct Hmo as [->|[->|[->|[->|[->|[->|[->|[->|[->|[->|[->| ->]]]]]]]]]]];
        destruct leap; eval_closed; cbn [andb];
        match goal with
        | |- context [r4 <? ?p] => destruct (Z.ltb_spec r4 p)
        end;
        (eexists _, _, _; split; [reflexivity|];
         split; [exact Hyear|];
         rewrite HL, HY; eval_closed; cbn [andb];
         lia).
Qed.

Lemma strftime_Ymd_inj (s t : Z) :
  datetime.in_range s -> datetime.in_range t ->
  datetime.strftime_Ymd s = datetime.strftime_Ymd t ->
  s / datetime.US_PER_DAY = t / datetime.US_PER_DAY.
Proof.
  unfold datetime.in_range, datetime.MAXORDINAL. intros Hs Ht H.
  assert (Hos : 1 <= s / datetime.US_PER_DAY + 1 <= datetime.MAXORDINAL).
  { unfold datetime.MAXORDINAL, datetime.US_PER_DAY, datetime.US_PER_SECOND in *.
    Z.div_mod_to_equations. lia. }
  assert (Hot : 1 <= t / datetime.US_PER_DAY + 1 <= datetime.MAXORDINAL).
  { unfold datetime.MAXORDINAL, datetime.US_PER_DAY, datetime.US_PER_SECOND in *.
    Z.div_mod_to_equations. lia. }
  destruct (ord2ymd_spec _ Hos) as (y & m & d & Es & Hy & Hm & Hd & Rs).
  destruct (ord2ymd_spec _ Hot) as (y' & m' & d' & Et & Hy' & Hm' & Hd' & Rt).
  unfold datetime.strftime_Ymd in H. rewrite Es, Et in H.
  apply ymd_string_inj in H as (-> & -> & ->); lia.
Qed.

(** Different days have different date strings. *)
Lemma date_str_inj (i j : Z) :
  0 <= i < MAX_INCREMENTAL_DAYS -> 0 <= j < MAX_INCREMENTAL_DAYS ->
  datetime.strftime_Ymd (incremental_date i)
  = datetime.strftime_Ymd (incremental_date j) ->
  i = j.
Proof.
  intros Hi Hj H.
  apply strftime_Ymd_inj in H; try (apply incremental_date_in_range; assumption).
  unfold incremental_date in H. rewrite incremental_start_date_value in H.
  rewrite !Z.div_add in H by discriminate. lia.
Qed.

Lemma incremental_path_day_inj (out : Path) (size f g : string) (i j : Z) :
  0 <= i < MAX_INCREMENTAL_DAYS -> 0 <= j < MAX_INCREMENTAL_DAYS ->
  incremental_file_path out size f i = incremental_file_path out size g j ->
  f = g /\ i = j.
Proof.
  intros Hi Hj H. split; [exact (incremental_path_inj _ _ _ _ _ _ H)|].
  unfold incremental_file_path in H. apply div_inj in H.
  unfold incremental_filename in H.
  apply append_inv_head in H.
  apply append_inj_length in H as [Hdate _];
    [|rewrite !strftime_Ymd_length; reflexivity].
  exact (date_str_inj i j Hi Hj Hdate).
Qed.

(** ** One file per format and day *)

Lemma range_elem_inv (n d : Z) : d ∈ range n -> 0 <= d < n.
Proof.
  intros Hd. exact (proj1 (Forall_forall _ _) (range_bounds n) d Hd).
Qed.

Lemma elem_of_written_paths (out : Path) (size : string) (days : Z)
    (formats : list string) (p : Path) :
  p ∈ written_paths out size days formats
  <-> exists f, f ∈ formats
        /\ (p = bulk_file_path out size f
            \/ exists day, 0 <= day < days
                 /\ p = incremental_file_path out size f day).
Proof.
  induction formats as [|f formats IH]; cbn [written_paths].
  - split; [intros H; apply elem_of_empty in H; contradiction|].
    intros (f & Hf & _). apply elem_of_nil in Hf. contradiction.
  - rewrite !elem_of_union, elem_of_singleton, elem_of_list_to_set, IH.
    split.
    + intros [[->|Hp]|(g & Hg & Hp)].
      * exists f. split; [apply list_elem_of_here | left; reflexivity].
      * apply list_elem_of_In, in_map_iff in Hp as (day & <- & Hday).
        apply list_elem_of_In in Hday.
        exists f. split; [apply list_elem_of_here|]. right. exists day.
        split; [|reflexivity].
        apply range_elem_inv. exact Hday.
      * exists g. split; [apply list_elem_of_further; exact Hg | exact Hp].
    + intros (g & Hg & Hp). apply elem_of_cons in Hg as [->|Hg].
      * left. destruct Hp as [->|(day & Hday & ->)]; [left; reflexivity|].
        right. apply list_elem_of_In, in_map_iff. exists day.
        split; [reflexivity|]. apply list_elem_of_In, range_elem. exact Hday.
      * right. exists g. split; assumption.
Qed.

Lemma NoDup_range (n : Z) : NoDup (range n).
Proof.
  unfold range. apply (NoDup_fmap_2 Z.of_nat). apply NoDup_seq.
Qed.

(** One file for the bulk batch and one per day, for every format. *)
Lemma size_written_paths (out : Path) (size : string) (days : Z)
    (formats : list string) :
  NoDup formats -> days <= MAX_INCREMENTAL_DAYS ->
  base.size (written_paths out size days formats)
  = (length formats * (1 + Z.to_nat days))%nat.
Proof.
  intros Hnd Hdays. induction Hnd as [|f formats Hf Hnd IH]; cbn [written_paths].
  - apply size_empty.
  - rewrite size_union, size_union, size_singleton, size_list_to_set, IH.
    + rewrite length_map, length_range. cbn [length]. lia.
    + apply (NoDup_fmap_2_strong (incremental_file_path out size f)).
      * intros i j Hi Hj H.
        apply range_elem_inv in Hi.
        apply range_elem_inv in Hj.
        apply incremental_path_day_inj in H as [_ H]; [exact H|lia..].
      * apply NoDup_range.
    + intros p Hp Hq. apply elem_of_singleton in Hp as ->.
      apply elem_of_list_to_set, list_elem_of_In, in_map_iff in Hq
        as (day & Hq & _).
      symmetry in Hq. exact (bulk_path_not_incremental _ _ _ _ _ Hq).
    + intros p Hp Hq. apply elem_of_written_paths in Hq as (g & Hg & Hq).
      assert (Hfg : f <> g) by (intros ->; contradiction).
      apply elem_of_union in Hp as [Hp|Hp].
      * apply elem_of_singleton in Hp as ->.
        destruct Hq as [Hq|(day & _ & Hq)].
        -- apply bulk_path_inj in Hq. contradiction.
        -- exact (bulk_path_not_incremental _ _ _ _ _ Hq).
      * apply elem_of_list_to_set, list_elem_of_In, in_map_iff in Hp
          as (i & <- & Hi).
        apply list_elem_of_In in Hi.
        apply range_elem_inv in Hi.
        destruct Hq as [Hq|(day & Hday & Hq)].
        -- symmetry in Hq. exact (bulk_path_not_incremental _ _ _ _ _ Hq).
        -- apply incremental_path_day_inj in Hq as [Hq _]; [contradiction|lia..].
Qed.

(** X13: one file per format and day.  In a run that returns, with
    formats that do not repeat, the files written are the bulk file and the
    daily files of each format, and no two of them share a path: different
    days (up to 9999-12-30) have different dates in their names, different
    formats different suffixes, and no bulk file is a daily file.  They are
    [len(formats) * (1 + incremental_days)] in all, which is the number of
    files in an output tree that held none. *)
Theorem one_file_per_format_and_day (size : string) (tier : DataSize)
    (output_dir : string) (formats : option (list string)) (seed : option Z)
    (incremental_days : Z) w :
  DataSize_of_value size = Some tier ->
  Forall (fun f => f = "csv" \/ f = "parquet") (formats_or_default formats) ->
  NoDup (formats_or_default formats) ->
  0 <= incremental_days <= MAX_INCREMENTAL_DAYS ->
  let out := pathlib.of_string output_dir in
  let fl := formats_or_default formats in
  exists m w1,
    generate_benchmark_data size output_dir formats seed incremental_days w
    = (Ret m, w1)
    /\ dom (files (fs w1))
       = written_paths out size incremental_days fl ∪ dom (files (fs w))
    /\ Z.of_nat (base.size (written_paths out size incremental_days fl))
       = Z.of_nat (length fl) * (1 + incremental_days)
    /\ (forall f g i j,
          0 <= i < incremental_days -> 0 <= j < incremental_days ->
          incremental_file_path out size f i = incremental_file_path out size g j ->
          f = g /\ i = j)
    /\ (forall f g day,
          bulk_file_path out size f <> incremental_file_path out size g day)
    /\ (files (fs w) = ∅ ->
        Z.of_nat (base.size (dom (files (fs w1))))
        = Z.of_nat (length fl) * (1 + incremental_days)).
Proof.
  intros Hsize Hformats Hnd Hdays out fl.
  apply formats_valid_iff in Hformats.
  destruct (generate_benchmark_data_spec size tier output_dir formats seed
              incremental_days w Hsize Hformats ltac:(lia))
    as (b1 & wb1 & p1 & w1 & _ & Hrun1 & _ & _ & Hp1 & Hpl1 & _ & _ & _ & Hfiles1).
  fold out in Hrun1, Hfiles1. fold fl in Hrun1, Hp1, Hpl1, Hfiles1.
  pose proof (passes_at_lengths _ _ _ _ _ Hp1) as Hl1.
  assert (Hdom : dom (files (fs w1))
                 = written_paths out size incremental_days fl ∪ dom (files (fs w))).
  { rewrite Hfiles1. apply files_after_dom; assumption. }
  assert (Hsz : Z.of_nat (base.size (written_paths out size incremental_days fl))
                = Z.of_nat (length fl) * (1 + incremental_days)).
  { rewrite size_written_paths by (assumption || lia). lia. }
  eexists _, w1. split; [exact Hrun1|]. split; [exact Hdom|].
  split; [exact Hsz|]. split; [|split].
  - intros f g i j Hi Hj H.
    apply incremental_path_day_inj in H; [exact H|lia..].
  - intros f g day. apply bulk_path_not_incremental.
  - intros Hempty. rewrite Hdom, Hempty, dom_empty_L, union_empty_r_L. exact Hsz.
Qed.

(** ** Whole seconds *)

Lemma timed_loop_seconds (base hi : Z) (l : list Z) (acc : list event) w
    (out : list event) w1 :
  for_each (timed_step base hi) l acc w = (Ret out, w1) ->
  Forall (on_second_after base) acc ->
  Forall (on_second_after base) out.
Proof.
  revert acc w. induction l as [|x l IH]; intros acc w Hrun Hacc;
    cbn [for_each] in Hrun.
  - inversion Hrun; subst. exact Hacc.
  - apply bind_inv in Hrun as (acc' & w' & Hstep & Hrest).
    apply (IH _ _ Hrest).
    destruct (timed_step_cases base hi acc x w)
      as [(_ & Hr)|[(_ & g & Hr)|(_ & rs & e & w2 & Hrs & Hr & Hat & _)]];
      rewrite Hr in Hstep; try discriminate Hstep.
    inversion Hstep; subst acc' w'.
    apply Forall_app. split; [exact Hacc|].
    constructor; [|constructor].
    apply event_at_timestamp in Hat as (t & Ht & Hb).
    exists t, rs. split; [exact Ht|]. split; lia.
Qed.

Lemma generate_bulk_data_loop self start days w events w1 :
  generate_bulk_data self start days w = (Ret events, w1) ->
  for_each (timed_step start (days * 86400)) (range (record_count self)) [] w
  = (Ret events, w1).
Proof.
  intros Hrun.
  assert (Hd : datetime.timedelta_days days = Ret (days * datetime.US_PER_DAY)).
  { unfold generate_bulk_data in Hrun.
    apply bind_inv in Hrun as (d & w' & Hd & _).
    apply lift_inv in Hd as (Hd & _).
    rewrite Hd. f_equal. apply timedelta_days_inv. exact Hd. }
  assert (Ha : datetime.add start (days * datetime.US_PER_DAY)
               = Ret (start + days * datetime.US_PER_DAY)).
  { unfold generate_bulk_data in Hrun. rewrite Hd in Hrun.
    unfold lift at 1 in Hrun. unfold bind at 1 in Hrun.
    apply bind_inv in Hrun as (d & w' & Ha & _).
    apply lift_inv in Ha as (Ha & _).
    rewrite Ha. f_equal. apply add_inv in Ha as (-> & _). reflexivity. }
  rewrite (generate_bulk_data_unfold _ _ _ _ Hd Ha) in Hrun. exact Hrun.
Qed.

(** X14: timestamps fall on whole seconds.  Every event of a batch
    returned by [generate_bulk_data] has the microsecond of [start_date];
    every event of a batch returned by [generate_incremental_data] has the
    microsecond 0, whatever the time of day of [date]. *)
Theorem timestamps_on_whole_seconds (self : ClickstreamDataGenerator) :
  (forall start_date days w events w1,
      generate_bulk_data self start_date days w = (Ret events, w1) ->
      Forall (fun e => exists t, timestamp_of e = Some t
                /\ t mod datetime.US_PER_SECOND
                   = start_date mod datetime.US_PER_SECOND)
             events)
  /\ (forall date records_per_day w events w1,
        generate_incremental_data self date records_per_day w = (Ret events, w1) ->
        Forall (fun e => exists t, timestamp_of e = Some t
                  /\ t mod datetime.US_PER_SECOND = 0)
               events).
Proof.
  split.
  - intros start_date days w events w1 Hrun.
    apply generate_bulk_data_loop in Hrun.
    apply timed_loop_seconds in Hrun; [|constructor].
    eapply Forall_impl; [exact Hrun|]. cbv beta.
    intros e (t & s & Ht & _ & ->). exists (start_date + s * datetime.US_PER_SECOND).
    split; [exact Ht|]. apply Z.mod_add. discriminate.
  - intros date records_per_day w events w1 Hrun.
    rewrite generate_incremental_data_unfold in Hrun.
    apply timed_loop_seconds in Hrun; [|constructor].
    eapply Forall_impl; [exact Hrun|]. cbv beta.
    intros e (t & s & Ht & _ & ->).
    exists (datetime.midnight date + s * datetime.US_PER_SECOND).
    split; [exact Ht|]. rewrite Z.mod_add by discriminate.
    unfold datetime.midnight, datetime.US_PER_DAY, datetime.US_PER_SECOND.
    Z.div_mod_to_equations. lia.
Qed.

End MoreProperties.

(** * Concrete runs

    The properties above, applied to runs on the linear congruential
    generator, and the inputs at which the batch functions return no batch
    of the requested length. *)

(** [bulk_batch_length] on the small tier over January 2024. *)
Lemma bulk_batch_length_witness :
  __init__ (R := lcg) SMALL None (lcg_world counting_entropy)
  = (Ret small_generator, lcg_world counting_entropy)
  /\ 0 <= 30
  /\ datetime.in_range (datetime.of_ymd 2024 1 1)
  /\ datetime.in_range (datetime.of_ymd 2024 1 1 + 30 * datetime.US_PER_DAY)
  /\ exists events w1,
      generate_bulk_data (R := lcg) (F := octets_ipv4 lcg) small_generator
        (datetime.of_ymd 2024 1 1) 30 (lcg_world counting_entropy)
      = (Ret events, w1)
      /\ Z.of_nat (length events) = SIZE_RECORD_COUNTS SMALL
      /\ SIZE_RECORD_COUNTS SMALL = 100000
      /\ events <> [].
Proof.
  assert (H1 : __init__ (R := lcg) SMALL None (lcg_world counting_entropy)
               = (Ret small_generator, lcg_world counting_entropy))
    by reflexivity.
  assert (H2 : 0 <= 30) by lia.
  assert (H3 : datetime.in_range (datetime.of_ymd 2024 1 1))
    by (apply in_rangeb_spec; vm_compute; reflexivity).
  assert (H4 : datetime.in_range
                 (datetime.of_ymd 2024 1 1 + 30 * datetime.US_PER_DAY))
    by (apply in_rangeb_spec; vm_compute; reflexivity).
  split; [exact H1|]. split; [exact H2|]. split; [exact H3|]. split; [exact H4|].
  exact (bulk_batch_length (R := lcg) (F := octets_ipv4 lcg) SMALL None
           (lcg_world counting_entropy) small_generator
           (lcg_world counting_entropy) (datetime.of_ymd 2024 1 1) 30
           H1 H2 H3 H4).
Defined.

(** C2 without the condition on the window: 9999-12-15 is a datetime, and 30 days later is
    not; [generate_bulk_data] raises [OverflowError] and returns no batch. *)
Lemma bulk_batch_length_counterexample :
  datetime.in_range (datetime.of_ymd 9999 12 15)
  /\ generate_bulk_data (R := lcg) (F := octets_ipv4 lcg) small_generator
       (datetime.of_ymd 9999 12 15) 30 (lcg_world counting_entropy)
     = (Raise OverflowError, lcg_world counting_entropy)
  /\ ~ exists events w1,
        generate_bulk_data (R := lcg) (F := octets_ipv4 lcg) small_generator
          (datetime.of_ymd 9999 12 15) 30 (lcg_world counting_entropy)
        = (Ret events, w1)
        /\ Z.of_nat (length events) = SIZE_RECORD_COUNTS SMALL.
Proof.
  assert (H : generate_bulk_data (R := lcg) (F := octets_ipv4 lcg) small_generator
                (datetime.of_ymd 9999 12 15) 30 (lcg_world counting_entropy)
              = (Raise OverflowError, lcg_world counting_entropy))
    by reflexivity.
  split; [apply in_rangeb_spec; vm_compute; reflexivity|].
  split; [exact H|].
  intros (events & w1 & Hrun & _). rewrite H in Hrun. discriminate Hrun.
Qed.

(** [timestamps_in_window] on a batch of two events for 2024-02-01. *)
Lemma timestamps_in_window_witness :
  generate_incremental_data (R := lcg) (F := octets_ipv4 lcg) small_generator
    (datetime.of_ymd 2024 2 1) 2 (lcg_world counting_entropy)
  = (Ret sample_incremental_events,
     snd (generate_incremental_data (R := lcg) (F := octets_ipv4 lcg)
            small_generator (datetime.of_ymd 2024 2 1) 2
            (lcg_world counting_entropy)))
  /\ Forall (fun e => exists t, timestamp_of e = Some t
              /\ datetime.midnight (datetime.of_ymd 2024 2 1) <= t
                 <= datetime.midnight (datetime.of_ymd 2024 2 1)
                    + 86400 * datetime.US_PER_SECOND)
            sample_incremental_events.
Proof.
  assert (Hf : fst (generate_incremental_data (R := lcg) (F := octets_ipv4 lcg)
                      small_generator (datetime.of_ymd 2024 2 1) 2
                      (lcg_world counting_entropy))
               = Ret sample_incremental_events)
    by (vm_compute; reflexivity).
  assert (H : generate_incremental_data (R := lcg) (F := octets_ipv4 lcg)
                small_generator (datetime.of_ymd 2024 2 1) 2
                (lcg_world counting_entropy)
              = (Ret sample_incremental_events,
                 snd (generate_incremental_data (R := lcg) (F := octets_ipv4 lcg)
                        small_generator (datetime.of_ymd 2024 2 1) 2
                        (lcg_world counting_entropy))))
    by (rewrite <- Hf; apply surjective_pairing).
  split; [exact H|].
  exact (proj1 (proj2 (timestamps_in_window (R := lcg) (F := octets_ipv4 lcg)))
           small_generator (datetime.of_ymd 2024 2 1) 2
           (lcg_world counting_entropy) sample_incremental_events _ H).
Defined.

(** [incremental_batch_length] on the default 1000 records for
    2024-02-01. *)
Lemma incremental_batch_length_witness :
  datetime.in_range (datetime.of_ymd 2024 2 1)
  /\ datetime.in_range
       (datetime.midnight (datetime.of_ymd 2024 2 1) + datetime.US_PER_DAY)
  /\ exists events w1,
      generate_incremental_data (R := lcg) (F := octets_ipv4 lcg) small_generator
        (datetime.of_ymd 2024 2 1) 1000 (lcg_world counting_entropy)
      = (Ret events, w1)
      /\ Z.of_nat (length events) = Z.max 0 1000.
Proof.
  assert (H1 : datetime.in_range (datetime.of_ymd 2024 2 1))
    by (apply in_rangeb_spec; vm_compute; reflexivity).
  assert (H2 : datetime.in_range
                 (datetime.midnight (datetime.of_ymd 2024 2 1) + datetime.US_PER_DAY))
    by (apply in_rangeb_spec; vm_compute; reflexivity).
  split; [exact H1|]. split; [exact H2|].
  exact (incremental_batch_length (R := lcg) (F := octets_ipv4 lcg) small_generator
           (datetime.of_ymd 2024 2 1) 1000 (lcg_world counting_entropy) H1 H2).
Defined.

(** C5 without its two conditions.  For [records_per_day = -1] the batch is
    empty, and its length is not -1.  For 9999-12-31, a datetime, a draw of
    86400 seconds leaves the calendar: [OverflowError] and no batch. *)
Lemma incremental_batch_length_counterexample :
  generate_incremental_data (R := lcg) (F := octets_ipv4 lcg) small_generator
    (datetime.of_ymd 2024 2 1) (-1) (lcg_world counting_entropy)
  = (Ret [], lcg_world counting_entropy)
  /\ Z.of_nat (length ([] : list event)) <> -1
  /\ datetime.in_range (datetime.of_ymd 9999 12 31)
  /\ fst (generate_incremental_data (R := top_rng) (F := octets_ipv4 top_rng)
            small_generator (datetime.of_ymd 9999 12 31) 1 top_world)
     = Raise OverflowError.
Proof.
  split; [reflexivity|]. split; [discriminate|].
  split; [apply in_rangeb_spec; vm_compute; reflexivity|].
  vm_compute. reflexivity.
Qed.

(** [validation_fails_fast] on the size "tiny" and on the format "xml". *)
Lemma validation_fails_fast_witness :
  (("tiny" ∉ ["small"; "medium"; "large"])
   /\ generate_benchmark_data (R := lcg) (F := octets_ipv4 lcg) (E := fixed_width)
        "tiny" "out" None (Some 42) 7 (lcg_world counting_entropy)
      = (Raise (ValueError (InvalidSizeMsg ["small"; "medium"; "large"])),
         lcg_world counting_entropy))
  /\ ("small" ∈ ["small"; "medium"; "large"]
      /\ (exists f, f ∈ ["xml"] /\ f <> "csv" /\ f <> "parquet")
      /\ generate_benchmark_data (R := lcg) (F := octets_ipv4 lcg) (E := fixed_width)
           "small" "out" (Some ["xml"]) (Some 42) 7 (lcg_world counting_entropy)
         = (Raise (ValueError
                     (UnsupportedFormatsMsg
                        (list_to_set ["xml"] ∖ supported_formats)
                        supported_formats)),
            lcg_world counting_entropy)).
Proof.
  assert (H1 : "tiny" ∉ ["small"; "medium"; "large"]).
  { intros H.
    repeat (apply elem_of_cons in H as [H|H]; [discriminate H|]).
    apply elem_of_nil in H. exact H. }
  assert (H2 : "small" ∈ ["small"; "medium"; "large"])
    by (apply elem_of_cons; left; reflexivity).
  assert (H3 : exists f, f ∈ ["xml"] /\ f <> "csv" /\ f <> "parquet").
  { exists "xml". split; [apply elem_of_cons; left; reflexivity|].
    split; discriminate. }
  split.
  - split; [exact H1|].
    exact (proj1 (validation_fails_fast (R := lcg) (F := octets_ipv4 lcg)
                    (E := fixed_width) "tiny" "out" None (Some 42) 7
                    (lcg_world counting_entropy)) H1).
  - split; [exact H2|]. split; [exact H3|].
    exact (proj1 (proj2 (validation_fails_fast (R := lcg) (F := octets_ipv4 lcg)
                           (E := fixed_width) "small" "out" (Some ["xml"])
                           (Some 42) 7 (lcg_world counting_entropy)) H2 H3)).
Defined.

(** [non_positive_incremental_days] on both formats and -3 days. *)
Lemma non_positive_incremental_days_witness :
  DataSize_of_value "small" = Some SMALL
  /\ Forall (fun f => f = "csv" \/ f = "parquet") (formats_or_default None)
  /\ (-3) <= 0
  /\ exists m w1 bulk_events,
      generate_benchmark_data (R := lcg) (F := octets_ipv4 lcg) (E := fixed_width)
        "small" "out" None (Some 42) (-3) (lcg_world counting_entropy)
      = (Ret m, w1)
      /\ res_incremental_days m = -3
      /\ dom (res_files m) = list_to_set (formats_or_default None)
      /\ (forall f fr, res_files m !! f = Some fr ->
            fr_incremental fr = []
            /\ fr_bulk fr
               = bulk_entry_of (E := fixed_width) (pathlib.of_string "out")
                   "small" f bulk_events)
      /\ files (fs w1)
         = foldl (fun m f => <[bulk_file_path (pathlib.of_string "out") "small" f
                                := encode f (DataFrame_of bulk_events)]> m)
                 (files (fs (lcg_world counting_entropy)))
                 (formats_or_default None).
Proof.
  assert (H1 : DataSize_of_value "small" = Some SMALL) by reflexivity.
  assert (H2 : Forall (fun f => f = "csv" \/ f = "parquet") (formats_or_default None)).
  { constructor; [left; reflexivity|]. constructor; [right; reflexivity|].
    constructor. }
  assert (H3 : -3 <= 0) by lia.
  split; [exact H1|]. split; [exact H2|]. split; [exact H3|].
  exact (non_positive_incremental_days (R := lcg) (F := octets_ipv4 lcg)
           (E := fixed_width) "small" SMALL "out" None (Some 42) (-3)
           (lcg_world counting_entropy) H1 H2 H3).
Defined.

(** [one_bulk_batch_fresh_incrementals], second part, on the counting
    entropy source. *)
Lemma one_bulk_batch_fresh_incrementals_witness :
  os_entropy (lcg_world counting_entropy) = counting_entropy
  /\ os_pos (lcg_world counting_entropy) = 0%N
  /\ exists m w1 (csv_rows parquet_rows : list (list pyval)),
      generate_benchmark_data (R := lcg) (F := octets_ipv4 lcg) (E := fixed_width)
        "small" "out" (Some ["csv"; "parquet"]) (Some 42) 1
        (lcg_world counting_entropy)
      = (Ret m, w1)
      /\ files (fs w1) !! incremental_file_path (pathlib.of_string "out") "small" "csv" 0
         = Some (CsvFile event_columns csv_rows)
      /\ files (fs w1)
           !! incremental_file_path (pathlib.of_string "out") "small" "parquet" 0
         = Some (ParquetFile event_columns parquet_rows)
      /\ csv_rows <> parquet_rows.
Proof.
  assert (H1 : os_entropy (lcg_world counting_entropy) = counting_entropy)
    by reflexivity.
  assert (H2 : os_pos (lcg_world counting_entropy) = 0%N) by reflexivity.
  split; [exact H1|]. split; [exact H2|].
  exact (proj2 (one_bulk_batch_fresh_incrementals (R := lcg)
                  (F := octets_ipv4 lcg) (E := fixed_width))
           "out" (Some 42) (lcg_world counting_entropy) H1 H2).
Defined.

(** [duplicate_formats_last_wins] on csv twice and two days: the entry
    of csv in the manifest is the one of the second pass. *)
Lemma duplicate_formats_last_wins_witness :
  DataSize_of_value "small" = Some SMALL
  /\ Forall (fun f => f = "csv" \/ f = "parquet") ["csv"; "csv"]
  /\ 0 <= 2 <= MAX_INCREMENTAL_DAYS
  /\ exists m w1 (bulk_events : list event) (first second : list (list event)),
      generate_benchmark_data (R := lcg) (F := octets_ipv4 lcg) (E := fixed_width)
        "small" "out" (Some ["csv"; "csv"]) (Some 42) 2 (lcg_world counting_entropy)
      = (Ret m, w1)
      /\ batches_at counting_entropy 4800000 (range 2) first
      /\ batches_at counting_entropy 4896000 (range 2) second
      /\ res_files m !! "csv"
         = Some (format_results_of (E := fixed_width) (pathlib.of_string "out")
                   "small" "csv" 2 bulk_events second).
Proof.
  assert (H1 : DataSize_of_value "small" = Some SMALL) by reflexivity.
  assert (H2 : Forall (fun f => f = "csv" \/ f = "parquet") ["csv"; "csv"])
    by (repeat (constructor; [left; reflexivity|]); constructor).
  assert (H3 : 0 <= 2 <= MAX_INCREMENTAL_DAYS)
    by (unfold MAX_INCREMENTAL_DAYS; lia).
  split; [exact H1|]. split; [exact H2|]. split; [exact H3|].
  destruct (duplicate_formats_last_wins (R := lcg) (F := octets_ipv4 lcg)
              (E := fixed_width) "small" SMALL "out" ["csv"; "csv"] (Some 42) 2
              (lcg_world counting_entropy) H1 H2 H3)
    as (m & w1 & bulk_events & passes & _ & Hrun & Hpl & Hp & _ & _ & _ & Hlast).
  destruct passes as [|first [|second [|? ?]]]; try discriminate Hpl.
  cbn [passes_at] in Hp. destruct Hp as (Hb1 & Hb2 & _).
  exists m, w1, bulk_events, first, second.
  split; [exact Hrun|]. split; [exact Hb1|]. split; [exact Hb2|].
  apply (Hlast 1%nat "csv" second eq_refl eq_refl).
  cbn [drop]. apply not_elem_of_nil.
Defined.

(** ** Further properties on concrete runs *)

(** [negative_days_rejected] on the small tier, one day back from
    2024-02-01. *)
Lemma negative_days_rejected_witness :
  -1 < 0
  /\ datetime.in_range (datetime.of_ymd 2024 2 1)
  /\ datetime.in_range (datetime.of_ymd 2024 2 1 + -1 * datetime.US_PER_DAY)
  /\ generate_bulk_data (R := lcg) (F := octets_ipv4 lcg) (generator_of SMALL)
       (datetime.of_ymd 2024 2 1) (-1) (lcg_world counting_entropy)
     = (Raise (ValueError (EmptyRangeMsg 0 (-1 * 86400 + 1))),
        lcg_world counting_entropy).
Proof.
  assert (H1 : -1 < 0) by lia.
  assert (H2 : datetime.in_range (datetime.of_ymd 2024 2 1))
    by (apply in_rangeb_spec; vm_compute; reflexivity).
  assert (H3 : datetime.in_range
                 (datetime.of_ymd 2024 2 1 + -1 * datetime.US_PER_DAY))
    by (apply in_rangeb_spec; vm_compute; reflexivity).
  split; [exact H1|]. split; [exact H2|]. split; [exact H3|].
  exact (negative_days_rejected (R := lcg) (F := octets_ipv4 lcg) SMALL
           (datetime.of_ymd 2024 2 1) (-1) (lcg_world counting_entropy)
           H1 H2 H3).
Defined.

(** [DataSize_round_trip] on the medium tier. *)
Lemma DataSize_round_trip_witness :
  DataSize_value MEDIUM = "medium" /\ DataSize_of_value "medium" = Some MEDIUM.
Proof.
  assert (H : DataSize_value MEDIUM = "medium") by reflexivity.
  split; [exact H|].
  exact (proj2 (DataSize_round_trip "medium" MEDIUM) H).
Defined.

(** [empty_formats_write_nothing] on the small tier and three days. *)
Lemma empty_formats_write_nothing_witness :
  DataSize_of_value "small" = Some SMALL
  /\ exists m w1,
      generate_benchmark_data (R := lcg) (F := octets_ipv4 lcg) (E := fixed_width)
        "small" "out" (Some []) (Some 42) 3 (lcg_world counting_entropy)
      = (Ret m, w1)
      /\ res_files m = ∅
      /\ res_bulk_record_count m = SIZE_RECORD_COUNTS SMALL
      /\ files (fs w1) = files (fs (lcg_world counting_entropy)).
Proof.
  assert (H1 : DataSize_of_value "small" = Some SMALL) by reflexivity.
  split; [exact H1|].
  destruct (empty_formats_write_nothing (R := lcg) (F := octets_ipv4 lcg)
              (E := fixed_width) "small" SMALL "out" (Some 42) 3
              (lcg_world counting_entropy) H1)
    as (m & w1 & Hrun & Hfiles & Hcount & _ & Hfs & _).
  exists m, w1. split; [exact Hrun|]. split; [exact Hfiles|].
  split; [exact Hcount | exact Hfs].
Defined.


(** [manifest_matches_disk] on both formats and seven days. *)
Lemma manifest_matches_disk_witness :
  DataSize_of_value "small" = Some SMALL
  /\ Forall (fun f => f = "csv" \/ f = "parquet") (formats_or_default None)
  /\ 0 <= 7 <= MAX_INCREMENTAL_DAYS
  /\ exists m w1,
      generate_benchmark_data (R := lcg) (F := octets_ipv4 lcg) (E := fixed_width)
        "small" "out" None (Some 42) 7 (lcg_world counting_entropy)
      = (Ret m, w1)
      /\ res_bulk_record_count m = SIZE_RECORD_COUNTS SMALL
      /\ forall f fr, res_files m !! f = Some fr ->
          f ∈ formats_or_default None
          /\ bulk_records (fr_bulk fr) = res_bulk_record_count m
          /\ Z.of_nat (length (fr_incremental fr)) = 7.
Proof.
  assert (H1 : DataSize_of_value "small" = Some SMALL) by reflexivity.
  assert (H2 : Forall (fun f => f = "csv" \/ f = "parquet") (formats_or_default None)).
  { constructor; [left; reflexivity|]. constructor; [right; reflexivity|].
    constructor. }
  assert (H3 : 0 <= 7 <= MAX_INCREMENTAL_DAYS)
    by (unfold MAX_INCREMENTAL_DAYS; lia).
  split; [exact H1|]. split; [exact H2|]. split; [exact H3|].
  destruct (manifest_matches_disk (R := lcg) (F := octets_ipv4 lcg)
              (E := fixed_width) "small" SMALL "out" None (Some 42) 7
              (lcg_world counting_entropy) H1 H2 H3)
    as (m & w1 & Hrun & Hcount & Hentries).
  exists m, w1. split; [exact Hrun|]. split; [exact Hcount|].
  intros f fr Hf.
  destruct (Hentries f fr Hf) as (Hin & _ & Hrec & _ & Hlen & _).
  split; [exact Hin|]. split; [exact Hrec | exact Hlen].
Defined.

(** [bulk_precedes_incremental] on both formats and seven days. *)
Lemma bulk_precedes_incremental_witness :
  DataSize_of_value "small" = Some SMALL
  /\ Forall (fun f => f = "csv" \/ f = "parquet") (formats_or_default None)
  /\ 0 <= 7 <= MAX_INCREMENTAL_DAYS
  /\ exists m w1 (bulk_events : list event) (passes : list (list (list event))),
      generate_benchmark_data (R := lcg) (F := octets_ipv4 lcg) (E := fixed_width)
        "small" "out" None (Some 42) 7 (lcg_world counting_entropy)
      = (Ret m, w1)
      /\ (forall e, e ∈ bulk_events ->
            exists t, timestamp_of e = Some t
                      /\ datetime.of_ymd 2024 1 1 <= t <= datetime.of_ymd 2024 1 31)
      /\ (forall batches daily e,
            batches ∈ passes -> daily ∈ batches -> e ∈ daily ->
            exists t, timestamp_of e = Some t /\ datetime.of_ymd 2024 2 1 <= t).
Proof.
  assert (H1 : DataSize_of_value "small" = Some SMALL) by reflexivity.
  assert (H2 : Forall (fun f => f = "csv" \/ f = "parquet") (formats_or_default None)).
  { constructor; [left; reflexivity|]. constructor; [right; reflexivity|].
    constructor. }
  assert (H3 : 0 <= 7 <= MAX_INCREMENTAL_DAYS)
    by (unfold MAX_INCREMENTAL_DAYS; lia).
  split; [exact H1|]. split; [exact H2|]. split; [exact H3|].
  destruct (bulk_precedes_incremental (R := lcg) (F := octets_ipv4 lcg)
              (E := fixed_width) "small" SMALL "out" None (Some 42) 7
              (lcg_world counting_entropy) H1 H2 H3)
    as (m & w1 & bulk_events & passes & Hrun & _ & Hbulk & Hincr & _).
  exists m, w1, bulk_events, passes.
  split; [exact Hrun|]. split; [exact Hbulk | exact Hincr].
Defined.


(** [late_failure_leaves_files] on csv and three million days. *)
Lemma late_failure_leaves_files_witness :
  DataSize_of_value "small" = Some SMALL
  /\ Forall (fun g => g = "csv" \/ g = "parquet") ["csv"]
  /\ MAX_INCREMENTAL_DAYS + 1 < 3000000
  /\ exists w1 (d : file_data),
      generate_benchmark_data (R := lcg) (F := octets_ipv4 lcg) (E := fixed_width)
        "small" "out" (Some ["csv"]) (Some 42) 3000000 (lcg_world counting_entropy)
      = (Raise OverflowError, w1)
      /\ files (fs w1) !! bulk_file_path (pathlib.of_string "out") "small" "csv"
         = Some d
      /\ Z.of_nat (length (file_rows d)) = SIZE_RECORD_COUNTS SMALL.
Proof.
  assert (H1 : DataSize_of_value "small" = Some SMALL) by reflexivity.
  assert (H2 : Forall (fun g => g = "csv" \/ g = "parquet") ["csv"])
    by (constructor; [left; reflexivity | constructor]).
  assert (H3 : MAX_INCREMENTAL_DAYS + 1 < 3000000)
    by (unfold MAX_INCREMENTAL_DAYS; lia).
  split; [exact H1|]. split; [exact H2|]. split; [exact H3|].
  destruct (late_failure_leaves_files (R := lcg) (F := octets_ipv4 lcg)
              (E := fixed_width) "small" SMALL "out" "csv" [] (Some 42) 3000000
              (lcg_world counting_entropy) H1 H2 H3)
    as (w1 & d & Hrun & Hfile & Hrows & _).
  exists w1, d. split; [exact Hrun|]. split; [exact Hfile | exact Hrows].
Defined.

(** [rerun_writes_same_paths] on two runs with different seeds. *)
Lemma rerun_writes_same_paths_witness :
  DataSize_of_value "small" = Some SMALL
  /\ Forall (fun f => f = "csv" \/ f = "parquet") (formats_or_default None)
  /\ 7 <= MAX_INCREMENTAL_DAYS
  /\ exists m1 w1 m2 w2,
      generate_benchmark_data (R := lcg) (F := octets_ipv4 lcg) (E := fixed_width)
        "small" "out" None (Some 42) 7 (lcg_world counting_entropy)
      = (Ret m1, w1)
      /\ generate_benchmark_data (R := lcg) (F := octets_ipv4 lcg) (E := fixed_width)
           "small" "out" None (Some 43) 7 w1
         = (Ret m2, w2)
      /\ dom (files (fs w2)) = dom (files (fs w1))
      /\ dirs (fs w2) = dirs (fs w1).
Proof.
  assert (H1 : DataSize_of_value "small" = Some SMALL) by reflexivity.
  assert (H2 : Forall (fun f => f = "csv" \/ f = "parquet") (formats_or_default None)).
  { constructor; [left; reflexivity|]. constructor; [right; reflexivity|].
    constructor. }
  assert (H3 : 7 <= MAX_INCREMENTAL_DAYS) by (unfold MAX_INCREMENTAL_DAYS; lia).
  split; [exact H1|]. split; [exact H2|]. split; [exact H3|].
  destruct (rerun_writes_same_paths (R := lcg) (F := octets_ipv4 lcg)
              (E := fixed_width) "small" SMALL "out" None (Some 42) (Some 43) 7
              (lcg_world counting_entropy) H1 H2 H3)
    as (m1 & w1 & m2 & w2 & Hrun1 & Hrun2 & _ & Hfiles & Hdirs & _).
  exists m1, w1, m2, w2. split; [exact Hrun1|]. split; [exact Hrun2|].
  split; [exact Hfiles | exact Hdirs].
Defined.

(** [one_file_per_format_and_day] on both formats and seven days, into a
    file system that holds no file: sixteen files. *)
Lemma one_file_per_format_and_day_witness :
  DataSize_of_value "small" = Some SMALL
  /\ Forall (fun f => f = "csv" \/ f = "parquet") (formats_or_default None)
  /\ NoDup (formats_or_default None)
  /\ 0 <= 7 <= MAX_INCREMENTAL_DAYS
  /\ files (fs (lcg_world counting_entropy)) = ∅
  /\ exists m w1,
      generate_benchmark_data (R := lcg) (F := octets_ipv4 lcg) (E := fixed_width)
        "small" "out" None (Some 42) 7 (lcg_world counting_entropy)
      = (Ret m, w1)
      /\ Z.of_nat (base.size (dom (files (fs w1)))) = 16.
Proof.
  assert (H1 : DataSize_of_value "small" = Some SMALL) by reflexivity.
  assert (H2 : Forall (fun f => f = "csv" \/ f = "parquet") (formats_or_default None)).
  { constructor; [left; reflexivity|]. constructor; [right; reflexivity|].
    constructor. }
  assert (H3 : NoDup (formats_or_default None)).
  { constructor.
    - intros H. apply elem_of_cons in H as [H|H]; [discriminate H|].
      apply elem_of_nil in H. exact H.
    - constructor; [apply not_elem_of_nil | constructor]. }
  assert (H4 : 0 <= 7 <= MAX_INCREMENTAL_DAYS)
    by (unfold MAX_INCREMENTAL_DAYS; lia).
  assert (H5 : files (fs (lcg_world counting_entropy)) = ∅) by reflexivity.
  split; [exact H1|]. split; [exact H2|]. split; [exact H3|]. split; [exact H4|].
  split; [exact H5|].
  destruct (one_file_per_format_and_day (R := lcg) (F := octets_ipv4 lcg)
              (E := fixed_width) "small" SMALL "out" None (Some 42) 7
              (lcg_world counting_entropy) H1 H2 H3 H4)
    as (m & w1 & Hrun & _ & _ & _ & _ & Hcount).
  exists m, w1. split; [exact Hrun|]. exact (Hcount H5).
Defined.

(** [timestamps_on_whole_seconds] on a batch of two events for
    2024-02-01. *)
Lemma timestamps_on_whole_seconds_witness :
  generate_incremental_data (R := lcg) (F := octets_ipv4 lcg) small_generator
    (datetime.of_ymd 2024 2 1) 2 (lcg_world counting_entropy)
  = (Ret sample_incremental_events,
     snd (generate_incremental_data (R := lcg) (F := octets_ipv4 lcg)
            small_generator (datetime.of_ymd 2024 2 1) 2
            (lcg_world counting_entropy)))
  /\ Forall (fun e => exists t, timestamp_of e = Some t
              /\ t mod datetime.US_PER_SECOND = 0)
            sample_incremental_events.
Proof.
  assert (Hf : fst (generate_incremental_data (R := lcg) (F := octets_ipv4 lcg)
                      small_generator (datetime.of_ymd 2024 2 1) 2
                      (lcg_world counting_entropy))
               = Ret sample_incremental_events)
    by (vm_compute; reflexivity).
  assert (H : generate_incremental_data (R := lcg) (F := octets_ipv4 lcg)
                small_generator (datetime.of_ymd 2024 2 1) 2
                (lcg_world counting_entropy)
              = (Ret sample_incremental_events,
                 snd (generate_incremental_data (R := lcg) (F := octets_ipv4 lcg)
                        small_generator (datetime.of_ymd 2024 2 1) 2
                        (lcg_world counting_entropy))))
    by (rewrite <- Hf; apply surjective_pairing).
  split; [exact H|].
  exact (proj2 (timestamps_on_whole_seconds (R := lcg) (F := octets_ipv4 lcg)
                  small_generator)
           (datetime.of_ymd 2024 2 1) 2 (lcg_world counting_entropy)
           sample_incremental_events _ H).
Defined.
